(** * Document lifecycle and audit trail of the townhall panel

    A shallow embedding of the document-routing core of the application
    (FastAPI endpoints, repositories over MongoDB collections and the
    notification service) together with the properties its specification
    states about it.

    Python coroutines become computations in a state-and-exception monad
    over a [World] that holds the five MongoDB collections.  Everything the
    code cannot decide by itself is read from oracles stored in the world:
    the wall clock, the ObjectIds the server hands out, and whether a given
    round trip to the database raises. *)

From Stdlib Require Import String Ascii List Bool Arith PeanoNat NArith Lia.
From Stdlib Require Import Sorting.Sorted Sorting.Permutation.
Import ListNotations.
Open Scope string_scope.
Open Scope list_scope.
Open Scope nat_scope.

Infix "+++" := String.append (right associativity, at level 60).
Arguments String.append : simpl never.

Set Implicit Arguments.

(** ** Python values used by the code *)

Module Py.

(** Truth value of an [Optional[str]]: [None] and the empty string are falsy. *)
Definition truthy (o : option string) : bool :=
  match o with
  | Some s => negb (String.eqb s "")
  | None => false
  end.

(** [str(x)] where [x] is an optional string or ObjectId. *)
Definition str (o : option string) : string :=
  match o with
  | Some s => s
  | None => "None"
  end.

(** [d.get(key, default)]. *)
Definition get {A} (o : option A) (default : A) : A :=
  match o with
  | Some a => a
  | None => default
  end.

Definition digit_of_nat (n : nat) : ascii :=
  ascii_of_nat (48 + n mod 10).

(** Decimal rendering of a natural number, as [str(n)] and [f"{n}"] do. *)
Fixpoint decimal_fuel (fuel n : nat) (acc : string) : string :=
  match fuel with
  | O => acc
  | S fuel' =>
      let acc' := String (digit_of_nat n) acc in
      if n <? 10 then acc' else decimal_fuel fuel' (n / 10) acc'
  end.

Definition decimal (n : nat) : string := decimal_fuel (S n) n "".

Fixpoint zeros (k : nat) : string :=
  match k with
  | O => ""
  | S k' => String "0" (zeros k')
  end.

(** [f"{n:0{width}d}"]: pads with zeros on the left, never truncates. *)
Definition zero_pad (width n : nat) : string :=
  let s := decimal n in
  zeros (width - String.length s) +++ s.

Definition is_digit (c : ascii) : bool :=
  let n := nat_of_ascii c in (48 <=? n) && (n <=? 57).

Fixpoint int_digits (s : string) (acc : nat) : option nat :=
  match s with
  | EmptyString => Some acc
  | String c s' =>
      if is_digit c then int_digits s' (10 * acc + (nat_of_ascii c - 48))
      else None
  end.

(** [int(s)] on a string of ASCII decimal digits; [None] stands for the
    [ValueError] Python raises, as it does on the empty string.  The other
    spellings [int] accepts (sign, surrounding blanks, underscores) are not
    produced by any writer of the collection and are treated as errors. *)
Definition int (s : string) : option nat :=
  match s with
  | EmptyString => None
  | _ => int_digits s 0
  end.

Fixpoint starts_with (p s : string) : bool :=
  match p, s with
  | EmptyString, _ => true
  | String a p', String b s' => Ascii.eqb a b && starts_with p' s'
  | String _ _, EmptyString => false
  end.

End Py.

(** ** bson.ObjectId *)

Module Bson.

(** An ObjectId is kept in its canonical form, the 24 lower-case
    hexadecimal digits that [str(oid)] prints. *)
Definition oid := string.

Definition hex_lower (c : ascii) : option ascii :=
  let n := nat_of_ascii c in
  if (48 <=? n) && (n <=? 57) then Some c
  else if (97 <=? n) && (n <=? 102) then Some c
  else if (65 <=? n) && (n <=? 70) then Some (ascii_of_nat (n + 32))
  else None.

Fixpoint hex_canonical (s : string) : option string :=
  match s with
  | EmptyString => Some EmptyString
  | String c s' =>
      match hex_lower c, hex_canonical s' with
      | Some c', Some r => Some (String c' r)
      | _, _ => None
      end
  end.

(** [ObjectId(s)] for a string [s]: [None] stands for [InvalidId]. *)
Definition ObjectId (s : string) : option oid :=
  if String.length s =? 24 then hex_canonical s else None.

(** An ObjectId whose digits spell the number [n]; used to build examples. *)
Definition oid_of_nat (n : nat) : oid := Py.zero_pad 24 n.

End Bson.

Import Bson.

(** ** Enumerations (app/schemas, app/utils/constants.py) *)

Module UserRole.
Inductive t := ADMIN | DEPARTMENT_HEAD | EMPLOYEE.
Definition eqb (a b : t) : bool :=
  match a, b with
  | ADMIN, ADMIN | DEPARTMENT_HEAD, DEPARTMENT_HEAD | EMPLOYEE, EMPLOYEE => true
  | _, _ => false
  end.
Definition value (r : t) : string :=
  match r with
  | ADMIN => "admin"
  | DEPARTMENT_HEAD => "department_head"
  | EMPLOYEE => "employee"
  end.
End UserRole.

Module DocumentStatus.
Inductive t := DRAFT | PENDING | IN_PROGRESS | COMPLETED | ARCHIVED.
Definition value (s : t) : string :=
  match s with
  | DRAFT => "draft"
  | PENDING => "pending"
  | IN_PROGRESS => "in_progress"
  | COMPLETED => "completed"
  | ARCHIVED => "archived"
  end.
End DocumentStatus.

Module DocumentPriority.
Inductive t := LOW | MEDIUM | HIGH | URGENT.
Definition value (p : t) : string :=
  match p with
  | LOW => "low"
  | MEDIUM => "medium"
  | HIGH => "high"
  | URGENT => "urgent"
  end.
End DocumentPriority.

Module DocumentType.
Inductive t := REQUEST | RESPONSE | MEMO | REPORT | NOTIFICATION | OTHER.
End DocumentType.

Module DocumentAction.
Inductive t :=
  | CREATED | FORWARDED | VIEWED | RESPONDED | STATUS_CHANGED | MODIFIED
  | ARCHIVED | FILE_ADDED | FILE_REMOVED | ASSIGNED.
End DocumentAction.

Module NotificationType.
Inductive t :=
  | DOCUMENT_RECEIVED | DOCUMENT_FORWARDED | RESPONSE_RECEIVED
  | STATUS_CHANGED | DEADLINE_APPROACHING.
End NotificationType.

(** ** Stored records *)

(** A [datetime]: the calendar year and the position inside that year. *)
Record datetime := mk_datetime { year : nat; instant : nat }.

Definition epoch : datetime := mk_datetime 1970 0.

(** The order of datetimes: by year, then by the position inside the year. *)
Definition datetime_leb (a b : datetime) : bool :=
  (year a <? year b) || ((year a =? year b) && (instant a <=? instant b)).

Record FileInfo := mk_FileInfo {
    file_id : string;
    filename : string;
    content_type : string;
    size : N;
    uploaded_at : datetime;
    uploaded_by : string
  }.

(** A user; [department_id] is the department reference stored as a
    string, the way the registration endpoint stores it.  A reference
    stored as an ObjectId (as the seed script does) is equal to no string
    in a query filter and is not covered by this record. *)
Record User := mk_User {
    user_oid : oid;
    email : string;
    full_name : option string;
    department_id : string;
    role : UserRole.t;
    is_active : option bool;
    user_created_at : datetime;
    user_updated_at : datetime
  }.

Record Department := mk_Department {
    department_oid : oid;
    name : option string;
    department_created_at : datetime;
    department_updated_at : datetime
  }.

Record Document := mk_Document {
    document_oid : oid;
    document_number : string;
    title : string;
    description : string;
    document_type : DocumentType.t;
    priority : DocumentPriority.t;
    status : DocumentStatus.t;
    creator_id : string;
    creator_department_id : string;
    current_holder_department_id : string;
    assigned_to_user_id : option string;
    files : list FileInfo;
    metadata : list (string * string);
    created_at : datetime;
    updated_at : datetime;
    archived_at : option datetime
  }.

Record History := mk_History {
    history_oid : oid;
    document_id : string;
    action : DocumentAction.t;
    performed_by : string;
    performed_by_name : string;
    performed_by_department : option string;
    history_document_number : option string;
    from_department_id : option string;
    to_department_id : option string;
    comment : option string;
    old_status : option DocumentStatus.t;
    new_status : option DocumentStatus.t;
    status_reason : option string;
    history_metadata : list (string * string);
    timestamp : datetime;
    history_created_at : datetime;
    history_updated_at : datetime
  }.

Record Notification := mk_Notification {
    notification_oid : oid;
    user_id : string;
    notification_document_id : string;
    notification_type : NotificationType.t;
    notification_title : string;
    message : string;
    is_read : bool;
    email_sent : bool;
    notification_metadata : list (string * string);
    read_at : option datetime;
    notification_created_at : datetime;
    notification_updated_at : datetime
  }.

(** Decidable equality of stored records: MongoDB reports a row as modified
    only when an update changed it. *)

Definition datetime_eq_dec (a b : datetime) : {a = b} + {a <> b}.
  Proof. repeat decide equality. Defined.

Definition FileInfo_eq_dec (a b : FileInfo) : {a = b} + {a <> b}.
  Proof. repeat decide equality. Defined.

Definition User_eq_dec (a b : User) : {a = b} + {a <> b}.
  Proof. repeat decide equality. Defined.

Definition Department_eq_dec (a b : Department) : {a = b} + {a <> b}.
  Proof. repeat decide equality. Defined.

Definition Document_eq_dec (a b : Document) : {a = b} + {a <> b}.
  Proof. repeat decide equality. Defined.

Definition History_eq_dec (a b : History) : {a = b} + {a <> b}.
  Proof. repeat decide equality. Defined.

Definition Notification_eq_dec (a b : Notification) : {a = b} + {a <> b}.
  Proof. repeat decide equality. Defined.

(** ** The world: collections, oracles and the record of pipeline steps *)

(** The three steps of a lifecycle transition that the endpoints perform
    one after the other. *)
Inductive Step := Mutation | Ledger | Fanout.

(** The collections of app/db/mongodb.py. *)
Module Collections.
Inductive t := USERS | DEPARTMENTS | DOCUMENTS | DOCUMENT_HISTORY | NOTIFICATIONS.
End Collections.

(** What is recorded of a request: the endpoint started a step, a step it
    had started raised an exception into the endpoint, or the driver was
    asked to write into a collection. *)
Inductive StepEvent :=
  | Begin (s : Step)
  | Raised (s : Step)
  | Write (c : Collections.t).

(** A call queued with [background_tasks.add_task] for the e-mail sender. *)
Record Email := mk_Email {
    to_email : string;
    email_type : NotificationType.t;
    email_title : string;
    email_message : string;
    email_document_number : string
  }.

Record World := mk_World {
    documents : list Document;
    document_history : list History;
    notifications : list Notification;
    users : list User;
    departments : list Department;
    gridfs : list string;
    background_tasks : list Email;
    steps : list StepEvent;
    tick : nat;
    clock : nat -> datetime;
    server_oid : nat -> oid;
    fault : nat -> bool
  }.

Definition set_documents (l : list Document) (w : World) : World :=
  mk_World l (document_history w) (notifications w) (users w) (departments w)
    (gridfs w) (background_tasks w) (steps w) (tick w) (clock w) (server_oid w) (fault w).

Definition set_document_history (l : list History) (w : World) : World :=
  mk_World (documents w) l (notifications w) (users w) (departments w)
    (gridfs w) (background_tasks w) (steps w) (tick w) (clock w) (server_oid w) (fault w).

Definition set_notifications (l : list Notification) (w : World) : World :=
  mk_World (documents w) (document_history w) l (users w) (departments w)
    (gridfs w) (background_tasks w) (steps w) (tick w) (clock w) (server_oid w) (fault w).

Definition set_users (l : list User) (w : World) : World :=
  mk_World (documents w) (document_history w) (notifications w) l (departments w)
    (gridfs w) (background_tasks w) (steps w) (tick w) (clock w) (server_oid w) (fault w).

Definition set_departments (l : list Department) (w : World) : World :=
  mk_World (documents w) (document_history w) (notifications w) (users w) l
    (gridfs w) (background_tasks w) (steps w) (tick w) (clock w) (server_oid w) (fault w).

Definition set_gridfs (l : list string) (w : World) : World :=
  mk_World (documents w) (document_history w) (notifications w) (users w) (departments w)
    l (background_tasks w) (steps w) (tick w) (clock w) (server_oid w) (fault w).

Definition set_background_tasks (l : list Email) (w : World) : World :=
  mk_World (documents w) (document_history w) (notifications w) (users w) (departments w)
    (gridfs w) l (steps w) (tick w) (clock w) (server_oid w) (fault w).

Definition set_steps (l : list StepEvent) (w : World) : World :=
  mk_World (documents w) (document_history w) (notifications w) (users w) (departments w)
    (gridfs w) (background_tasks w) l (tick w) (clock w) (server_oid w) (fault w).

Definition set_tick (n : nat) (w : World) : World :=
  mk_World (documents w) (document_history w) (notifications w) (users w) (departments w)
    (gridfs w) (background_tasks w) (steps w) n (clock w) (server_oid w) (fault w).

(** ** Coroutines as computations that may raise *)

Inductive Exception :=
  | HTTPException (status_code : nat) (detail : string)
  | PyMongoError
  | InvalidId
  | NoFile
  | ValueError
  | AttributeError.

Definition HTTP_400_BAD_REQUEST := 400.
Definition HTTP_403_FORBIDDEN := 403.
Definition HTTP_404_NOT_FOUND := 404.
Definition HTTP_500_INTERNAL_SERVER_ERROR := 500.

Inductive Outcome (A : Type) :=
  | Return (a : A)
  | Raise (e : Exception).

Arguments Return {A} a.
Arguments Raise {A} e.

Definition M (A : Type) := World -> Outcome A * World.

Definition ret {A} (a : A) : M A := fun w => (Return a, w).

Definition raise {A} (e : Exception) : M A := fun w => (Raise e, w).

Definition bind {A B} (m : M A) (k : A -> M B) : M B := fun w =>
  match m w with
  | (Return a, w') => k a w'
  | (Raise e, w') => (Raise e, w')
  end.

(** [try: m except Exception as e: h e] *)
Definition try {A} (m : M A) (h : Exception -> M A) : M A := fun w =>
  match m w with
  | (Return a, w') => (Return a, w')
  | (Raise e, w') => h e w'
  end.

Declare Scope monad_scope.
Delimit Scope monad_scope with monad.
Notation "x <- m ;; k" := (bind m (fun x => k))
  (at level 61, m at next level, right associativity) : monad_scope.
Notation "m ;; k" := (bind m (fun _ => k))
  (at level 61, right associativity) : monad_scope.
Open Scope monad_scope.

(** A step of the pipeline, as the endpoint performs it: [m] runs as it
    is; the start of the step is recorded, and so is an exception that
    leaves it. *)
Definition attempt {A} (s : Step) (m : M A) : M A := fun w =>
  match m (set_steps (steps w ++ [Begin s]) w) with
  | (Return a, w') => (Return a, w')
  | (Raise e, w') => (Raise e, set_steps (steps w' ++ [Raised s]) w')
  end.

(** [datetime.utcnow()] and [datetime.now(timezone.utc)]. *)
Definition utcnow : M datetime := fun w =>
  (Return (clock w (tick w)), set_tick (S (tick w)) w).

(** One round trip to the MongoDB server; the driver raises when the
    oracle says so. *)
Definition round_trip : M nat := fun w =>
  let n := tick w in
  if fault w n then (Raise PyMongoError, set_tick (S n) w)
  else (Return n, set_tick (S n) w).

(** ** Collections *)

Class Collection (T : Type) := {
    collection_name : Collections.t;
    rows : World -> list T;
    set_rows : list T -> World -> World;
    row_id : T -> oid;
    with_id : oid -> T -> T;
    with_created_at : datetime -> T -> T;
    with_updated_at : datetime -> T -> T;
    row_eqb : T -> T -> bool
  }.

Definition dec_eqb {T} (dec : forall a b : T, {a = b} + {a <> b}) (a b : T) : bool :=
  if dec a b then true else false.

#[export] Instance Documents : Collection Document := {
    collection_name := Collections.DOCUMENTS;
    rows := documents;
    set_rows := set_documents;
    row_id := document_oid;
    with_id id d :=
      mk_Document id (document_number d) (title d) (description d) (document_type d)
        (priority d) (status d) (creator_id d) (creator_department_id d)
        (current_holder_department_id d) (assigned_to_user_id d) (files d) (metadata d)
        (created_at d) (updated_at d) (archived_at d);
    with_created_at t d :=
      mk_Document (document_oid d) (document_number d) (title d) (description d)
        (document_type d) (priority d) (status d) (creator_id d) (creator_department_id d)
        (current_holder_department_id d) (assigned_to_user_id d) (files d) (metadata d)
        t (updated_at d) (archived_at d);
    with_updated_at t d :=
      mk_Document (document_oid d) (document_number d) (title d) (description d)
        (document_type d) (priority d) (status d) (creator_id d) (creator_department_id d)
        (current_holder_department_id d) (assigned_to_user_id d) (files d) (metadata d)
        (created_at d) t (archived_at d);
    row_eqb := dec_eqb Document_eq_dec
  }.

#[export] Instance DocumentHistory : Collection History := {
    collection_name := Collections.DOCUMENT_HISTORY;
    rows := document_history;
    set_rows := set_document_history;
    row_id := history_oid;
    with_id id h :=
      mk_History id (document_id h) (action h) (performed_by h) (performed_by_name h)
        (performed_by_department h) (history_document_number h) (from_department_id h)
        (to_department_id h) (comment h) (old_status h) (new_status h) (status_reason h)
        (history_metadata h) (timestamp h) (history_created_at h) (history_updated_at h);
    with_created_at t h :=
      mk_History (history_oid h) (document_id h) (action h) (performed_by h)
        (performed_by_name h) (performed_by_department h) (history_document_number h)
        (from_department_id h) (to_department_id h) (comment h) (old_status h)
        (new_status h) (status_reason h) (history_metadata h) (timestamp h) t
        (history_updated_at h);
    with_updated_at t h :=
      mk_History (history_oid h) (document_id h) (action h) (performed_by h)
        (performed_by_name h) (performed_by_department h) (history_document_number h)
        (from_department_id h) (to_department_id h) (comment h) (old_status h)
        (new_status h) (status_reason h) (history_metadata h) (timestamp h)
        (history_created_at h) t;
    row_eqb := dec_eqb History_eq_dec
  }.

#[export] Instance Notifications : Collection Notification := {
    collection_name := Collections.NOTIFICATIONS;
    rows := notifications;
    set_rows := set_notifications;
    row_id := notification_oid;
    with_id id n :=
      mk_Notification id (user_id n) (notification_document_id n) (notification_type n)
        (notification_title n) (message n) (is_read n) (email_sent n)
        (notification_metadata n) (read_at n) (notification_created_at n)
        (notification_updated_at n);
    with_created_at t n :=
      mk_Notification (notification_oid n) (user_id n) (notification_document_id n)
        (notification_type n) (notification_title n) (message n) (is_read n)
        (email_sent n) (notification_metadata n) (read_at n) t
        (notification_updated_at n);
    with_updated_at t n :=
      mk_Notification (notification_oid n) (user_id n) (notification_document_id n)
        (notification_type n) (notification_title n) (message n) (is_read n)
        (email_sent n) (notification_metadata n) (read_at n)
        (notification_created_at n) t;
    row_eqb := dec_eqb Notification_eq_dec
  }.

#[export] Instance Users : Collection User := {
    collection_name := Collections.USERS;
    rows := users;
    set_rows := set_users;
    row_id := user_oid;
    with_id id u :=
      mk_User id (email u) (full_name u) (department_id u) (role u) (is_active u)
        (user_created_at u) (user_updated_at u);
    with_created_at t u :=
      mk_User (user_oid u) (email u) (full_name u) (department_id u) (role u)
        (is_active u) t (user_updated_at u);
    with_updated_at t u :=
      mk_User (user_oid u) (email u) (full_name u) (department_id u) (role u)
        (is_active u) (user_created_at u) t;
    row_eqb := dec_eqb User_eq_dec
  }.

#[export] Instance Departments : Collection Department := {
    collection_name := Collections.DEPARTMENTS;
    rows := departments;
    set_rows := set_departments;
    row_id := department_oid;
    with_id id d := mk_Department id (name d) (department_created_at d) (department_updated_at d);
    with_created_at t d := mk_Department (department_oid d) (name d) t (department_updated_at d);
    with_updated_at t d := mk_Department (department_oid d) (name d) (department_created_at d) t;
    row_eqb := dec_eqb Department_eq_dec
  }.

(** *** Driver operations (motor / pymongo) *)

Module Motor.

(** Sorting on a key: the rows in the order [leb] asks for. *)
Fixpoint insert_sorted {A} (leb : A -> A -> bool) (x : A) (l : list A) : list A :=
  match l with
  | [] => [x]
  | y :: l' => if leb x y then x :: l else y :: insert_sorted leb x l'
  end.

Definition sort_by {A} (leb : A -> A -> bool) (l : list A) : list A :=
  fold_right (insert_sorted leb) [] l.

Section Driver.
Context {T : Type} `{Collection T}.

(** [collection.aggregate(pipeline).to_list(length)] *)
Definition aggregate {R} (pipeline : list T -> list R) (length : nat) : M (list R) :=
  _ <- round_trip ;;
  fun w => (Return (firstn length (pipeline (rows w))), w).

(** Every write the driver is asked for is recorded before it is sent. *)
Definition write_requested : M unit := fun w =>
  (Return tt, set_steps (steps w ++ [Write collection_name]) w).

Definition insert_one (data : T) : M oid :=
  write_requested ;;
  n <- round_trip ;;
  fun w =>
    let id := server_oid w n in
    (Return id, set_rows (rows w ++ [with_id id data]) w).

Definition find_one (filter : T -> bool) : M (option T) :=
  _ <- round_trip ;;
  fun w => (Return (List.find filter (rows w)), w).

(** [collection.find(filter).sort(sort).skip(skip).limit(limit)
    .to_list(length=limit)], for a positive [limit]. *)
Definition find (filter : T -> bool) (sort : option (T -> T -> bool))
    (skip limit : nat) : M (list T) :=
  _ <- round_trip ;;
  fun w =>
    let matching := List.filter filter (rows w) in
    let sorted := match sort with Some leb => sort_by leb matching | None => matching end in
    (Return (firstn limit (skipn skip sorted)), w).

Fixpoint update_first (filter : T -> bool) (set : T -> T) (l : list T)
    : list T * option T :=
  match l with
  | [] => ([], None)
  | r :: l' =>
      if filter r then (set r :: l', Some (set r))
      else let (l2, found) := update_first filter set l' in (r :: l2, found)
  end.

(** [find_one_and_update(filter, {"$set": ...}, return_document=True)] *)
Definition find_one_and_update (filter : T -> bool) (set : T -> T) : M (option T) :=
  write_requested ;;
  _ <- round_trip ;;
  fun w =>
    let (l, found) := update_first filter set (rows w) in
    (Return found, set_rows l w).

Definition modified (set : T -> T) (r : T) : bool := negb (row_eqb (set r) r).

(** [update_one(filter, update).modified_count] *)
Definition update_one (filter : T -> bool) (set : T -> T) : M nat :=
  write_requested ;;
  _ <- round_trip ;;
  fun w =>
    let count :=
      match List.find filter (rows w) with
      | Some r => if modified set r then 1 else 0
      | None => 0
      end in
    (Return count, set_rows (fst (update_first filter set (rows w))) w).

(** [update_many(filter, {"$set": ...}).modified_count] *)
Definition update_many (filter : T -> bool) (set : T -> T) : M nat :=
  write_requested ;;
  _ <- round_trip ;;
  fun w =>
    let touched := List.filter (fun r => filter r && modified set r) (rows w) in
    (Return (length touched),
     set_rows (map (fun r => if filter r then set r else r) (rows w)) w).

(** [count_documents(filter)] and [count_documents(filter, limit=n)] *)
Definition count_documents (filter : T -> bool) (limit : option nat) : M nat :=
  _ <- round_trip ;;
  fun w =>
    let matching := List.filter filter (rows w) in
    (Return (length (match limit with
                     | Some n => firstn n matching
                     | None => matching
                     end)), w).

Fixpoint remove_first (filter : T -> bool) (l : list T) : list T * nat :=
  match l with
  | [] => ([], 0)
  | r :: l' =>
      if filter r then (l', 1)
      else let (l2, deleted) := remove_first filter l' in (r :: l2, deleted)
  end.

(** [delete_one(filter).deleted_count] *)
Definition delete_one (filter : T -> bool) : M nat :=
  write_requested ;;
  _ <- round_trip ;;
  fun w =>
    let (l, deleted) := remove_first filter (rows w) in
    (Return deleted, set_rows l w).

End Driver.
End Motor.

(** ** app/db/repositories/base.py *)

Module BaseRepository.
Section Repository.
Context {T : Type} `{Collection T}.

Definition create (data : T) : M T :=
  created <- utcnow ;;
  updated <- utcnow ;;
  let data := with_updated_at updated (with_created_at created data) in
  inserted_id <- Motor.insert_one data ;;
  ret (with_id inserted_id data).

Definition find_by_id (id : string) : M (option T) :=
  try (match ObjectId id with
       | Some object_id => Motor.find_one (fun r => String.eqb (row_id r) object_id)
       | None => raise InvalidId
       end)
      (fun _ => ret None).

Definition find_many (filter : T -> bool) (skip limit : nat)
    (sort : option (T -> T -> bool)) : M (list T) :=
  Motor.find filter sort skip limit.

Definition update_by_id (id : string) (data : T -> T) : M (option T) :=
  try (match ObjectId id with
       | Some object_id =>
           now <- utcnow ;;
           Motor.find_one_and_update
             (fun r => String.eqb (row_id r) object_id)
             (fun r => with_updated_at now (data r))
       | None => raise InvalidId
       end)
      (fun _ => ret None).

Definition update_many (filter : T -> bool) (data : T -> T) : M nat :=
  now <- utcnow ;;
  Motor.update_many filter (fun r => with_updated_at now (data r)).

Definition find_one (filter : T -> bool) : M (option T) :=
  Motor.find_one filter.

Definition count (filter : T -> bool) : M nat :=
  Motor.count_documents filter None.

Definition delete_by_id (id : string) : M bool :=
  try (match ObjectId id with
       | Some object_id =>
           deleted_count <-
             Motor.delete_one (fun r => String.eqb (row_id r) object_id) ;;
           ret (0 <? deleted_count)
       | None => raise InvalidId
       end)
      (fun _ => ret false).

(** [exists] of the source. *)
Definition exists_ (filter : T -> bool) : M bool :=
  count <- Motor.count_documents filter (Some 1) ;;
  ret (0 <? count).

End Repository.
End BaseRepository.

(** ** app/db/repositories/document_repository.py *)

(** The dictionary an endpoint hands to [create_document]; [status] and
    [files] may be absent from it. *)
Record DocumentData := mk_DocumentData {
    data_title : string;
    data_description : string;
    data_document_type : DocumentType.t;
    data_priority : DocumentPriority.t;
    data_creator_id : string;
    data_creator_department_id : string;
    data_current_holder_department_id : string;
    data_assigned_to_user_id : option string;
    data_metadata : list (string * string);
    data_status : option DocumentStatus.t;
    data_files : option (list FileInfo)
  }.

Definition set_status (s : DocumentStatus.t) (d : Document) : Document :=
  mk_Document (document_oid d) (document_number d) (title d) (description d)
    (document_type d) (priority d) s (creator_id d) (creator_department_id d)
    (current_holder_department_id d) (assigned_to_user_id d) (files d) (metadata d)
    (created_at d) (updated_at d) (archived_at d).

Definition set_archived_at (t : datetime) (d : Document) : Document :=
  mk_Document (document_oid d) (document_number d) (title d) (description d)
    (document_type d) (priority d) (status d) (creator_id d) (creator_department_id d)
    (current_holder_department_id d) (assigned_to_user_id d) (files d) (metadata d)
    (created_at d) (updated_at d) (Some t).

Definition set_current_holder_department_id (dep : string) (d : Document) : Document :=
  mk_Document (document_oid d) (document_number d) (title d) (description d)
    (document_type d) (priority d) (status d) (creator_id d) (creator_department_id d)
    dep (assigned_to_user_id d) (files d) (metadata d)
    (created_at d) (updated_at d) (archived_at d).

Definition set_assigned_to_user_id (u : option string) (d : Document) : Document :=
  mk_Document (document_oid d) (document_number d) (title d) (description d)
    (document_type d) (priority d) (status d) (creator_id d) (creator_department_id d)
    (current_holder_department_id d) u (files d) (metadata d)
    (created_at d) (updated_at d) (archived_at d).

Definition set_files (fs : list FileInfo) (d : Document) : Document :=
  mk_Document (document_oid d) (document_number d) (title d) (description d)
    (document_type d) (priority d) (status d) (creator_id d) (creator_department_id d)
    (current_holder_department_id d) (assigned_to_user_id d) fs (metadata d)
    (created_at d) (updated_at d) (archived_at d).

(** The fields of [DocumentUpdate] that [update_document] copies into its
    [$set] when they are not [None]. *)
Record DocumentUpdate := mk_DocumentUpdate {
    upd_title : option string;
    upd_description : option string;
    upd_document_type : option DocumentType.t;
    upd_priority : option DocumentPriority.t;
    upd_status : option DocumentStatus.t;
    upd_assigned_to_user_id : option string;
    upd_metadata : option (list (string * string))
  }.

Definition apply_update (u : DocumentUpdate) (d : Document) : Document :=
  mk_Document (document_oid d) (document_number d)
    (Py.get (upd_title u) (title d))
    (Py.get (upd_description u) (description d))
    (Py.get (upd_document_type u) (document_type d))
    (Py.get (upd_priority u) (priority d))
    (Py.get (upd_status u) (status d))
    (creator_id d) (creator_department_id d) (current_holder_department_id d)
    (match upd_assigned_to_user_id u with
     | Some a => Some a
     | None => assigned_to_user_id d
     end)
    (files d)
    (Py.get (upd_metadata u) (metadata d))
    (created_at d) (updated_at d) (archived_at d).

(** [filter_query["status"] = status], added to a filter when [status] is
    truthy. *)
Definition status_matches (status_ : option string) (d : Document) : bool :=
  if Py.truthy status_ then String.eqb (DocumentStatus.value (status d)) (Py.str status_)
  else true.

(** [sort=[("created_at", -1)]] *)
Definition newest_first (a b : Document) : bool :=
  datetime_leb (created_at b) (created_at a).

(** [counts[key] = counts.get(key, 0) + 1] on a dict, which keeps its keys
    in the order of their insertion. *)
Fixpoint count_key (key : string) (counts : list (string * nat)) : list (string * nat) :=
  match counts with
  | [] => [(key, 1)]
  | (k, n) :: rest =>
      if String.eqb k key then (k, n + 1) :: rest else (k, n) :: count_key key rest
  end.

(** The document the [$group] stage of [get_document_stats] produces. *)
Record StatsGroup := mk_StatsGroup {
    group_total_documents : nat;
    group_by_status : list string;
    group_by_priority : list string
  }.

Record DocumentStats := mk_DocumentStats {
    total_documents : nat;
    by_status : list (string * nat);
    by_priority : list (string * nat)
  }.

Module DocumentRepository.

(** The aggregation pipeline of [generate_document_number]:
    [$match] on [^DOC-<year>-], [$project] of
    [$substr: ["$document_number", 10, 5]], [$sort] descending on it,
    [$limit: 1]. *)
Definition pipeline (current_year : nat) (docs : list Document) : list string :=
  let prefix := "DOC-" +++ Py.decimal current_year +++ "-" in
  let matched := List.filter (fun d => Py.starts_with prefix (document_number d)) docs in
  let number_part := map (fun d => String.substring 10 5 (document_number d)) matched in
  firstn 1 (Motor.sort_by (fun a b => String.leb b a) number_part).

Definition generate_document_number : M string :=
  now <- utcnow ;;
  let current_year := year now in
  result <- Motor.aggregate (pipeline current_year) 1 ;;
  next_number <-
    match result with
    | number_part :: _ =>
        match Py.int number_part with
        | Some last_number => ret (last_number + 1)
        | None => raise ValueError
        end
    | [] => ret 1
    end ;;
  ret ("DOC-" +++ Py.decimal current_year +++ "-" +++ Py.zero_pad 5 next_number).

Definition create_document (document_data : DocumentData) : M Document :=
  document_number <- generate_document_number ;;
  BaseRepository.create
    (mk_Document "" document_number (data_title document_data)
       (data_description document_data) (data_document_type document_data)
       (data_priority document_data)
       (Py.get (data_status document_data) DocumentStatus.DRAFT)
       (data_creator_id document_data) (data_creator_department_id document_data)
       (data_current_holder_department_id document_data)
       (data_assigned_to_user_id document_data)
       (Py.get (data_files document_data) [])
       (data_metadata document_data) epoch epoch None).

Definition find_by_id (id : string) : M (option Document) :=
  BaseRepository.find_by_id id.

Definition update_by_id (id : string) (data : Document -> Document)
    : M (option Document) :=
  BaseRepository.update_by_id id data.

Definition update_status (document_id : string) (new_status : DocumentStatus.t)
    : M (option Document) :=
  BaseRepository.update_by_id document_id (set_status new_status).

Definition forward_document (document_id to_department_id : string)
    (assigned_to_user_id : option string) : M (option Document) :=
  BaseRepository.update_by_id document_id
    (fun d => set_assigned_to_user_id assigned_to_user_id
                (set_current_holder_department_id to_department_id d)).

Definition add_file (document_id : string) (file_info : FileInfo)
    : M (option Document) :=
  match ObjectId document_id with
  | None => raise InvalidId
  | Some object_id =>
      now <- utcnow ;;
      modified_count <-
        Motor.update_one
          (fun d => String.eqb (document_oid d) object_id)
          (fun d => with_updated_at now (set_files (files d ++ [file_info]) d)) ;;
      if 0 <? modified_count then find_by_id document_id else ret None
  end.

Definition remove_file (document_id file_id_ : string) : M (option Document) :=
  match ObjectId document_id with
  | None => raise InvalidId
  | Some object_id =>
      now <- utcnow ;;
      modified_count <-
        Motor.update_one
          (fun d => String.eqb (document_oid d) object_id)
          (fun d => with_updated_at now
             (set_files
                (List.filter (fun f => negb (String.eqb (file_id f) file_id_))
                   (files d)) d)) ;;
      if 0 <? modified_count then find_by_id document_id else ret None
  end.

Definition archive_document (document_id : string) : M (option Document) :=
  now <- utcnow ;;
  BaseRepository.update_by_id document_id
    (fun d => set_archived_at now (set_status DocumentStatus.ARCHIVED d)).

Definition find_by_creator (creator_id_ : string) (skip limit : nat)
    (status_ : option string) : M (list Document) :=
  BaseRepository.find_many
    (fun d => String.eqb (creator_id d) creator_id_ && status_matches status_ d)
    skip limit (Some newest_first).

Definition find_by_department (department_id_ : string) (skip limit : nat)
    (status_ : option string) (as_creator as_holder : bool) : M (list Document) :=
  let created d := String.eqb (creator_department_id d) department_id_ in
  let held d := String.eqb (current_holder_department_id d) department_id_ in
  let related d :=
    if as_creator && as_holder then created d || held d
    else if as_creator then created d
    else if as_holder then held d
    else created d || held d in
  BaseRepository.find_many (fun d => related d && status_matches status_ d)
    skip limit (Some newest_first).

Definition find_assigned_to_user (user_id_ : string) (skip limit : nat)
    (status_ : option string) : M (list Document) :=
  BaseRepository.find_many
    (fun d =>
       match assigned_to_user_id d with
       | Some a => String.eqb a user_id_
       | None => false
       end && status_matches status_ d)
    skip limit (Some newest_first).

(** The aggregation pipeline of [get_document_stats]: [$match] on the
    department when there is one, and a [$group] with [_id: None], which
    yields one document when anything matched and none otherwise. *)
Definition stats_pipeline (department_id_ : option string) (docs : list Document)
    : list StatsGroup :=
  let matched :=
    if Py.truthy department_id_ then
      List.filter
        (fun d => String.eqb (creator_department_id d) (Py.str department_id_)
                  || String.eqb (current_holder_department_id d) (Py.str department_id_))
        docs
    else docs in
  match matched with
  | [] => []
  | _ :: _ =>
      [mk_StatsGroup (length matched)
         (map (fun d => DocumentStatus.value (status d)) matched)
         (map (fun d => DocumentPriority.value (priority d)) matched)]
  end.

Definition get_document_stats (department_id_ : option string) : M DocumentStats :=
  result <- Motor.aggregate (stats_pipeline department_id_) 1 ;;
  match result with
  | [] => ret (mk_DocumentStats 0 [] [])
  | group :: _ =>
      let status_counts :=
        fold_left (fun counts status_ => count_key status_ counts)
          (group_by_status group) [] in
      let priority_counts :=
        fold_left (fun counts priority_ => count_key priority_ counts)
          (group_by_priority group) [] in
      ret (mk_DocumentStats (group_total_documents group) status_counts priority_counts)
  end.

End DocumentRepository.

(** ** app/db/repositories/user_repository.py, department_repository.py,
    document_history_repository.py, notification_repository.py *)

Module UserRepository.

Definition find_by_id (id : string) : M (option User) :=
  BaseRepository.find_by_id id.

(** [find_many]'s defaults apply: [skip=0], [limit=20], no sort.  The
    filter is an equality with the string [department_id]. *)
Definition find_by_department (department_id_ : string) : M (list User) :=
  BaseRepository.find_many
    (fun u => String.eqb (department_id u) department_id_) 0 20 None.

End UserRepository.

Module DepartmentRepository.

Definition find_by_id (id : string) : M (option Department) :=
  BaseRepository.find_by_id id.

End DepartmentRepository.

Definition set_timestamp (t : datetime) (h : History) : History :=
  mk_History (history_oid h) (document_id h) (action h) (performed_by h)
    (performed_by_name h) (performed_by_department h) (history_document_number h)
    (from_department_id h) (to_department_id h) (comment h) (old_status h)
    (new_status h) (status_reason h) (history_metadata h) t
    (history_created_at h) (history_updated_at h).

Module DocumentHistoryRepository.

Definition create_history_entry (history_data : History) : M History :=
  now <- utcnow ;;
  BaseRepository.create (set_timestamp now history_data).

(** [sort=[("timestamp", 1)]]: chronological order. *)
Definition oldest_first (a b : History) : bool :=
  datetime_leb (timestamp a) (timestamp b).

(** [sort=[("timestamp", -1)]]: most recent first. *)
Definition most_recent_first (a b : History) : bool :=
  datetime_leb (timestamp b) (timestamp a).

Definition find_by_document (document_id_ : string) (skip limit : nat)
    : M (list History) :=
  BaseRepository.find_many (fun h => String.eqb (document_id h) document_id_)
    skip limit (Some most_recent_first).

Definition find_by_user (user_id_ : string) (skip limit : nat) : M (list History) :=
  BaseRepository.find_many (fun h => String.eqb (performed_by h) user_id_)
    skip limit (Some most_recent_first).

Definition get_document_timeline (document_id_ : string) : M (list History) :=
  BaseRepository.find_many (fun h => String.eqb (document_id h) document_id_)
    0 1000 (Some oldest_first).

Definition get_forwarding_chain (document_id_ : string) : M (list History) :=
  BaseRepository.find_many
    (fun h =>
       String.eqb (document_id h) document_id_
       && match action h with
          | DocumentAction.FORWARDED => true
          | _ => false
          end)
    0 100 (Some oldest_first).

End DocumentHistoryRepository.

Definition set_read (t : datetime) (n : Notification) : Notification :=
  mk_Notification (notification_oid n) (user_id n) (notification_document_id n)
    (notification_type n) (notification_title n) (message n) true (email_sent n)
    (notification_metadata n) (Some t) (notification_created_at n)
    (notification_updated_at n).

Module NotificationRepository.

Definition find_by_id (id : string) : M (option Notification) :=
  BaseRepository.find_by_id id.

Definition mark_as_read (notification_id : string) : M (option Notification) :=
  now <- utcnow ;;
  BaseRepository.update_by_id notification_id (set_read now).

Definition mark_all_as_read (user_id_ : string) : M nat :=
  now <- utcnow ;;
  BaseRepository.update_many
    (fun n => String.eqb (user_id n) user_id_ && negb (is_read n))
    (set_read now).

Definition find_by_user (user_id_ : string) (is_read_ : option bool) (skip limit : nat)
    : M (list Notification) :=
  BaseRepository.find_many
    (fun n =>
       String.eqb (user_id n) user_id_
       && match is_read_ with
          | Some flag => Bool.eqb (is_read n) flag
          | None => true
          end)
    skip limit
    (Some (fun a b =>
             datetime_leb (notification_created_at b) (notification_created_at a))).

Definition count_unread (user_id_ : string) : M nat :=
  BaseRepository.count (fun n => String.eqb (user_id n) user_id_ && negb (is_read n)).

Definition delete_by_id (id : string) : M bool :=
  BaseRepository.delete_by_id (T := Notification) id.

End NotificationRepository.

(** ** app/services/notification_service.py *)

(** A Python [for] loop that threads its local variables through [acc]. *)
Fixpoint for_each {A B} (l : list A) (acc : B) (body : B -> A -> M B) : M B :=
  match l with
  | [] => ret acc
  | x :: l' => acc' <- body acc x ;; for_each l' acc' body
  end.

Module NotificationService.

Definition create_notification (user_id_ document_id_ : string)
    (notification_type_ : NotificationType.t) (title_ message_ : string)
    (metadata_ : list (string * string)) : M Notification :=
  BaseRepository.create
    (mk_Notification "" user_id_ document_id_ notification_type_ title_ message_
       false false metadata_ None epoch epoch).

(** [document.get(...)] and [document["_id"]] on the value the
    repository returned, which is [None] when the update found nothing. *)
Definition deref (document : option Document) : M Document :=
  match document with
  | Some d => ret d
  | None => raise AttributeError
  end.

Definition notify_document_created (document : option Document)
    (assigned_user_id : option string) : M (list Notification) :=
  d <- deref document ;;
  let doc_title := title d in
  let doc_number := document_number d in
  let document_id_ := document_oid d in
  if Py.truthy assigned_user_id then
    try (notif <- create_notification (Py.str assigned_user_id) document_id_
                    NotificationType.DOCUMENT_RECEIVED
                    ("New Document Assigned: " +++ doc_number)
                    ("You have been assigned document '" +++ doc_title +++ "' ("
                       +++ doc_number +++ ")")
                    [("action", "assigned")] ;;
         ret [notif])
        (fun _ => ret [])
  else ret [].

Definition notify_document_forwarded (document : option Document)
    (from_department_id_ to_department_id_ : string)
    (assigned_user_id : option string) (forwarded_by_name : string)
    : M (list Notification) :=
  d <- deref document ;;
  let doc_title := title d in
  let doc_number := document_number d in
  let document_id_ := document_oid d in
  target_dept <- DepartmentRepository.find_by_id to_department_id_ ;;
  let dept_name :=
    match target_dept with
    | Some dep => Py.get (name dep) "Unknown Department"
    | None => "Unknown Department"
    end in
  let metadata_ :=
    [("from_department_id", from_department_id_);
     ("to_department_id", to_department_id_);
     ("forwarded_by", forwarded_by_name)] in
  if Py.truthy assigned_user_id then
    try (notif <- create_notification (Py.str assigned_user_id) document_id_
                    NotificationType.DOCUMENT_FORWARDED
                    ("Document Forwarded to You: " +++ doc_number)
                    ("'" +++ doc_title +++ "' has been forwarded to you by "
                       +++ forwarded_by_name)
                    metadata_ ;;
         ret [notif])
        (fun _ => ret [])
  else
    users_ <- UserRepository.find_by_department to_department_id_ ;;
    for_each users_ []
      (fun notifications_ user =>
         if Py.get (is_active user) true then
           try (notif <- create_notification (user_oid user) document_id_
                           NotificationType.DOCUMENT_FORWARDED
                           ("Document Forwarded to " +++ dept_name +++ ": " +++ doc_number)
                           ("'" +++ doc_title
                              +++ "' has been forwarded to your department by "
                              +++ forwarded_by_name)
                           metadata_ ;;
                ret (notifications_ ++ [notif]))
               (fun _ => ret notifications_)
         else ret notifications_).

Definition notify_status_changed (document : option Document)
    (old_status_ new_status_ : DocumentStatus.t) (changed_by_name : string)
    : M (list Notification) :=
  d <- deref document ;;
  let doc_title := title d in
  let doc_number := document_number d in
  let document_id_ := document_oid d in
  let creator_id_ := creator_id d in
  let assigned_user_id := assigned_to_user_id d in
  let message_ :=
    "Document '" +++ doc_title +++ "' status changed from "
      +++ DocumentStatus.value old_status_ +++ " to "
      +++ DocumentStatus.value new_status_ +++ " by " +++ changed_by_name in
  let metadata_ :=
    [("old_status", DocumentStatus.value old_status_);
     ("new_status", DocumentStatus.value new_status_);
     ("changed_by", changed_by_name)] in
  notifications_ <-
    try (notif <- create_notification creator_id_ document_id_
                    NotificationType.STATUS_CHANGED
                    ("Status Changed: " +++ doc_number) message_ metadata_ ;;
         ret [notif])
        (fun _ => ret []) ;;
  if Py.truthy assigned_user_id && negb (String.eqb (Py.str assigned_user_id) creator_id_)
  then
    try (notif <- create_notification (Py.str assigned_user_id) document_id_
                    NotificationType.STATUS_CHANGED
                    ("Status Changed: " +++ doc_number) message_ metadata_ ;;
         ret (notifications_ ++ [notif]))
        (fun _ => ret notifications_)
  else ret notifications_.

Definition notify_document_assigned (document : option Document)
    (new_assignee_id assigned_by_name : string) : M (option Notification) :=
  d <- deref document ;;
  let doc_title := title d in
  let doc_number := document_number d in
  let document_id_ := document_oid d in
  try (notif <- create_notification new_assignee_id document_id_
                  NotificationType.DOCUMENT_RECEIVED
                  ("Document Assigned to You: " +++ doc_number)
                  ("You have been assigned document '" +++ doc_title +++ "' by "
                     +++ assigned_by_name)
                  [("assigned_by", assigned_by_name)] ;;
       ret (Some notif))
      (fun _ => ret None).

End NotificationService.

(** ** app/api/v1/endpoints/documents.py *)

(** Request bodies (app/schemas/document.py). *)
Record DocumentCreate := mk_DocumentCreate {
    create_title : string;
    create_description : string;
    create_document_type : DocumentType.t;
    create_priority : DocumentPriority.t;
    create_metadata : option (list (string * string));
    create_assigned_to_user_id : option string
  }.

Record DocumentForward := mk_DocumentForward {
    forward_to_department_id : string;
    forward_assigned_to_user_id : option string;
    forward_comment : option string
  }.

Record DocumentStatusUpdate := mk_DocumentStatusUpdate {
    update_status_value : DocumentStatus.t;
    update_reason : option string
  }.

(** The keyword arguments [create_audit_entry] copies into the entry. *)
Record AuditKwargs := mk_AuditKwargs {
    kw_from_department_id : option string;
    kw_to_department_id : option string;
    kw_comment : option string;
    kw_old_status : option DocumentStatus.t;
    kw_new_status : option DocumentStatus.t;
    kw_status_reason : option string
  }.

Definition no_kwargs : AuditKwargs := mk_AuditKwargs None None None None None None.

Definition with_comment (c : option string) : AuditKwargs :=
  mk_AuditKwargs None None c None None None.

Module documents.

Definition create_audit_entry (document_id_ : string) (action_ : DocumentAction.t)
    (user : User) (kwargs : AuditKwargs) : M unit :=
  let history_data :=
    mk_History "" document_id_ action_ (user_oid user)
      (Py.get (full_name user) "Unknown") (Some (department_id user)) None
      (kw_from_department_id kwargs) (kw_to_department_id kwargs) (kw_comment kwargs)
      (kw_old_status kwargs) (kw_new_status kwargs) (kw_status_reason kwargs)
      [] epoch epoch epoch in
  _ <- DocumentHistoryRepository.create_history_entry history_data ;;
  ret tt.

(** The loop that queues one e-mail per created notification. *)
Definition send_emails (notifications_ : list Notification)
    (document : option Document) : M unit :=
  for_each notifications_ tt
    (fun _ notif =>
       user <- UserRepository.find_by_id (user_id notif) ;;
       match user with
       | Some u =>
           d <- NotificationService.deref document ;;
           fun w =>
             (Return tt,
              set_background_tasks
                (background_tasks w ++
                   [mk_Email (email u) (notification_type notif)
                      (notification_title notif) (message notif) (document_number d)])
                w)
       | None => ret tt
       end).

Definition create_document (document_data : DocumentCreate) (current_user : User)
    : M Document :=
  (if Py.truthy (create_assigned_to_user_id document_data) then
     assigned_user <-
       UserRepository.find_by_id (Py.str (create_assigned_to_user_id document_data)) ;;
     match assigned_user with
     | Some _ => ret tt
     | None => raise (HTTPException HTTP_404_NOT_FOUND "Assigned user not found")
     end
   else ret tt) ;;
  let new_document :=
    mk_DocumentData (create_title document_data) (create_description document_data)
      (create_document_type document_data) (create_priority document_data)
      (user_oid current_user) (department_id current_user) (department_id current_user)
      (create_assigned_to_user_id document_data)
      (Py.get (create_metadata document_data) []) None None in
  created_document <- attempt Mutation (DocumentRepository.create_document new_document) ;;
  attempt Ledger
    (create_audit_entry (document_oid created_document) DocumentAction.CREATED
       current_user
       (with_comment (Some ("Document created: " +++ create_title document_data)))) ;;
  (if Py.truthy (create_assigned_to_user_id document_data) then
     notifications_ <-
       attempt Fanout
         (NotificationService.notify_document_created (Some created_document)
            (create_assigned_to_user_id document_data)) ;;
     send_emails notifications_ (Some created_document)
   else ret tt) ;;
  ret created_document.

Definition get_document (document_id_ : string) (current_user : User) : M Document :=
  document <- DocumentRepository.find_by_id document_id_ ;;
  match document with
  | None => raise (HTTPException HTTP_404_NOT_FOUND "Document not found")
  | Some document =>
      let is_admin := UserRole.eqb (role current_user) UserRole.ADMIN in
      let user_dept := department_id current_user in
      let doc_creator_dept := creator_department_id document in
      let doc_holder_dept := current_holder_department_id document in
      let is_creator := String.eqb (creator_id document) (user_oid current_user) in
      let can_view :=
        is_admin || is_creator || String.eqb user_dept doc_creator_dept
        || String.eqb user_dept doc_holder_dept in
      if negb can_view then
        raise (HTTPException HTTP_403_FORBIDDEN "Not authorized to view this document")
      else
        attempt Ledger
          (create_audit_entry document_id_ DocumentAction.VIEWED current_user no_kwargs) ;;
        ret document
  end.

Definition update_document (document_id_ : string) (document_data : DocumentUpdate)
    (current_user : User) : M Document :=
  existing_doc <- DocumentRepository.find_by_id document_id_ ;;
  match existing_doc with
  | None => raise (HTTPException HTTP_404_NOT_FOUND "Document not found")
  | Some existing_doc =>
      let is_admin := UserRole.eqb (role current_user) UserRole.ADMIN in
      let is_dept_head := UserRole.eqb (role current_user) UserRole.DEPARTMENT_HEAD in
      let is_creator := String.eqb (creator_id existing_doc) (user_oid current_user) in
      let same_dept :=
        String.eqb (current_holder_department_id existing_doc)
          (department_id current_user) in
      let can_update := is_admin || is_creator || (is_dept_head && same_dept) in
      if negb can_update then
        raise (HTTPException HTTP_403_FORBIDDEN "Not authorized to update this document")
      else
        let old_assignee := assigned_to_user_id existing_doc in
        (match upd_assigned_to_user_id document_data with
         | Some assignee =>
             user <- UserRepository.find_by_id assignee ;;
             match user with
             | Some _ => ret tt
             | None => raise (HTTPException HTTP_404_NOT_FOUND "Assigned user not found")
             end
         | None => ret tt
         end) ;;
        updated <-
          attempt Mutation
            (DocumentRepository.update_by_id document_id_ (apply_update document_data)) ;;
        updated_document <-
          match updated with
          | Some d => ret d
          | None => raise (HTTPException HTTP_404_NOT_FOUND "Document not found")
          end ;;
        attempt Ledger
          (create_audit_entry document_id_ DocumentAction.MODIFIED current_user
             (with_comment (Some "Document updated"))) ;;
        let new_assignee := upd_assigned_to_user_id document_data in
        (if Py.truthy new_assignee
            && negb (String.eqb (Py.str old_assignee) (Py.str new_assignee))
         then
           notification <-
             attempt Fanout
               (NotificationService.notify_document_assigned (Some updated_document)
                  (Py.str new_assignee) (Py.get (full_name current_user) "Unknown")) ;;
           match notification with
           | Some notif =>
               user <- UserRepository.find_by_id (Py.str new_assignee) ;;
               match user with
               | Some u =>
                   fun w =>
                     (Return tt,
                      set_background_tasks
                        (background_tasks w ++
                           [mk_Email (email u) (notification_type notif)
                              (notification_title notif) (message notif)
                              (document_number updated_document)])
                        w)
               | None => ret tt
               end
           | None => ret tt
           end
         else ret tt) ;;
        ret updated_document
  end.

Definition forward_document (document_id_ : string) (forward_data : DocumentForward)
    (current_user : User) : M (option Document) :=
  document <- DocumentRepository.find_by_id document_id_ ;;
  match document with
  | None => raise (HTTPException HTTP_404_NOT_FOUND "Document not found")
  | Some document =>
      target_dept <-
        DepartmentRepository.find_by_id (forward_to_department_id forward_data) ;;
      match target_dept with
      | None => raise (HTTPException HTTP_404_NOT_FOUND "Target department not found")
      | Some _ =>
          (if Py.truthy (forward_assigned_to_user_id forward_data) then
             assigned_user <-
               UserRepository.find_by_id
                 (Py.str (forward_assigned_to_user_id forward_data)) ;;
             match assigned_user with
             | None =>
                 raise (HTTPException HTTP_404_NOT_FOUND "Assigned user not found")
             | Some assigned_user =>
                 if negb (String.eqb (department_id assigned_user)
                            (forward_to_department_id forward_data))
                 then
                   raise (HTTPException HTTP_400_BAD_REQUEST
                            "Assigned user must belong to the target department")
                 else ret tt
             end
           else ret tt) ;;
          let is_admin := UserRole.eqb (role current_user) UserRole.ADMIN in
          let is_dept_head := UserRole.eqb (role current_user) UserRole.DEPARTMENT_HEAD in
          let is_assigned :=
            String.eqb (Py.str (assigned_to_user_id document)) (user_oid current_user) in
          let same_dept :=
            String.eqb (current_holder_department_id document)
              (department_id current_user) in
          let can_forward := is_admin || (is_dept_head && same_dept) || is_assigned in
          if negb can_forward then
            raise (HTTPException HTTP_403_FORBIDDEN
                     "Not authorized to forward this document")
          else
            let from_department_id_ := current_holder_department_id document in
            updated_document <-
              attempt Mutation
                (DocumentRepository.forward_document document_id_
                   (forward_to_department_id forward_data)
                   (forward_assigned_to_user_id forward_data)) ;;
            attempt Ledger
              (create_audit_entry document_id_ DocumentAction.FORWARDED current_user
                 (mk_AuditKwargs (Some from_department_id_)
                    (Some (forward_to_department_id forward_data))
                    (forward_comment forward_data) None None None)) ;;
            notifications_ <-
              attempt Fanout
                (NotificationService.notify_document_forwarded updated_document
                   from_department_id_ (forward_to_department_id forward_data)
                   (forward_assigned_to_user_id forward_data)
                   (Py.get (full_name current_user) "Unknown")) ;;
            send_emails notifications_ updated_document ;;
            ret updated_document
      end
  end.

Definition update_document_status (document_id_ : string)
    (status_data : DocumentStatusUpdate) (current_user : User)
    : M (option Document) :=
  document <- DocumentRepository.find_by_id document_id_ ;;
  match document with
  | None => raise (HTTPException HTTP_404_NOT_FOUND "Document not found")
  | Some document =>
      let is_admin := UserRole.eqb (role current_user) UserRole.ADMIN in
      let is_dept_head := UserRole.eqb (role current_user) UserRole.DEPARTMENT_HEAD in
      let is_assigned :=
        String.eqb (Py.str (assigned_to_user_id document)) (user_oid current_user) in
      let same_dept :=
        String.eqb (current_holder_department_id document)
          (department_id current_user) in
      let can_update_status := is_admin || (is_dept_head && same_dept) || is_assigned in
      if negb can_update_status then
        raise (HTTPException HTTP_403_FORBIDDEN
                 "Not authorized to update document status")
      else
        let old_status_ := status document in
        updated_document <-
          attempt Mutation
            (DocumentRepository.update_status document_id_
               (update_status_value status_data)) ;;
        attempt Ledger
          (create_audit_entry document_id_ DocumentAction.STATUS_CHANGED current_user
             (mk_AuditKwargs None None None (Some old_status_)
                (Some (update_status_value status_data)) (update_reason status_data))) ;;
        notifications_ <-
          attempt Fanout
            (NotificationService.notify_status_changed updated_document old_status_
               (update_status_value status_data)
               (Py.get (full_name current_user) "Unknown")) ;;
        send_emails notifications_ updated_document ;;
        ret updated_document
  end.

Definition archive_document (document_id_ : string) (current_user : User) : M string :=
  document <- DocumentRepository.find_by_id document_id_ ;;
  match document with
  | None => raise (HTTPException HTTP_404_NOT_FOUND "Document not found")
  | Some document =>
      let is_admin := UserRole.eqb (role current_user) UserRole.ADMIN in
      let is_creator := String.eqb (creator_id document) (user_oid current_user) in
      if negb (is_admin || is_creator) then
        raise (HTTPException HTTP_403_FORBIDDEN
                 "Not authorized to archive this document")
      else
        _ <- attempt Mutation (DocumentRepository.archive_document document_id_) ;;
        attempt Ledger
          (create_audit_entry document_id_ DocumentAction.ARCHIVED current_user
             (with_comment (Some "Document archived"))) ;;
        ret ("Document " +++ document_number document +++ " archived successfully")
  end.

Definition get_document_history (document_id_ : string) (current_user : User)
    : M (list History) :=
  document <- DocumentRepository.find_by_id document_id_ ;;
  match document with
  | None => raise (HTTPException HTTP_404_NOT_FOUND "Document not found")
  | Some document =>
      let is_admin := UserRole.eqb (role current_user) UserRole.ADMIN in
      let user_dept := department_id current_user in
      let doc_creator_dept := creator_department_id document in
      let doc_holder_dept := current_holder_department_id document in
      let is_creator := String.eqb (creator_id document) (user_oid current_user) in
      let can_view :=
        is_admin || is_creator || String.eqb user_dept doc_creator_dept
        || String.eqb user_dept doc_holder_dept in
      if negb can_view then
        raise (HTTPException HTTP_403_FORBIDDEN
                 "Not authorized to view this document's history")
      else DocumentHistoryRepository.get_document_timeline document_id_
  end.

Definition get_document_stats (current_user : User) : M DocumentStats :=
  let is_admin := UserRole.eqb (role current_user) UserRole.ADMIN in
  let department_id_ := if is_admin then None else Some (department_id current_user) in
  DocumentRepository.get_document_stats department_id_.

(** The query parameters of [list_documents]. *)
Record ListQuery := mk_ListQuery {
    query_skip : nat;
    query_limit : nat;
    query_status : option DocumentStatus.t;
    query_search : option string;
    query_assigned_to_me : bool;
    query_created_by_me : bool
  }.

Section Listing.

(** [DocumentRepository.search_documents], whose [$regex] filters are left
    uninterpreted. *)
Variable search_documents : string -> option string -> nat -> nat -> M (list Document).

Definition list_documents (query : ListQuery) (current_user : User)
    : M (list Document) :=
  let skip := query_skip query in
  let limit := query_limit query in
  let status_ := option_map DocumentStatus.value (query_status query) in
  let is_admin := UserRole.eqb (role current_user) UserRole.ADMIN in
  if query_assigned_to_me query then
    DocumentRepository.find_assigned_to_user (user_oid current_user) skip limit status_
  else if query_created_by_me query then
    DocumentRepository.find_by_creator (user_oid current_user) skip limit status_
  else if Py.truthy (query_search query) then
    let department_id_ := if is_admin then None else Some (department_id current_user) in
    search_documents (Py.str (query_search query)) department_id_ skip limit
  else if is_admin then
    BaseRepository.find_many (status_matches status_) skip limit (Some newest_first)
  else
    DocumentRepository.find_by_department (department_id current_user) skip limit status_
      false false.

End Listing.

End documents.

(** ** app/core/gridfs_service.py *)

Module gridfs_service.

Definition upload_file (filename_ content_type_ user_id_ : string) : M string :=
  _ <- utcnow ;;
  n <- round_trip ;;
  fun w =>
    let fid := server_oid w n in
    (Return fid, set_gridfs (gridfs w ++ [fid]) w).

Definition delete_file (file_id_ : string) : M bool :=
  try (match ObjectId file_id_ with
       | None => raise InvalidId
       | Some object_id =>
           _ <- round_trip ;;
           fun w =>
             if existsb (String.eqb object_id) (gridfs w) then
               (Return true,
                set_gridfs
                  (List.filter (fun f => negb (String.eqb object_id f)) (gridfs w)) w)
             else (Raise NoFile, w)
       end)
      (fun _ => ret false).

End gridfs_service.

(** ** app/api/v1/endpoints/files.py *)

(** What the endpoint reads from the uploaded file: its name, the MIME
    type the client announced and the length of its content. *)
Record UploadFile := mk_UploadFile {
    upload_filename : string;
    upload_content_type : option string;
    upload_length : N
  }.

Module files.

Definition MAX_FILE_SIZE : N := (50 * 1024 * 1024)%N.

Definition ALLOWED_MIME_TYPES : list string :=
  [ "application/pdf";
    "application/msword";
    "application/vnd.openxmlformats-officedocument.wordprocessingml.document";
    "application/vnd.ms-excel";
    "application/vnd.openxmlformats-officedocument.spreadsheetml.sheet";
    "image/jpeg";
    "image/png";
    "image/gif";
    "text/plain";
    "application/zip" ].

Definition file_entry (document_id_ : string) (action_ : DocumentAction.t)
    (user : User) (comment_ : string) (metadata_ : list (string * string))
    : History :=
  mk_History "" document_id_ action_ (user_oid user)
    (Py.get (full_name user) "Unknown") (Some (department_id user)) None
    None None (Some comment_) None None None metadata_ epoch epoch epoch.

Definition upload_file_to_document (document_id_ : string) (file : UploadFile)
    (current_user : User) : M FileInfo :=
  document <- DocumentRepository.find_by_id document_id_ ;;
  match document with
  | None => raise (HTTPException HTTP_404_NOT_FOUND "Document not found")
  | Some document =>
      let is_admin := UserRole.eqb (role current_user) UserRole.ADMIN in
      let user_dept := department_id current_user in
      let doc_creator_dept := creator_department_id document in
      let doc_holder_dept := current_holder_department_id document in
      let is_creator := String.eqb (creator_id document) (user_oid current_user) in
      let can_upload :=
        is_admin || is_creator || String.eqb user_dept doc_creator_dept
        || String.eqb user_dept doc_holder_dept in
      if negb can_upload then
        raise (HTTPException HTTP_403_FORBIDDEN
                 "Not authorized to upload files to this document")
      else if (MAX_FILE_SIZE <? upload_length file)%N then
        raise (HTTPException HTTP_400_BAD_REQUEST "File too large")
      else
        match upload_content_type file with
        | None => raise (HTTPException HTTP_400_BAD_REQUEST "File type not allowed")
        | Some content_type_ =>
            if negb (existsb (String.eqb content_type_) ALLOWED_MIME_TYPES) then
              raise (HTTPException HTTP_400_BAD_REQUEST "File type not allowed")
            else
              try (file_id_ <-
                     gridfs_service.upload_file (upload_filename file) content_type_
                       (user_oid current_user) ;;
                   now <- utcnow ;;
                   let file_info :=
                     mk_FileInfo file_id_ (upload_filename file) content_type_
                       (upload_length file) now (user_oid current_user) in
                   _ <- attempt Mutation
                          (DocumentRepository.add_file document_id_ file_info) ;;
                   _ <- attempt Ledger
                          (DocumentHistoryRepository.create_history_entry
                             (file_entry document_id_ DocumentAction.FILE_ADDED
                                current_user
                                ("File uploaded: " +++ upload_filename file)
                                [("file_id", file_id_);
                                 ("filename", upload_filename file);
                                 ("size", Py.decimal (N.to_nat (upload_length file)))])) ;;
                   ret file_info)
                  (fun _ =>
                     raise (HTTPException HTTP_500_INTERNAL_SERVER_ERROR
                              "Error uploading file"))
        end
  end.

Definition delete_file_from_document (document_id_ file_id_ : string)
    (current_user : User) : M string :=
  document <- DocumentRepository.find_by_id document_id_ ;;
  match document with
  | None => raise (HTTPException HTTP_404_NOT_FOUND "Document not found")
  | Some document =>
      match List.find (fun f => String.eqb (file_id f) file_id_) (files document) with
      | None => raise (HTTPException HTTP_404_NOT_FOUND "File not found in document")
      | Some file_info =>
          let file_name := filename file_info in
          let is_admin := UserRole.eqb (role current_user) UserRole.ADMIN in
          let is_dept_head := UserRole.eqb (role current_user) UserRole.DEPARTMENT_HEAD in
          let is_creator := String.eqb (creator_id document) (user_oid current_user) in
          let same_dept :=
            String.eqb (current_holder_department_id document)
              (department_id current_user) in
          let can_delete := is_admin || is_creator || (is_dept_head && same_dept) in
          if negb can_delete then
            raise (HTTPException HTTP_403_FORBIDDEN
                     "Not authorized to delete files from this document")
          else
            _ <- attempt Mutation (DocumentRepository.remove_file document_id_ file_id_) ;;
            _ <- gridfs_service.delete_file file_id_ ;;
            _ <- attempt Ledger
                   (DocumentHistoryRepository.create_history_entry
                      (file_entry document_id_ DocumentAction.FILE_REMOVED current_user
                         ("File deleted: " +++ file_name)
                         [("file_id", file_id_); ("filename", file_name)])) ;;
            ret ("File '" +++ file_name +++ "' deleted successfully")
      end
  end.

Definition list_document_files (document_id_ : string) (current_user : User)
    : M (string * list FileInfo) :=
  document <- DocumentRepository.find_by_id document_id_ ;;
  match document with
  | None => raise (HTTPException HTTP_404_NOT_FOUND "Document not found")
  | Some document =>
      let is_admin := UserRole.eqb (role current_user) UserRole.ADMIN in
      let user_dept := department_id current_user in
      let doc_creator_dept := creator_department_id document in
      let doc_holder_dept := current_holder_department_id document in
      let is_creator := String.eqb (creator_id document) (user_oid current_user) in
      let can_view :=
        is_admin || is_creator || String.eqb user_dept doc_creator_dept
        || String.eqb user_dept doc_holder_dept in
      if negb can_view then
        raise (HTTPException HTTP_403_FORBIDDEN
                 "Not authorized to view files for this document")
      else ret (document_id_, files document)
  end.

End files.

(** ** app/api/v1/endpoints/notifications.py *)

Module notifications_api.

Definition mark_notification_read (notification_id : string) (current_user : User)
    : M Notification :=
  notification <- NotificationRepository.find_by_id notification_id ;;
  match notification with
  | None => raise (HTTPException HTTP_404_NOT_FOUND "Notification not found")
  | Some notification =>
      if negb (String.eqb (user_id notification) (user_oid current_user)) then
        raise (HTTPException HTTP_403_FORBIDDEN
                 "Not authorized to update this notification")
      else
        updated <- NotificationRepository.mark_as_read notification_id ;;
        match updated with
        | None => raise (HTTPException HTTP_404_NOT_FOUND "Failed to update notification")
        | Some updated => ret updated
        end
  end.

(** The endpoint answers with the message built from the count; the
    count is returned next to it. *)
Definition mark_all_read (current_user : User) : M (nat * string) :=
  updated_count <- NotificationRepository.mark_all_as_read (user_oid current_user) ;;
  ret (updated_count, Py.decimal updated_count +++ " notifications marked as read").

Definition list_notifications (skip limit : nat) (is_read_ : option bool)
    (current_user : User) : M (list Notification) :=
  NotificationRepository.find_by_user (user_oid current_user) is_read_ skip limit.

Definition get_unread_count (current_user : User) : M nat :=
  NotificationRepository.count_unread (user_oid current_user).

Definition delete_notification (notification_id : string) (current_user : User)
    : M string :=
  notification <- NotificationRepository.find_by_id notification_id ;;
  match notification with
  | None => raise (HTTPException HTTP_404_NOT_FOUND "Notification not found")
  | Some notification =>
      if negb (String.eqb (user_id notification) (user_oid current_user)) then
        raise (HTTPException HTTP_403_FORBIDDEN
                 "Not authorized to delete this notification")
      else
        deleted <- NotificationRepository.delete_by_id notification_id ;;
        if negb deleted then
          raise (HTTPException HTTP_404_NOT_FOUND "Failed to delete notification")
        else ret "Notification deleted successfully"
  end.

End notifications_api.

(** ** app/admin/actions/document_actions.py *)

Module DocumentActionService.

Definition _create_notification (user_id_ : string)
    (notification_type_ : NotificationType.t) (title_ message_ document_id_ : string)
    : M unit :=
  _ <- BaseRepository.create
         (mk_Notification "" user_id_ document_id_ notification_type_ title_ message_
            false false [] None epoch epoch) ;;
  ret tt.

Definition archive_document (document_id_ reason performed_by_id
    performed_by_name_ : string) : M Document :=
  document <- DocumentRepository.find_by_id document_id_ ;;
  match document with
  | None => raise ValueError
  | Some document =>
      updated_doc <- attempt Mutation (DocumentRepository.archive_document document_id_) ;;
      match updated_doc with
      | None => raise ValueError
      | Some updated_doc =>
          _ <- attempt Ledger
                 (DocumentHistoryRepository.create_history_entry
                    (mk_History "" document_id_ DocumentAction.ARCHIVED performed_by_id
                       performed_by_name_ None (Some (document_number document))
                       None None None None None None [("reason", reason)]
                       epoch epoch epoch)) ;;
          let creator_id_ := creator_id document in
          (if negb (String.eqb creator_id_ "") then
             attempt Fanout
               (_create_notification creator_id_ NotificationType.STATUS_CHANGED
                  "Document Archived"
                  ("Document '" +++ title document +++ "' ("
                     +++ document_number document +++ ") has been archived.")
                  document_id_)
           else ret tt) ;;
          ret updated_doc
      end
  end.

Definition _notify_department_users (department_id_ : string)
    (notification_type_ : NotificationType.t) (title_ message_ document_id_ : string)
    : M unit :=
  users_ <- UserRepository.find_by_department department_id_ ;;
  for_each users_ tt
    (fun _ user =>
       _create_notification (user_oid user) notification_type_ title_ message_
         document_id_).

(** [dept.get("name", "Unknown") if dept else "Unknown"] *)
Definition department_name (department : option Department) : string :=
  match department with
  | Some dep => Py.get (name dep) "Unknown"
  | None => "Unknown"
  end.

Definition forward_document (document_id_ to_department_id_ : string)
    (assigned_to_user_id_ : option string)
    (comment_ performed_by_id performed_by_name_ : string) : M Document :=
  document <- DocumentRepository.find_by_id document_id_ ;;
  match document with
  | None => raise ValueError
  | Some document =>
      let from_department_id_ := current_holder_department_id document in
      updated_doc <-
        attempt Mutation
          (DocumentRepository.forward_document document_id_ to_department_id_
             assigned_to_user_id_) ;;
      match updated_doc with
      | None => raise ValueError
      | Some updated_doc =>
          from_dept <-
            (if negb (String.eqb from_department_id_ "") then
               DepartmentRepository.find_by_id from_department_id_
             else ret None) ;;
          to_dept <- DepartmentRepository.find_by_id to_department_id_ ;;
          let from_dept_name := department_name from_dept in
          let to_dept_name := department_name to_dept in
          _ <- attempt Ledger
                 (DocumentHistoryRepository.create_history_entry
                    (mk_History "" document_id_ DocumentAction.FORWARDED performed_by_id
                       performed_by_name_ None (Some (document_number document))
                       (Some from_department_id_) (Some to_department_id_)
                       None None None None
                       [("comment", comment_);
                        ("from_department_name", from_dept_name);
                        ("to_department_name", to_dept_name)]
                       epoch epoch epoch)) ;;
          attempt Fanout
            (_notify_department_users to_department_id_
               NotificationType.DOCUMENT_FORWARDED
               "Document Forwarded to Your Department"
               ("Document '" +++ title document +++ "' ("
                  +++ document_number document +++ ") has been forwarded from "
                  +++ from_dept_name +++ ".")
               document_id_) ;;
          (if Py.truthy assigned_to_user_id_ then
             attempt Fanout
               (_create_notification (Py.str assigned_to_user_id_)
                  NotificationType.DOCUMENT_RECEIVED
                  "Document Assigned to You"
                  ("Document '" +++ title document +++ "' ("
                     +++ document_number document +++ ") has been assigned to you.")
                  document_id_)
           else ret tt) ;;
          ret updated_doc
      end
  end.

(** [new_status] ranges over the status values. *)
Definition change_status (document_id_ : string) (new_status_ : DocumentStatus.t)
    (reason performed_by_id performed_by_name_ : string) : M Document :=
  document <- DocumentRepository.find_by_id document_id_ ;;
  match document with
  | None => raise ValueError
  | Some document =>
      let old_status_ := status document in
      updated_doc <-
        attempt Mutation (DocumentRepository.update_status document_id_ new_status_) ;;
      match updated_doc with
      | None => raise ValueError
      | Some updated_doc =>
          _ <- attempt Ledger
                 (DocumentHistoryRepository.create_history_entry
                    (mk_History "" document_id_ DocumentAction.STATUS_CHANGED
                       performed_by_id performed_by_name_ None
                       (Some (document_number document))
                       None None None None None None
                       [("old_status", DocumentStatus.value old_status_);
                        ("new_status", DocumentStatus.value new_status_);
                        ("reason", reason)]
                       epoch epoch epoch)) ;;
          let creator_id_ := creator_id document in
          (if negb (String.eqb creator_id_ "") then
             attempt Fanout
               (_create_notification creator_id_ NotificationType.STATUS_CHANGED
                  "Document Status Changed"
                  ("Document '" +++ title document +++ "' status changed from '"
                     +++ DocumentStatus.value old_status_ +++ "' to '"
                     +++ DocumentStatus.value new_status_ +++ "'.")
                  document_id_)
           else ret tt) ;;
          let assigned_user_id := assigned_to_user_id document in
          (if Py.truthy assigned_user_id
              && negb (String.eqb (Py.str assigned_user_id) creator_id_)
           then
             attempt Fanout
               (_create_notification (Py.str assigned_user_id)
                  NotificationType.STATUS_CHANGED
                  "Document Status Changed"
                  ("Document '" +++ title document +++ "' status changed to '"
                     +++ DocumentStatus.value new_status_ +++ "'.")
                  document_id_)
           else ret tt) ;;
          ret updated_doc
      end
  end.

End DocumentActionService.

(** ** app/core/permissions.py *)

Module permissions.

Definition get_current_active_user (current_user : User) : M User :=
  if negb (Py.get (is_active current_user) true) then
    raise (HTTPException HTTP_403_FORBIDDEN "Inactive user")
  else ret current_user.

(** [str] of a list of strings that hold no quote or backslash. *)
Fixpoint list_items (l : list string) : string :=
  match l with
  | [] => ""
  | [s] => "'" +++ s +++ "'"
  | s :: rest => "'" +++ s +++ "', " +++ list_items rest
  end.

(** [RoleChecker(allowed_roles)(current_user)] *)
Definition RoleChecker (allowed_roles : list UserRole.t) (current_user : User) : M User :=
  let user_role := role current_user in
  if negb (existsb (UserRole.eqb user_role) allowed_roles) then
    raise (HTTPException HTTP_403_FORBIDDEN
             ("Access denied. Required roles: ["
                +++ list_items (map UserRole.value allowed_roles) +++ "]"))
  else ret current_user.

(** [DepartmentAccessChecker(allow_admin)(department_id, current_user)] *)
Definition DepartmentAccessChecker (allow_admin : bool) (department_id_ : string)
    (current_user : User) : M User :=
  let user_role := role current_user in
  let user_department_id := department_id current_user in
  if allow_admin && UserRole.eqb user_role UserRole.ADMIN then ret current_user
  else if negb (String.eqb user_department_id department_id_) then
    raise (HTTPException HTTP_403_FORBIDDEN
             "Access denied. You don't have access to this department")
  else ret current_user.

Definition require_admin (current_user : User) : M User :=
  RoleChecker [UserRole.ADMIN] current_user.

Definition require_department_head (current_user : User) : M User :=
  RoleChecker [UserRole.ADMIN; UserRole.DEPARTMENT_HEAD] current_user.

Definition require_authenticated (current_user : User) : M User :=
  ret current_user.

End permissions.

(** ** app/api/v1/endpoints/users.py *)

Record UserUpdate := mk_UserUpdate {
    upd_full_name : option string;
    upd_department_id : option string;
    upd_role : option UserRole.t;
    upd_is_active : option bool
  }.

(** The [$set] that [update_user] builds from the fields that are not
    [None]. *)
Definition apply_user_update (user_data : UserUpdate) (u : User) : User :=
  mk_User (user_oid u) (email u)
    (match upd_full_name user_data with
     | Some full_name_ => Some full_name_
     | None => full_name u
     end)
    (Py.get (upd_department_id user_data) (department_id u))
    (Py.get (upd_role user_data) (role u))
    (match upd_is_active user_data with
     | Some flag => Some flag
     | None => is_active u
     end)
    (user_created_at u) (user_updated_at u).

Definition set_is_active (flag : bool) (u : User) : User :=
  mk_User (user_oid u) (email u) (full_name u) (department_id u) (role u) (Some flag)
    (user_created_at u) (user_updated_at u).

Module users_api.

Definition get_user (user_id_ : string) (current_user : User) : M User :=
  user <- UserRepository.find_by_id user_id_ ;;
  match user with
  | None => raise (HTTPException HTTP_404_NOT_FOUND "User not found")
  | Some user =>
      let is_admin := UserRole.eqb (role current_user) UserRole.ADMIN in
      let is_same_department :=
        String.eqb (department_id user) (department_id current_user) in
      let is_self := String.eqb (user_oid user) (user_oid current_user) in
      if negb (is_admin || is_same_department || is_self) then
        raise (HTTPException HTTP_403_FORBIDDEN "Not authorized to view this user")
      else ret user
  end.

(** The endpoint with its dependency [Depends(require_admin)]. *)
Definition update_user (user_id_ : string) (user_data : UserUpdate) (current_user : User)
    : M User :=
  _ <- permissions.require_admin current_user ;;
  existing_user <- UserRepository.find_by_id user_id_ ;;
  match existing_user with
  | None => raise (HTTPException HTTP_404_NOT_FOUND "User not found")
  | Some _ =>
      (match upd_department_id user_data with
       | Some department_id_ =>
           department <- DepartmentRepository.find_by_id department_id_ ;;
           match department with
           | None => raise (HTTPException HTTP_404_NOT_FOUND "Department not found")
           | Some _ => ret tt
           end
       | None => ret tt
       end) ;;
      updated_user <-
        BaseRepository.update_by_id user_id_ (apply_user_update user_data) ;;
      match updated_user with
      | None => raise (HTTPException HTTP_404_NOT_FOUND "User not found")
      | Some updated_user => ret updated_user
      end
  end.

(** The endpoint with its dependency [Depends(require_admin)]. *)
Definition deactivate_user (user_id_ : string) (current_user : User) : M string :=
  _ <- permissions.require_admin current_user ;;
  existing_user <- UserRepository.find_by_id user_id_ ;;
  match existing_user with
  | None => raise (HTTPException HTTP_404_NOT_FOUND "User not found")
  | Some existing_user =>
      _ <- BaseRepository.update_by_id user_id_ (set_is_active false) ;;
      ret ("User " +++ email existing_user +++ " deactivated successfully")
  end.

End users_api.

(** * Notions used to state the properties *)

(** ** Relations between the world before and after a computation *)

Definition preserves (R : World -> World -> Prop) {A} (m : M A) : Prop :=
  forall w, R w (snd (m w)).

Class Frame (R : World -> World -> Prop) := {
  frame_refl : forall w, R w w;
  frame_trans : forall a b c, R a b -> R b c -> R a c
}.

(** A component of the world is left as it was. *)
Definition keeps {X} (f : World -> X) : World -> World -> Prop :=
  fun w w' => f w' = f w.

(** Nothing is recorded. *)
Definition silent {A} (m : M A) : Prop := preserves (keeps steps) m.

(** Only writes into the collection [c] are recorded. *)
Definition appends (c : Collections.t) : World -> World -> Prop :=
  fun w w' => exists t, steps w' = steps w ++ t /\ Forall (eq (Write c)) t.

Definition writes_only (c : Collections.t) {A} (m : M A) : Prop :=
  preserves (appends c) m.

(** ** The pipeline of a transition *)

Definition rank (s : Step) : nat :=
  match s with
  | Mutation => 1
  | Ledger => 2
  | Fanout => 3
  end.

(** The collection each step of the pipeline writes into. *)
Definition store (s : Step) : Collections.t :=
  match s with
  | Mutation => Collections.DOCUMENTS
  | Ledger => Collections.DOCUMENT_HISTORY
  | Fanout => Collections.NOTIFICATIONS
  end.

Definition stage (c : Collections.t) : nat :=
  match c with
  | Collections.DOCUMENTS => 1
  | Collections.DOCUMENT_HISTORY => 2
  | Collections.NOTIFICATIONS => 3
  | Collections.USERS | Collections.DEPARTMENTS => 0
  end.

(** [continues p t]: after the step of rank [p] has started, the record
    [t] goes on with writes into the collection of that step and with the
    steps of rank [p + 1], [p + 2], ... in this order; a step that raised
    is the one started last and ends the record.  Before the first step
    ([p = 0]) nothing is written. *)
Fixpoint continues (p : nat) (t : list StepEvent) : bool :=
  match t with
  | [] => true
  | Begin s :: t' => (rank s =? S p) && continues (S p) t'
  | Write c :: t' => (0 <? p) && (stage c =? p) && continues p t'
  | Raised s :: t' =>
      (rank s =? p) && match t' with [] => true | _ :: _ => false end
  end.

Definition accepted (p : nat) {A} (m : M A) : Prop :=
  forall w, exists t, steps (snd (m w)) = steps w ++ t /\ continues p t = true.

(** The transitions of the lifecycle engine, as the HTTP layer calls them. *)
Inductive Transition :=
| Create (document_data : DocumentCreate)
| Forward (document_id_ : string) (forward_data : DocumentForward)
| ChangeStatus (document_id_ : string) (status_data : DocumentStatusUpdate)
| Archive (document_id_ : string)
| Modify (document_id_ : string) (document_data : DocumentUpdate)
| AddFile (document_id_ : string) (file : UploadFile)
| RemoveFile (document_id_ file_id_ : string).

(** A transition run for its effect on the world. *)
Definition perform (tr : Transition) (current_user : User) : M unit :=
  match tr with
  | Create document_data =>
      _ <- documents.create_document document_data current_user ;; ret tt
  | Forward document_id_ forward_data =>
      _ <- documents.forward_document document_id_ forward_data current_user ;; ret tt
  | ChangeStatus document_id_ status_data =>
      _ <- documents.update_document_status document_id_ status_data current_user ;;
      ret tt
  | Archive document_id_ =>
      _ <- documents.archive_document document_id_ current_user ;; ret tt
  | Modify document_id_ document_data =>
      _ <- documents.update_document document_id_ document_data current_user ;; ret tt
  | AddFile document_id_ file =>
      _ <- files.upload_file_to_document document_id_ file current_user ;; ret tt
  | RemoveFile document_id_ file_id_ =>
      _ <- files.delete_file_from_document document_id_ file_id_ current_user ;; ret tt
  end.

(** The steps are started in the order mutation, ledger, fan-out. *)
Definition steps_in_order (t : list StepEvent) : Prop :=
  forall t1 s t2 s' t3,
    t = t1 ++ Begin s :: t2 ++ Begin s' :: t3 -> rank s < rank s'.

(** A write into the documents comes before every write into the history,
    and those before every write into the notifications. *)
Definition writes_in_order (t : list StepEvent) : Prop :=
  forall t1 c t2 c' t3,
    t = t1 ++ Write c :: t2 ++ Write c' :: t3 ->
    1 <= stage c /\ stage c <= stage c'.

(** Before the ledger or the notifications are touched, the mutation of
    the document has been started. *)
Definition mutation_first (t : list StepEvent) : Prop :=
  forall t1 e t2,
    t = t1 ++ e :: t2 ->
    e = Begin Ledger \/ e = Begin Fanout
    \/ e = Write Collections.DOCUMENT_HISTORY \/ e = Write Collections.NOTIFICATIONS ->
    In (Begin Mutation) t1.

(** Once a step has raised, nothing more is done. *)
Definition raise_is_last (t : list StepEvent) : Prop :=
  forall t1 s t2, t = t1 ++ Raised s :: t2 -> t2 = [].

Fixpoint begins (t : list StepEvent) : nat :=
  match t with
  | [] => 0
  | Begin _ :: t' => S (begins t')
  | _ :: t' => begins t'
  end.

(** ** Worlds and actors used in the examples *)

Module Sample.

Definition department_a : oid := oid_of_nat 1.
Definition department_b : oid := oid_of_nat 2.

Definition admin : User :=
  mk_User (oid_of_nat 11) "u@townhall" (Some "U") department_a UserRole.ADMIN
    (Some true) epoch epoch.

Definition clerk : User :=
  mk_User (oid_of_nat 12) "v@townhall" (Some "V") department_b UserRole.EMPLOYEE
    (Some true) epoch epoch.

Definition colleague (i : nat) : User :=
  mk_User (oid_of_nat (100 + i)) "staff@townhall" (Some "Staff") department_b
    UserRole.EMPLOYEE (Some true) epoch epoch.

(** A database that answers every request, in the year 2025. *)
Definition world (docs : list Document) (people : list User) : World :=
  mk_World docs [] [] people
    [ mk_Department department_a (Some "A") epoch epoch;
      mk_Department department_b (Some "B") epoch epoch ]
    [] [] [] 0
    (fun n => mk_datetime 2025 n)
    (fun n => oid_of_nat (1000 + n))
    (fun _ => false).

Definition numbered (i : nat) (number : string) : Document :=
  mk_Document (oid_of_nat (500 + i)) number "Budget" "Budget request"
    DocumentType.REQUEST DocumentPriority.MEDIUM DocumentStatus.DRAFT
    (user_oid admin) department_a department_a None [] [] epoch epoch None.

Definition memo : DocumentCreate :=
  mk_DocumentCreate "Budget" "Budget request" DocumentType.REQUEST
    DocumentPriority.MEDIUM None None.

End Sample.

(** The same world, with a database that fails at the round trips
    [failing] selects. *)
Definition with_fault (failing : nat -> bool) (w : World) : World :=
  mk_World (documents w) (document_history w) (notifications w) (users w)
    (departments w) (gridfs w) (background_tasks w) (steps w) (tick w) (clock w)
    (server_oid w) failing.

(** ** A database that answers *)

Definition no_faults (w : World) : Prop := forall n, fault w n = false.

(** The row an id resolves to: what [find_by_id] looks for. *)
Definition lookup {T} `{Collection T} (id : string) (l : list T) : option T :=
  match ObjectId id with
  | Some object_id => List.find (fun r => String.eqb (row_id r) object_id) l
  | None => None
  end.

Definition ticked (w : World) : World := set_tick (S (tick w)) w.

(** Reads leave the collections alone. *)
Definition collections (w : World) :=
  (documents w, document_history w, notifications w, users w, departments w).

(** ** The failure kinds of the specification *)

Inductive ErrorKind := NotFound | ValidationError | Forbidden | Unexpected.

(** The response category an exception is rendered as. *)
Definition kind (e : Exception) : ErrorKind :=
  match e with
  | HTTPException code _ =>
      if code =? HTTP_404_NOT_FOUND then NotFound
      else if code =? HTTP_400_BAD_REQUEST then ValidationError
      else if code =? HTTP_403_FORBIDDEN then Forbidden
      else Unexpected
  | _ => Unexpected
  end.

Definition fails_with {A} (r : Outcome A * World) (k : ErrorKind) : Prop :=
  exists e, fst r = Raise e /\ kind e = k.

Module CreateAssignee.
Import Sample.

Definition stranger : string := oid_of_nat 99.

Definition request : DocumentCreate :=
  mk_DocumentCreate "Budget" "Budget request" DocumentType.REQUEST
    DocumentPriority.MEDIUM None (Some stranger).

(** The same request with the empty string as assignee id. *)
Definition unnamed : DocumentCreate :=
  mk_DocumentCreate "Budget" "Budget request" DocumentType.REQUEST
    DocumentPriority.MEDIUM None (Some "").

Definition start : World := world [] [admin; clerk].
End CreateAssignee.

Module ForwardAssignee.
Import Sample.

Definition start : World := world [numbered 1 "DOC-2025-00001"] [admin; clerk].

Definition document : string := oid_of_nat 501.

(** The clerk belongs to department B; the document is sent to A. *)
Definition to_other_department : DocumentForward :=
  mk_DocumentForward department_a (Some (user_oid clerk)) None.

(** The same assignee, and a target department that does not exist. *)
Definition to_missing_department : DocumentForward :=
  mk_DocumentForward (oid_of_nat 3) (Some (user_oid clerk)) None.
End ForwardAssignee.

(** ** Document numbers *)

(** The last [k] characters of a string. *)
Definition trailing (k : nat) (s : string) : string :=
  String.substring (String.length s - k) k s.

(** The allocation rule in the words of the specification: among the
    existing numbers with the prefix of the current year, parse the
    trailing 5-digit segment as an integer, take the maximum, add one and
    zero-pad to 5 digits; [00001] when there is no such number. *)
Definition specified_number (current_year : nat) (docs : list Document) : string :=
  let prefix := "DOC-" +++ Py.decimal current_year +++ "-" in
  let matched := List.filter (fun d => Py.starts_with prefix (document_number d)) docs in
  let sequences :=
    flat_map (fun d =>
                match Py.int (trailing 5 (document_number d)) with
                | Some n => [n]
                | None => []
                end) matched in
  prefix +++ Py.zero_pad 5 (1 + fold_right Nat.max 0 sequences).

Module Numbering.
Import Sample.

(** The documents of 2025 once the sequence has reached 10000. *)
Definition start : World :=
  world [numbered 1 "DOC-2025-09999"; numbered 2 "DOC-2025-10000"] [admin; clerk].

End Numbering.

(** ** Fan-out, views and read flags *)

(** The active users of a department: those the fan-out loop would
    notify, were it given all of them. *)
Definition active_users (department : string) (people : list User) : list User :=
  List.filter
    (fun u => String.eqb (department_id u) department && Py.get (is_active u) true)
    people.

Module FanOut.
Import Sample.

(** Department B has 21 active users. *)
Definition start : World :=
  world [numbered 1 "DOC-2025-00001"] (admin :: map colleague (seq 0 21)).

Definition request : DocumentForward := mk_DocumentForward department_b None None.

End FanOut.

Module Archiving.
Import Sample.

Definition start : World := world [numbered 1 "DOC-2025-00001"] [admin; clerk].

Definition document : string := oid_of_nat 501.

End Archiving.

(** The test [get_document] applies to the actor. *)
Definition can_view (document : Document) (current_user : User) : bool :=
  UserRole.eqb (role current_user) UserRole.ADMIN
  || String.eqb (creator_id document) (user_oid current_user)
  || String.eqb (department_id current_user) (creator_department_id document)
  || String.eqb (department_id current_user) (current_holder_department_id document).

(** An entry of the ledger that records a view of [document_id_] by
    [current_user]. *)
Definition viewed_by (document_id_ : string) (current_user : User) (h : History) : Prop :=
  action h = DocumentAction.VIEWED
  /\ document_id h = document_id_
  /\ performed_by h = user_oid current_user.

(** The document detail is read once by each of the actors, in turn. *)
Fixpoint view_all (document_id_ : string) (actors : list User) (w : World)
    : list (Outcome Document) * World :=
  match actors with
  | [] => ([], w)
  | current_user :: rest =>
      let r := documents.get_document document_id_ current_user w in
      let (outcomes, w') := view_all document_id_ rest (snd r) in
      (fst r :: outcomes, w')
  end.

(** The filter of [mark_all_as_read]: [{"user_id": user_id, "is_read": False}]. *)
Definition unread_of (user_id_ : string) (n : Notification) : bool :=
  String.eqb (user_id n) user_id_ && negb (is_read n).

Module Inbox.
Import Sample.

(** A notification of the admin, read in 2024, and an unread one of the
    clerk. *)
Definition seen : Notification :=
  mk_Notification (oid_of_nat 700) (user_oid admin) (oid_of_nat 501)
    NotificationType.STATUS_CHANGED "Status Changed: DOC-2025-00001"
    "Document 'Budget' status changed from draft to pending by V"
    true false [] (Some (mk_datetime 2024 7)) epoch epoch.

Definition pending : Notification :=
  mk_Notification (oid_of_nat 701) (user_oid clerk) (oid_of_nat 501)
    NotificationType.DOCUMENT_FORWARDED "Document Forwarded to B: DOC-2025-00001"
    "'Budget' has been forwarded to your department by U"
    false false [] None epoch epoch.

Definition start : World :=
  set_notifications [seen; pending]
    (world [numbered 1 "DOC-2025-00001"] [admin; clerk]).

End Inbox.

(** The test [forward_document] applies to the actor. *)
Definition can_forward (document : Document) (current_user : User) : bool :=
  UserRole.eqb (role current_user) UserRole.ADMIN
  || (UserRole.eqb (role current_user) UserRole.DEPARTMENT_HEAD
      && String.eqb (current_holder_department_id document) (department_id current_user))
  || String.eqb (Py.str (assigned_to_user_id document)) (user_oid current_user).

(** What the fan-out reads and writes: notifications, users, departments
    and the failures of the database. *)
Definition directory (w : World) := (notifications w, users w, departments w, fault w).

(** ** Archive stamps and sequences of requests *)

(** The documents [l] become [l']: each of them is changed within [Q],
    in place, and the documents added behind them carry no archive stamp. *)
Definition evolve (Q : Document -> Document -> Prop) (l l' : list Document) : Prop :=
  exists changed added,
    l' = changed ++ added
    /\ Forall2 Q l changed
    /\ Forall (fun d => archived_at d = None) added.

Definition evolves (Q : Document -> Document -> Prop) : World -> World -> Prop :=
  fun w w' => evolve Q (documents w) (documents w').

(** The same document, with the archive stamp it had. *)
Definition stamp_kept (d d' : Document) : Prop :=
  document_oid d' = document_oid d /\ archived_at d' = archived_at d.

(** The same document; its archive stamp is the one it had, or its status
    is archived. *)
Definition stamped_when_archived (d d' : Document) : Prop :=
  document_oid d' = document_oid d
  /\ (archived_at d' = archived_at d \/ status d' = DocumentStatus.ARCHIVED).

(** What the application is asked to do: a lifecycle transition, a view, a
    change of the read flag of notifications, or an archive through the
    admin panel's action service. *)
Inductive Request :=
| Transit (tr : Transition) (current_user : User)
| View (document_id_ : string) (current_user : User)
| MarkRead (notification_id : string) (current_user : User)
| MarkAllRead (current_user : User)
| AdminArchive (document_id_ reason performed_by_id performed_by_name_ : string).

(** The world after a request has been served. *)
Definition serve (r : Request) (w : World) : World :=
  match r with
  | Transit tr current_user => snd (perform tr current_user w)
  | View document_id_ current_user =>
      snd (documents.get_document document_id_ current_user w)
  | MarkRead notification_id current_user =>
      snd (notifications_api.mark_notification_read notification_id current_user w)
  | MarkAllRead current_user => snd (notifications_api.mark_all_read current_user w)
  | AdminArchive document_id_ reason performed_by_id performed_by_name_ =>
      snd (DocumentActionService.archive_document document_id_ reason performed_by_id
             performed_by_name_ w)
  end.

(** The worlds the application goes through, the first one included. *)
Fixpoint worlds (requests : list Request) (w : World) : list World :=
  match requests with
  | [] => [w]
  | r :: rest => w :: worlds rest (serve r w)
  end.

(** The document at position [i], with ObjectId [id], had the status
    archived in one of the worlds [ws]. *)
Definition was_archived (i : nat) (id : oid) (ws : list World) : Prop :=
  exists w d,
    In w ws
    /\ nth_error (documents w) i = Some d
    /\ document_oid d = id
    /\ status d = DocumentStatus.ARCHIVED.

Module StatusRun.
Import Sample.

Definition start : World := world [] [admin; clerk].

(** The admin creates a document, which gets the ObjectId
    [000000000000000000001004], and sets its status to archived through
    the status endpoint. *)
Definition requests : list Request :=
  [ Transit (Create memo) admin;
    Transit (ChangeStatus (oid_of_nat 1004)
               (mk_DocumentStatusUpdate DocumentStatus.ARCHIVED (Some "closed")))
      admin ].

(** The same, with the archive endpoint. *)
Definition archive_requests : list Request :=
  [ Transit (Create memo) admin;
    Transit (Archive (oid_of_nat 1004)) admin ].

(** The scenario of the specification: U creates a document in department
    A, forwards it to V in department B and sets it to completed. *)
Definition scenario : list Request :=
  [ Transit (Create memo) admin;
    Transit (Forward (oid_of_nat 1004)
               (mk_DocumentForward department_b (Some (user_oid clerk))
                  (Some "Please review")))
      admin;
    Transit (ChangeStatus (oid_of_nat 1004)
               (mk_DocumentStatusUpdate DocumentStatus.COMPLETED None))
      admin ].

Definition final (rs : list Request) : World := fold_left (fun w r => serve r w) rs start.

End StatusRun.

(** ** The endpoints and what a refused request leaves behind *)

(** The HTTP endpoints of the model, as a client calls them. *)
Inductive Endpoint :=
| Lifecycle (tr : Transition)
| GetDocument (document_id_ : string)
| GetDocumentHistory (document_id_ : string)
| GetDocumentStats
| ListDocumentFiles (document_id_ : string)
| ListNotifications (skip limit : nat) (is_read_ : option bool)
| GetUnreadCount
| MarkNotificationRead (notification_id : string)
| MarkAllNotificationsRead
| DeleteNotification (notification_id : string)
| GetUser (user_id_ : string)
| UpdateUser (user_id_ : string) (user_data : UserUpdate)
| DeactivateUser (user_id_ : string).

(** An endpoint run for its answer and its effect on the world. *)
Definition call (endpoint : Endpoint) (current_user : User) : M unit :=
  match endpoint with
  | Lifecycle tr => perform tr current_user
  | GetDocument document_id_ =>
      _ <- documents.get_document document_id_ current_user ;; ret tt
  | GetDocumentHistory document_id_ =>
      _ <- documents.get_document_history document_id_ current_user ;; ret tt
  | GetDocumentStats =>
      _ <- documents.get_document_stats current_user ;; ret tt
  | ListDocumentFiles document_id_ =>
      _ <- files.list_document_files document_id_ current_user ;; ret tt
  | ListNotifications skip limit is_read_ =>
      _ <- notifications_api.list_notifications skip limit is_read_ current_user ;; ret tt
  | GetUnreadCount =>
      _ <- notifications_api.get_unread_count current_user ;; ret tt
  | MarkNotificationRead notification_id =>
      _ <- notifications_api.mark_notification_read notification_id current_user ;; ret tt
  | MarkAllNotificationsRead =>
      _ <- notifications_api.mark_all_read current_user ;; ret tt
  | DeleteNotification notification_id =>
      _ <- notifications_api.delete_notification notification_id current_user ;; ret tt
  | GetUser user_id_ =>
      _ <- users_api.get_user user_id_ current_user ;; ret tt
  | UpdateUser user_id_ user_data =>
      _ <- users_api.update_user user_id_ user_data current_user ;; ret tt
  | DeactivateUser user_id_ =>
      _ <- users_api.deactivate_user user_id_ current_user ;; ret tt
  end.

(** What the application stores, and what it has handed to the e-mail
    sender. *)
Definition stored (w : World) :=
  (collections w, gridfs w, background_tasks w).

(** The request was answered with one of the client errors 400, 403, 404. *)
Definition refused {A} (r : Outcome A * World) : Prop :=
  exists e, fst r = Raise e /\ kind e <> Unexpected.

(** Whenever [m] is refused, it has left what is stored as it was. *)
Definition harmless {A} (m : M A) : Prop :=
  forall w, refused (m w) -> stored (snd (m w)) = stored w.

(** [m] raises nothing that is answered with a client error. *)
Definition raises_unexpected {A} (m : M A) : Prop :=
  forall w e, fst (m w) = Raise e -> kind e = Unexpected.

(** [m] answers [nothing] only when it has left what is stored as it was. *)
Definition idle_when {A} (nothing : A) (m : M A) : Prop :=
  forall w, fst (m w) = Return nothing -> stored (snd (m w)) = stored w.

(** [o is None] *)
Definition is_none {A} (o : option A) : bool :=
  match o with
  | None => true
  | Some _ => false
  end.

(** ** Pages, timelines and statistics *)

(** The filter of [find_by_user]: the notifications of the user, with the
    read flag asked for when there is one. *)
Definition mine (current_user : User) (is_read_ : option bool) (n : Notification) : bool :=
  String.eqb (user_id n) (user_oid current_user)
  && match is_read_ with
     | Some flag => Bool.eqb (is_read n) flag
     | None => true
     end.

(** [sort=[("created_at", -1)]] on notifications. *)
Definition newer_first (a b : Notification) : Prop :=
  datetime_leb (notification_created_at b) (notification_created_at a) = true.

(** The filter of [get_document_timeline]. *)
Definition of_document (document_id_ : string) (h : History) : bool :=
  String.eqb (document_id h) document_id_.

Definition chronological (a b : History) : Prop :=
  datetime_leb (timestamp a) (timestamp b) = true.

(** [counts.get(key, 0)] *)
Definition dict_get (key : string) (counts : list (string * nat)) : nat :=
  match List.find (fun kv => String.eqb (fst kv) key) counts with
  | Some kv => snd kv
  | None => 0
  end.

(** The [$or] of [get_document_stats]: created or held by the department. *)
Definition related_to (department : string) (d : Document) : bool :=
  String.eqb (creator_department_id d) department
  || String.eqb (current_holder_department_id d) department.

(** The dict a counting loop builds from the keys it goes through. *)
Definition counted (keys : list string) : list (string * nat) :=
  fold_left (fun counts key => count_key key counts) keys [].

(** ** Listings and attachments *)

(** The document is assigned to the actor, created by the actor, or
    created or held by the actor's department. *)
Definition involves (current_user : User) (d : Document) : bool :=
  match assigned_to_user_id d with
  | Some a => String.eqb a (user_oid current_user)
  | None => false
  end
  || String.eqb (creator_id d) (user_oid current_user)
  || related_to (department_id current_user) d.

(** [sort=[("created_at", -1)]] on documents. *)
Definition newest (a b : Document) : Prop :=
  datetime_leb (created_at b) (created_at a) = true.

(** The test [delete_file_from_document] applies to the actor. *)
Definition can_delete (d : Document) (current_user : User) : bool :=
  UserRole.eqb (role current_user) UserRole.ADMIN
  || String.eqb (creator_id d) (user_oid current_user)
  || (UserRole.eqb (role current_user) UserRole.DEPARTMENT_HEAD
      && String.eqb (current_holder_department_id d) (department_id current_user)).

Module Attachments.

Definition report : UploadFile :=
  mk_UploadFile "report.pdf" (Some "application/pdf") 1024.

(** One byte more than [MAX_FILE_SIZE]. *)
Definition oversized : UploadFile :=
  mk_UploadFile "scan.png" (Some "image/png") (50 * 1024 * 1024 + 1).

(** A search that finds nothing. *)
Definition no_search (search_query : string) (department_id_ : option string)
    (skip limit : nat) : M (list Document) :=
  ret [].

End Attachments.

(** ** Runs that succeed *)

(** When the database answers, the computation returns, and the database
    still answers afterwards. *)
Definition safe {A} (m : M A) : Prop :=
  forall w, no_faults w ->
    exists a, fst (m w) = Return a /\ fault (snd (m w)) = fault w.

(** The documents and their history. *)
Definition ledger (w : World) := (documents w, document_history w).

(** ** Lifecycle transitions that succeed, and requests that are refused *)

(** Whom [notify_status_changed] writes to. *)
Definition status_recipients (d : Document) : list string :=
  creator_id d ::
    (if Py.truthy (assigned_to_user_id d)
        && negb (String.eqb (Py.str (assigned_to_user_id d)) (creator_id d))
     then [Py.str (assigned_to_user_id d)] else []).

(** A new notification of the given type about the document. *)
Definition about (d : Document) (type_ : NotificationType.t) (n : Notification) : Prop :=
  notification_document_id n = document_oid d
  /\ notification_type n = type_
  /\ is_read n = false.

(** The documents, their history and the notifications. *)
Definition records (w : World) := (documents w, document_history w, notifications w).

(** The test [update_document] applies to the actor. *)
Definition can_update (d : Document) (current_user : User) : bool :=
  UserRole.eqb (role current_user) UserRole.ADMIN
  || String.eqb (creator_id d) (user_oid current_user)
  || (UserRole.eqb (role current_user) UserRole.DEPARTMENT_HEAD
      && String.eqb (current_holder_department_id d) (department_id current_user)).

(** Whom [update_document] notifies: the new assignee, when one is named
    and differs from the former one. *)
Definition newly_assigned (old_assignee new_assignee : option string) : list string :=
  if Py.truthy new_assignee
     && negb (String.eqb (Py.str old_assignee) (Py.str new_assignee))
  then [Py.str new_assignee] else [].

(** The e-mail [update_document] queues for the new assignee. *)
Definition queue_email (assignee : string) (notif : Notification) (d : Document)
    : M unit :=
  user <- UserRepository.find_by_id assignee ;;
  match user with
  | Some u =>
      fun w =>
        (Return tt,
         set_background_tasks
           (background_tasks w ++
              [mk_Email (email u) (notification_type notif)
                 (notification_title notif) (message notif)
                 (document_number d)])
           w)
  | None => ret tt
  end.

(** Every number part the numbering pipeline can return reads as an
    integer, whatever the year. *)
Definition numbers_parse (w : World) : Prop :=
  forall n part,
    In part (DocumentRepository.pipeline (year (clock w n)) (documents w)) ->
    exists k, Py.int part = Some k.

(** Whom [create_document] notifies: the assignee, when one is named. *)
Definition first_assignee (assignee : option string) : list string :=
  if Py.truthy assignee then [Py.str assignee] else [].

(** The filter of [get_forwarding_chain]. *)
Definition forwarded_of (document_id_ : string) (h : History) : bool :=
  String.eqb (document_id h) document_id_
  && match action h with
     | DocumentAction.FORWARDED => true
     | _ => false
     end.

(** [sort=[("timestamp", -1)]] on the history. *)
Definition latest_first (a b : History) : Prop :=
  datetime_leb (timestamp b) (timestamp a) = true.

(** The filter of [find_by_user] on the history. *)
Definition performed_by_user (user_id_ : string) (h : History) : bool :=
  String.eqb (performed_by h) user_id_.

(** The test [archive_document] applies to the actor. *)
Definition can_archive (d : Document) (current_user : User) : bool :=
  UserRole.eqb (role current_user) UserRole.ADMIN
  || String.eqb (creator_id d) (user_oid current_user).

(** Whatever the database does, [m] returns, and what it returns
    satisfies [P]. *)
Definition yields {A} (P : A -> Prop) (m : M A) : Prop :=
  forall w, exists a, fst (m w) = Return a /\ P a.

(** Whatever [m] returns satisfies [P]. *)
Definition returns_only {A} (P : A -> Prop) (m : M A) : Prop :=
  forall w a, fst (m w) = Return a -> P a.

(** The unguarded step of [notify_document_forwarded]: the round trip that
    lists the users of the target department, which follows the one that
    looks the department up (none is made for an id that is no ObjectId). *)
Definition listing_fails (to_department_id_ : string) (w : World) : Prop :=
  fault w (match ObjectId to_department_id_ with
           | Some _ => S (tick w)
           | None => tick w
           end) = true.

(** A new notification of the given type for the document of the given
    id. *)
Definition concerns (document_id_ : string) (type_ : NotificationType.t)
    (n : Notification) : Prop :=
  notification_document_id n = document_id_
  /\ notification_type n = type_
  /\ is_read n = false.

(** The users [find_by_department] answers with: the first 20 of the
    department, in their stored order. *)
Definition department_page (department_id_ : string) (w : World) : list User :=
  firstn 20
    (List.filter (fun u => String.eqb (department_id u) department_id_) (users w)).

(** Whom the admin panel's status change notifies: the creator, and the
    assignee when there is one who is not the creator. *)
Definition admin_status_recipients (d : Document) : list string :=
  (if negb (String.eqb (creator_id d) "") then [creator_id d] else [])
  ++ (if Py.truthy (assigned_to_user_id d)
         && negb (String.eqb (Py.str (assigned_to_user_id d)) (creator_id d))
      then [Py.str (assigned_to_user_id d)] else []).

(** * Reasoning about computations *)

(** ** Relations every run of a computation satisfies *)

Section Preserves.
Context (R : World -> World -> Prop) `{Frame R}.

Lemma preserves_ret A (a : A) : preserves R (ret a).
Proof. intro w. apply frame_refl. Qed.

Lemma preserves_raise A (e : Exception) : preserves R (@raise A e).
Proof. intro w. apply frame_refl. Qed.

Lemma preserves_bind A B (m : M A) (k : A -> M B) :
  preserves R m -> (forall a, preserves R (k a)) -> preserves R (bind m k).
Proof.
  intros Hm Hk w. unfold bind. specialize (Hm w).
  destruct (m w) as [[a|e] w']; simpl in *.
  - eapply frame_trans; [exact Hm | apply Hk].
  - exact Hm.
Qed.

Lemma preserves_try A (m : M A) (h : Exception -> M A) :
  preserves R m -> (forall e, preserves R (h e)) -> preserves R (try m h).
Proof.
  intros Hm Hh w. unfold try. specialize (Hm w).
  destruct (m w) as [[a|e] w']; simpl in *.
  - exact Hm.
  - eapply frame_trans; [exact Hm | apply Hh].
Qed.

Lemma preserves_for_each A B (l : list A) (body : B -> A -> M B) :
  (forall acc x, preserves R (body acc x)) ->
  forall acc, preserves R (for_each l acc body).
Proof.
  intros Hbody. induction l as [|x l IH]; intros acc; simpl.
  - apply preserves_ret.
  - apply preserves_bind; [apply Hbody | intros; apply IH].
Qed.

Lemma preserves_attempt A (s : Step) (m : M A) :
  (forall w l, R w (set_steps l w)) ->
  preserves R m -> preserves R (attempt s m).
Proof.
  intros Hsteps Hm w. unfold attempt.
  specialize (Hm (set_steps (steps w ++ [Begin s]) w)).
  destruct (m _) as [[a|e] w']; simpl in *.
  - eapply frame_trans; [apply Hsteps | exact Hm].
  - eapply frame_trans; [apply Hsteps |].
    eapply frame_trans; [exact Hm | apply Hsteps].
Qed.

End Preserves.

#[export] Instance keeps_Frame {X} (f : World -> X) : Frame (keeps f).
Proof. split; unfold keeps; congruence. Qed.

Create HintDb model discriminated.

#[export] Hint Unfold
  Motor.insert_one Motor.find_one Motor.find Motor.find_one_and_update
  Motor.update_one Motor.update_many Motor.aggregate
  BaseRepository.create BaseRepository.find_by_id BaseRepository.find_many
  BaseRepository.update_by_id BaseRepository.update_many
  DocumentRepository.generate_document_number DocumentRepository.create_document
  DocumentRepository.find_by_id DocumentRepository.update_by_id
  DocumentRepository.update_status DocumentRepository.forward_document
  DocumentRepository.add_file DocumentRepository.remove_file
  DocumentRepository.archive_document
  UserRepository.find_by_id UserRepository.find_by_department
  DepartmentRepository.find_by_id
  DocumentHistoryRepository.create_history_entry
  NotificationRepository.find_by_id NotificationRepository.mark_as_read
  NotificationRepository.mark_all_as_read
  NotificationService.create_notification NotificationService.deref
  NotificationService.notify_document_created
  NotificationService.notify_document_forwarded
  NotificationService.notify_status_changed
  NotificationService.notify_document_assigned
  documents.create_audit_entry documents.send_emails
  gridfs_service.upload_file gridfs_service.delete_file
  DocumentActionService._create_notification : model.

(** Primitive computations: one state transformer each. *)
Ltac leaf tac :=
  let w := fresh "w" in
  intro w; unfold utcnow, round_trip, Motor.write_requested; simpl;
  repeat match goal with
         | |- context [match ?x with _ => _ end] => destruct x eqn:?; simpl
         end;
  tac.

Ltac preserve_with tac :=
  repeat match goal with
    | |- preserves _ (ret _) => apply preserves_ret; typeclasses eauto
    | |- preserves _ (raise _) => apply preserves_raise; typeclasses eauto
    | |- preserves _ (bind _ _) =>
        apply preserves_bind; try typeclasses eauto; [ | intros ]
    | |- preserves _ (try _ _) =>
        apply preserves_try; try typeclasses eauto; [ | intros ]
    | |- preserves _ (for_each _ _ _) =>
        apply preserves_for_each; try typeclasses eauto; intros
    | |- preserves _ (attempt _ _) =>
        apply preserves_attempt; try typeclasses eauto; [ intros; solve [tac] | ]
    | |- preserves _ (match ?x with _ => _ end) => destruct x
    | |- preserves _ _ => progress autounfold with model
    | |- preserves _ _ => progress cbv zeta
    | |- preserves _ _ => solve [leaf tac]
    end.

Ltac keeps_leaf := unfold keeps; simpl; reflexivity.

(** ** What a computation adds to the record of a request *)

Ltac silence := solve [unfold silent; preserve_with keeps_leaf].

#[export] Instance appends_Frame c : Frame (appends c).
Proof.
  split.
  - intro w. exists []. rewrite app_nil_r. auto.
  - intros w1 w2 w3 [t [Ht Hf]] [t' [Ht' Hf']]. exists (t ++ t').
    rewrite Ht', Ht, app_assoc. split; [reflexivity | apply Forall_app; auto].
Qed.

Ltac appends_leaf :=
  unfold appends; simpl;
  first [ exists []; split; [rewrite app_nil_r; reflexivity | constructor]
        | eexists [_]; split; [reflexivity | repeat constructor] ].

Ltac only_writes :=
  solve [unfold writes_only; preserve_with appends_leaf].

(** ** The order of the steps of a transition *)

Lemma continues_writes s t t' :
  Forall (eq (Write (store s))) t ->
  continues (rank s) (t ++ t') = continues (rank s) t'.
Proof.
  induction 1 as [|e t He Ht IH]; simpl; [reflexivity |].
  subst e. rewrite IH. destruct s; reflexivity.
Qed.

Lemma accepted_silent p A (m : M A) : silent m -> accepted p m.
Proof.
  intros Hm w. exists []. rewrite app_nil_r. split; [apply Hm | reflexivity].
Qed.

Lemma accepted_bind p A B (m : M A) (k : A -> M B) :
  silent m -> (forall a, accepted p (k a)) -> accepted p (bind m k).
Proof.
  intros Hm Hk w. unfold bind. specialize (Hm w). unfold keeps in Hm.
  destruct (m w) as [[a|e] w']; simpl in *.
  - destruct (Hk a w') as [t [Ht Hc]]. exists t. rewrite Ht, Hm. auto.
  - exists []. rewrite app_nil_r. auto.
Qed.

Lemma accepted_bind_silent p A B (m : M A) (k : A -> M B) :
  accepted p m -> (forall a, silent (k a)) -> accepted p (bind m k).
Proof.
  intros Hm Hk w. unfold bind. destruct (Hm w) as [t [Ht Hc]].
  destruct (m w) as [[a|e] w']; simpl in *.
  - exists t. specialize (Hk a w'). unfold keeps in Hk. rewrite Hk. auto.
  - exists t. auto.
Qed.

Lemma accepted_attempt_bind p A B (s : Step) (m : M A) (k : A -> M B) :
  writes_only (store s) m -> rank s = S p -> (forall a, accepted (S p) (k a)) ->
  accepted p (bind (attempt s m) k).
Proof.
  intros Hm Hs Hk w. unfold bind, attempt.
  destruct (Hm (set_steps (steps w ++ [Begin s]) w)) as [ws [Hws Hf]].
  destruct (m _) as [[a|e] w']; simpl in *.
  - destruct (Hk a w') as [t [Ht Hc]]. exists (Begin s :: ws ++ t).
    rewrite Ht, Hws, <- !app_assoc. simpl. split; [reflexivity |].
    rewrite Hs, Nat.eqb_refl. simpl. rewrite <- Hs, continues_writes by assumption.
    rewrite Hs. exact Hc.
  - exists (Begin s :: ws ++ [Raised s]). rewrite Hws, <- !app_assoc. simpl.
    split; [reflexivity |].
    rewrite Hs, Nat.eqb_refl. simpl. rewrite <- Hs, continues_writes by assumption.
    simpl. rewrite Nat.eqb_refl. reflexivity.
Qed.

Lemma accepted_attempt p A (s : Step) (m : M A) :
  writes_only (store s) m -> rank s = S p -> accepted p (attempt s m).
Proof.
  intros Hm Hs w. unfold attempt.
  destruct (Hm (set_steps (steps w ++ [Begin s]) w)) as [ws [Hws Hf]].
  destruct (m _) as [[a|e] w']; simpl in *.
  - exists (Begin s :: ws ++ []). rewrite Hws, <- !app_assoc, app_nil_r. simpl.
    split; [reflexivity |].
    rewrite Hs, Nat.eqb_refl. simpl.
    rewrite <- (app_nil_r ws), <- Hs, continues_writes by assumption. reflexivity.
  - exists (Begin s :: ws ++ [Raised s]). rewrite Hws, <- !app_assoc. simpl.
    split; [reflexivity |].
    rewrite Hs, Nat.eqb_refl. simpl. rewrite <- Hs, continues_writes by assumption.
    simpl. rewrite Nat.eqb_refl. reflexivity.
Qed.

Lemma accepted_try p A (m : M A) (h : Exception -> M A) :
  accepted p m -> (forall e, silent (h e)) -> accepted p (try m h).
Proof.
  intros Hm Hh w. unfold try. destruct (Hm w) as [t [Ht Hc]].
  destruct (m w) as [[a|e] w']; simpl in *.
  - exists t. auto.
  - exists t. specialize (Hh e w'). unfold keeps in Hh. rewrite Hh. auto.
Qed.

Lemma bind_assoc A B C (m : M A) (k : A -> M B) (k' : B -> M C) w :
  bind (bind m k) k' w = bind m (fun a => bind (k a) k') w.
Proof.
  unfold bind. destruct (m w) as [[a|e] w']; reflexivity.
Qed.

Lemma accepted_assoc p A B C (m : M A) (k : A -> M B) (k' : B -> M C) :
  accepted p (bind m (fun a => bind (k a) k')) -> accepted p (bind (bind m k) k').
Proof. intros Hm w. rewrite bind_assoc. apply Hm. Qed.

Ltac accept :=
  repeat match goal with
    | |- accepted _ (bind (attempt _ _) _) =>
        apply accepted_attempt_bind; [only_writes | reflexivity | intros]
    | |- accepted _ (attempt _ _) =>
        apply accepted_attempt; [only_writes | reflexivity]
    | |- accepted _ (try _ _) =>
        apply accepted_try; [ | intros; silence]
    | |- accepted _ (bind (bind _ _) _) => apply accepted_assoc
    | |- accepted _ (bind (match ?x with _ => _ end) _) => destruct x
    | |- accepted _ (bind _ _) =>
        first [ apply accepted_bind; [silence | intros]
              | apply accepted_bind_silent; [ | intros; silence] ]
    | |- accepted _ (match ?x with _ => _ end) => destruct x
    | |- accepted _ _ => progress cbv zeta
    | |- accepted _ _ => apply accepted_silent; silence
    end.

Lemma accepted_perform tr current_user : accepted 0 (perform tr current_user).
Proof.
  destruct tr; unfold perform.
  - unfold documents.create_document. accept.
  - unfold documents.forward_document. accept.
  - unfold documents.update_document_status. accept.
  - unfold documents.archive_document. accept.
  - unfold documents.update_document. accept.
  - unfold files.upload_file_to_document. accept.
  - unfold files.delete_file_from_document. accept.
Qed.

(** *** What an accepted record looks like *)

Lemma continues_split p t1 e t2 :
  continues p (t1 ++ e :: t2) = true ->
  continues (begins t1 + p) (e :: t2) = true.
Proof.
  revert p. induction t1 as [|e1 t1 IH]; intros p Hc; [exact Hc |].
  destruct e1 as [s|s|c]; simpl in Hc.
  - apply andb_prop in Hc as [_ Hc]. apply IH in Hc.
    rewrite Nat.add_succ_r in Hc. exact Hc.
  - apply andb_prop in Hc as [_ Hc]. destruct t1; discriminate.
  - apply andb_prop in Hc as [_ Hc]. apply IH in Hc. exact Hc.
Qed.

Lemma continues_head e t : continues 0 (e :: t) = true -> e = Begin Mutation.
Proof.
  destruct e as [s|s|c]; simpl; intro Hc.
  - destruct s; try discriminate. reflexivity.
  - destruct s; discriminate.
  - discriminate.
Qed.

Lemma accepted_steps_in_order t : continues 0 t = true -> steps_in_order t.
Proof.
  intros Hc t1 s t2 s' t3 ->.
  apply continues_split in Hc. simpl in Hc.
  apply andb_prop in Hc as [Hs Hc]. apply Nat.eqb_eq in Hs.
  apply continues_split in Hc. simpl in Hc.
  apply andb_prop in Hc as [Hs' _]. apply Nat.eqb_eq in Hs'. lia.
Qed.

Lemma accepted_writes_in_order t : continues 0 t = true -> writes_in_order t.
Proof.
  intros Hc t1 c t2 c' t3 ->.
  apply continues_split in Hc. simpl in Hc.
  apply andb_prop in Hc as [Hs Hc]. apply andb_prop in Hs as [Hp Hs].
  apply Nat.ltb_lt in Hp. apply Nat.eqb_eq in Hs.
  apply continues_split in Hc. simpl in Hc.
  apply andb_prop in Hc as [Hs' _]. apply andb_prop in Hs' as [_ Hs'].
  apply Nat.eqb_eq in Hs'. lia.
Qed.

Lemma accepted_mutation_first t : continues 0 t = true -> mutation_first t.
Proof.
  intros Hc t1 e t2 -> He.
  destruct t1 as [|e1 t1].
  - apply continues_head in Hc. subst e.
    destruct He as [He|[He|[He|He]]]; discriminate.
  - apply continues_head in Hc. subst e1. left. reflexivity.
Qed.

Lemma accepted_raise_is_last t : continues 0 t = true -> raise_is_last t.
Proof.
  intros Hc t1 s t2 ->.
  apply continues_split in Hc. simpl in Hc.
  apply andb_prop in Hc as [_ Hc]. destruct t2; [reflexivity | discriminate].
Qed.

(** C7.  Whatever the state of the collections, the actor and the failures
    of the database, a lifecycle transition (create, forward, status change,
    archive, modify, file add and remove) starts the mutation of the
    document before the ledger append and the ledger append before the
    creation of notifications, writes into the three collections in that
    order, touches neither ledger nor notifications before the mutation has
    been started, and does nothing more once a step has raised. *)
Theorem pipeline_steps_in_order (tr : Transition) (current_user : User) (w : World) :
  exists t,
    steps (snd (perform tr current_user w)) = steps w ++ t
    /\ steps_in_order t /\ writes_in_order t /\ mutation_first t /\ raise_is_last t.
Proof.
  destruct (accepted_perform tr current_user w) as [t [Ht Hc]].
  exists t. split; [exact Ht |].
  repeat split.
  - apply accepted_steps_in_order, Hc.
  - apply accepted_writes_in_order in Hc. eapply Hc. eassumption.
  - apply accepted_writes_in_order in Hc. eapply Hc. eassumption.
  - apply accepted_mutation_first, Hc.
  - apply accepted_raise_is_last, Hc.
Qed.

(** An update that fails inside [update_by_id] does not raise: the
    repository answers [None].  The forward endpoint goes on; the ledger
    entry is written for a document that was not changed, and the fan-out
    is the step that raises. *)
Example forward_after_failed_update :
  fst (documents.forward_document ForwardAssignee.document FanOut.request Sample.admin
         (with_fault (Nat.eqb 3) ForwardAssignee.start))
    = Raise AttributeError
  /\ documents
       (snd (documents.forward_document ForwardAssignee.document FanOut.request
               Sample.admin (with_fault (Nat.eqb 3) ForwardAssignee.start)))
     = documents ForwardAssignee.start
  /\ map action
       (document_history
          (snd (documents.forward_document ForwardAssignee.document FanOut.request
                  Sample.admin (with_fault (Nat.eqb 3) ForwardAssignee.start))))
     = [DocumentAction.FORWARDED]
  /\ steps
       (snd (documents.forward_document ForwardAssignee.document FanOut.request
               Sample.admin (with_fault (Nat.eqb 3) ForwardAssignee.start)))
     = [Begin Mutation; Write Collections.DOCUMENTS;
        Begin Ledger; Write Collections.DOCUMENT_HISTORY;
        Begin Fanout; Raised Fanout].
Proof. repeat split; vm_compute; reflexivity. Qed.

(** * The claims of the specification *)

(** ** Running the model when the database answers *)

Ltac found :=
  intros Hfault Hlookup;
  autounfold with model; unfold lookup, try, bind, round_trip, raise, ret in *;
  destruct (ObjectId _); [| discriminate];
  rewrite Hfault; simpl in *; rewrite Hlookup; reflexivity.

Lemma find_document_found id w d :
  fault w (tick w) = false -> lookup id (documents w) = Some d ->
  DocumentRepository.find_by_id id w = (Return (Some d), ticked w).
Proof. found. Qed.

Lemma find_department_found id w d :
  fault w (tick w) = false -> lookup id (departments w) = Some d ->
  DepartmentRepository.find_by_id id w = (Return (Some d), ticked w).
Proof. found. Qed.

Lemma find_user_found id w u :
  fault w (tick w) = false -> lookup id (users w) = Some u ->
  UserRepository.find_by_id id w = (Return (Some u), ticked w).
Proof. found. Qed.

Lemma find_notification_found id w n :
  fault w (tick w) = false -> lookup id (notifications w) = Some n ->
  NotificationRepository.find_by_id id w = (Return (Some n), ticked w).
Proof. found. Qed.

(** An id that resolves to nothing is answered with [None], also when the
    database fails: [find_by_id] swallows every exception. *)
Lemma find_user_missing id w :
  lookup id (users w) = None -> fst (UserRepository.find_by_id id w) = Return None.
Proof.
  intros Hlookup.
  autounfold with model; unfold lookup, try, bind, round_trip, raise, ret in *.
  destruct (ObjectId _); [| reflexivity].
  destruct (fault w (tick w)); simpl in *; [reflexivity |].
  rewrite Hlookup. reflexivity.
Qed.

Lemma resolved_is_supplied {T} `{Collection T} (o : option string) (l : list T) r :
  lookup (Py.str o) l = Some r -> Py.truthy o = true.
Proof.
  destruct o as [s|]; simpl.
  - destruct s; [discriminate | reflexivity].
  - discriminate.
Qed.

Lemma find_user_reads id : preserves (keeps collections) (UserRepository.find_by_id id).
Proof. preserve_with keeps_leaf. Qed.

(** ** Create with an assignee that does not exist (C6) *)

(** C6, as the specification states it, fails: the assignee
    [000000000000000000000099] resolves to no user, and the create request
    is answered with 404 (NotFound), not with a ValidationError. *)
Lemma create_unknown_assignee_is_not_validation_error :
  ~ fails_with
      (documents.create_document CreateAssignee.request Sample.admin CreateAssignee.start)
      ValidationError.
Proof.
  intros [e [He Hk]]. vm_compute in He. inversion He; subst e. discriminate Hk.
Qed.

Lemma create_unknown_assignee_run
    (document_data : DocumentCreate) (current_user : User) (w : World) :
  Py.truthy (create_assigned_to_user_id document_data) = true ->
  lookup (Py.str (create_assigned_to_user_id document_data)) (users w) = None ->
  exists w',
    documents.create_document document_data current_user w
      = (Raise (HTTPException HTTP_404_NOT_FOUND "Assigned user not found"), w')
    /\ collections w' = collections w.
Proof.
  intros Hsupplied Hmissing.
  pose proof (find_user_missing _ _ Hmissing) as Hfind.
  pose proof (find_user_reads (Py.str (create_assigned_to_user_id document_data)) w)
    as Hreads.
  unfold keeps in Hreads.
  unfold documents.create_document. rewrite Hsupplied, bind_assoc.
  unfold bind at 1.
  destruct (UserRepository.find_by_id _ w) as [r w'].
  simpl in Hfind, Hreads. subst r.
  exists w'. split; [reflexivity | exact Hreads].
Qed.

(** C6, amended: a create request that supplies a non-empty assignee id
    which resolves to no user fails with NotFound (HTTP 404, "Assigned
    user not found"), and no document, history entry or notification is
    created.  The empty string is no assignee for the endpoint, which tests
    the id for truth before it looks the user up: see
    [create_with_empty_assignee_is_accepted]. *)
Theorem create_unknown_assignee_not_found
    (document_data : DocumentCreate) (current_user : User) (w : World)
    (assignee : string) :
  create_assigned_to_user_id document_data = Some assignee ->
  assignee <> "" ->
  lookup assignee (users w) = None ->
  fails_with (documents.create_document document_data current_user w) NotFound
  /\ documents (snd (documents.create_document document_data current_user w))
     = documents w
  /\ document_history (snd (documents.create_document document_data current_user w))
     = document_history w
  /\ notifications (snd (documents.create_document document_data current_user w))
     = notifications w.
Proof.
  intros Hsupplied Hnonempty Hmissing.
  destruct (create_unknown_assignee_run document_data current_user w)
    as [w' [Hrun Hsame]].
  - rewrite Hsupplied. simpl. apply String.eqb_neq in Hnonempty.
    rewrite Hnonempty. reflexivity.
  - rewrite Hsupplied. exact Hmissing.
  - rewrite Hrun. unfold collections in Hsame. inversion Hsame.
    repeat split; try assumption.
    eexists. split; reflexivity.
Qed.

Lemma create_unknown_assignee_not_found_witness :
  fails_with
    (documents.create_document CreateAssignee.request Sample.admin CreateAssignee.start)
    NotFound.
Proof.
  apply (@create_unknown_assignee_not_found CreateAssignee.request Sample.admin
           CreateAssignee.start CreateAssignee.stranger).
  - reflexivity.
  - discriminate.
  - reflexivity.
Defined.

(** The empty assignee id resolves to no user either, and the request that
    carries it is served: the document is created, with that id as its
    assignee, one entry is written and nobody is notified. *)
Example create_with_empty_assignee_is_accepted :
  lookup "" (users CreateAssignee.start) = None
  /\ (exists d,
        fst (documents.create_document CreateAssignee.unnamed Sample.admin
               CreateAssignee.start) = Return d
        /\ assigned_to_user_id d = Some ""
        /\ documents
             (snd (documents.create_document CreateAssignee.unnamed Sample.admin
                     CreateAssignee.start)) = [d])
  /\ length
       (document_history
          (snd (documents.create_document CreateAssignee.unnamed Sample.admin
                  CreateAssignee.start))) = 1
  /\ notifications
       (snd (documents.create_document CreateAssignee.unnamed Sample.admin
               CreateAssignee.start)) = [].
Proof.
  split; [reflexivity |].
  split; [eexists; split; [vm_compute; reflexivity | split; reflexivity] |].
  split; vm_compute; reflexivity.
Qed.

(** ** Forward with an assignee of another department (C5) *)

(** C5, as the specification states it, fails: the document exists, the
    assignee exists and belongs to department B, which differs from the
    target [000000000000000000000003]; that target does not exist, and
    the request is answered with 404 (NotFound), not with a
    ValidationError. *)
Lemma forward_to_missing_department_is_not_validation_error :
  lookup ForwardAssignee.document (documents ForwardAssignee.start) <> None
  /\ (exists a,
        lookup (Py.str (forward_assigned_to_user_id ForwardAssignee.to_missing_department))
          (users ForwardAssignee.start) = Some a
        /\ department_id a
           <> forward_to_department_id ForwardAssignee.to_missing_department)
  /\ ~ fails_with
         (documents.forward_document ForwardAssignee.document
            ForwardAssignee.to_missing_department Sample.admin ForwardAssignee.start)
         ValidationError.
Proof.
  split; [vm_compute; discriminate |].
  split.
  - exists Sample.clerk. split; [vm_compute; reflexivity | vm_compute; discriminate].
  - intros [e [He Hk]]. vm_compute in He. inversion He; subst e. discriminate Hk.
Qed.

Lemma forward_foreign_assignee_run
    (document_id_ : string) (forward_data : DocumentForward) (current_user : User)
    (w : World) (d : Document) (dep : Department) (a : User) :
  no_faults w ->
  lookup document_id_ (documents w) = Some d ->
  lookup (forward_to_department_id forward_data) (departments w) = Some dep ->
  lookup (Py.str (forward_assigned_to_user_id forward_data)) (users w) = Some a ->
  department_id a <> forward_to_department_id forward_data ->
  documents.forward_document document_id_ forward_data current_user w
  = (Raise (HTTPException HTTP_400_BAD_REQUEST
              "Assigned user must belong to the target department"),
     ticked (ticked (ticked w))).
Proof.
  intros Hfaults Hdoc Hdep Huser Hother.
  unfold documents.forward_document.
  rewrite (resolved_is_supplied _ _ Huser).
  unfold bind at 1. rewrite (find_document_found _ _ (Hfaults _) Hdoc).
  unfold bind at 1. rewrite (find_department_found _ (ticked w) (Hfaults _) Hdep).
  rewrite bind_assoc. unfold bind at 1.
  rewrite (find_user_found _ (ticked (ticked w)) (Hfaults _) Huser).
  apply String.eqb_neq in Hother. rewrite Hother. reflexivity.
Qed.

(** C5, amended: when the document exists, the target department exists,
    and the supplied assignee resolves to a user of another department,
    the forward request fails with a ValidationError (HTTP 400); no history
    entry and no notification is written and the document collection is
    unchanged, so the holder department and the assigned user of the
    document are as before. *)
Theorem forward_foreign_assignee_rejected
    (document_id_ : string) (forward_data : DocumentForward) (current_user : User)
    (w : World) (d : Document) (dep : Department) (a : User) :
  no_faults w ->
  lookup document_id_ (documents w) = Some d ->
  lookup (forward_to_department_id forward_data) (departments w) = Some dep ->
  lookup (Py.str (forward_assigned_to_user_id forward_data)) (users w) = Some a ->
  department_id a <> forward_to_department_id forward_data ->
  fails_with (documents.forward_document document_id_ forward_data current_user w)
    ValidationError
  /\ document_history
       (snd (documents.forward_document document_id_ forward_data current_user w))
     = document_history w
  /\ documents
       (snd (documents.forward_document document_id_ forward_data current_user w))
     = documents w
  /\ notifications
       (snd (documents.forward_document document_id_ forward_data current_user w))
     = notifications w
  /\ lookup document_id_
       (documents
          (snd (documents.forward_document document_id_ forward_data current_user w)))
     = Some d.
Proof.
  intros Hfaults Hdoc Hdep Huser Hother.
  rewrite (@forward_foreign_assignee_run document_id_ forward_data current_user w d dep a
             Hfaults Hdoc Hdep Huser Hother).
  repeat split; try reflexivity; try assumption.
  eexists. split; reflexivity.
Qed.

Lemma forward_foreign_assignee_rejected_witness :
  fails_with
    (documents.forward_document ForwardAssignee.document
       ForwardAssignee.to_other_department Sample.clerk ForwardAssignee.start)
    ValidationError.
Proof.
  apply (@forward_foreign_assignee_rejected ForwardAssignee.document
           ForwardAssignee.to_other_department Sample.clerk ForwardAssignee.start
           (Sample.numbered 1 "DOC-2025-00001")
           (mk_Department Sample.department_a (Some "A") epoch epoch)
           Sample.clerk).
  - intro n. reflexivity.
  - reflexivity.
  - reflexivity.
  - reflexivity.
  - vm_compute. discriminate.
Defined.

(** ** Allocation of document numbers (C4) *)

(** C4 does not hold of the code.  With the numbers [DOC-2025-09999] and
    [DOC-2025-10000] in the collection the rule of the specification
    allocates [DOC-2025-10001]; the create endpoint allocates
    [DOC-2025-10000], a number that is already taken.  The pipeline cuts
    the number at offset 10, one character after the prefix [DOC-2025-],
    and so reads only the last four digits. *)
Theorem create_document_repeats_number :
  specified_number 2025 (documents Numbering.start) = "DOC-2025-10001"
  /\ DocumentRepository.pipeline 2025 (documents Numbering.start) = ["9999"]
  /\ (exists d,
        fst (documents.create_document Sample.memo Sample.admin Numbering.start)
          = Return d
        /\ document_number d = "DOC-2025-10000"
        /\ In (document_number d) (map document_number (documents Numbering.start))).
Proof.
  split; [vm_compute; reflexivity |].
  split; [vm_compute; reflexivity |].
  eexists. split; [vm_compute; reflexivity |].
  split; [reflexivity | right; left; reflexivity].
Qed.

(** ** Fan-out of a forward to a whole department (C2) *)

(** C2 does not hold of the code.  A document is forwarded, without
    assignee, to a department with 21 active users; the forward succeeds
    and 20 notifications are created.  [find_by_department] goes through
    [find_many], whose default [limit] is 20. *)
Theorem forward_notifies_at_most_twenty :
  length (active_users Sample.department_b (users FanOut.start)) = 21
  /\ notifications FanOut.start = []
  /\ (exists d,
        fst (documents.forward_document (oid_of_nat 501) FanOut.request Sample.admin
               FanOut.start) = Return (Some d)
        /\ current_holder_department_id d = Sample.department_b
        /\ assigned_to_user_id d = None)
  /\ length
       (notifications
          (snd (documents.forward_document (oid_of_nat 501) FanOut.request Sample.admin
                  FanOut.start))) = 20.
Proof.
  split; [vm_compute; reflexivity |].
  split; [reflexivity |].
  split; [| vm_compute; reflexivity].
  eexists. split; [vm_compute; reflexivity |]. split; reflexivity.
Qed.

(** ** Archive (C3) *)

Lemma archive_keeps_notifications document_id_ current_user :
  preserves (keeps notifications) (documents.archive_document document_id_ current_user).
Proof. unfold documents.archive_document. preserve_with keeps_leaf. Qed.

(** C3 does not hold of the code: the archive endpoint never creates a
    notification, whatever the document, the actor and the state of the
    database. *)
Theorem archive_creates_no_notification
    (document_id_ : string) (current_user : User) (w : World) :
  notifications (snd (documents.archive_document document_id_ current_user w))
  = notifications w.
Proof. apply archive_keeps_notifications. Qed.

(** The rest of C3 on an example: the creator archives a document; its
    status becomes archived, [archived_at] is stamped, one [archived]
    entry is written, and there is no notification. *)
Example archive_by_creator :
  exists d h,
    documents (snd (documents.archive_document Archiving.document Sample.admin
                      Archiving.start)) = [d]
    /\ status d = DocumentStatus.ARCHIVED
    /\ archived_at d = Some (mk_datetime 2025 1)
    /\ document_history
         (snd (documents.archive_document Archiving.document Sample.admin
                 Archiving.start)) = [h]
    /\ action h = DocumentAction.ARCHIVED
    /\ document_id h = Archiving.document
    /\ notifications
         (snd (documents.archive_document Archiving.document Sample.admin
                 Archiving.start)) = [].
Proof.
  do 2 eexists. split; [vm_compute; reflexivity |].
  split; [reflexivity |]. split; [reflexivity |].
  split; [vm_compute; reflexivity |].
  repeat split.
Qed.

(** The same request through the admin panel's [DocumentActionService]
    does notify the creator. *)
Example archive_by_admin_service :
  exists n,
    notifications
      (snd (DocumentActionService.archive_document Archiving.document "No longer needed"
              (user_oid Sample.admin) "U" Archiving.start)) = [n]
    /\ user_id n = creator_id (Sample.numbered 1 "DOC-2025-00001").
Proof. eexists. split; [vm_compute; reflexivity | reflexivity]. Qed.

(** ** Viewing a document (C8) *)

Lemma view_once (document_id_ : string) (current_user : User) (w : World) (d : Document) :
  no_faults w ->
  lookup document_id_ (documents w) = Some d ->
  can_view d current_user = true ->
  exists h w',
    documents.get_document document_id_ current_user w = (Return d, w')
    /\ document_history w' = document_history w ++ [h]
    /\ viewed_by document_id_ current_user h
    /\ documents w' = documents w
    /\ notifications w' = notifications w
    /\ fault w' = fault w.
Proof.
  intros Hfaults Hdoc Hview.
  unfold documents.get_document.
  unfold bind at 1. rewrite (find_document_found _ _ (Hfaults _) Hdoc).
  unfold can_view in Hview. rewrite Hview. simpl negb. cbv iota.
  autounfold with model.
  unfold bind, attempt, utcnow, round_trip, Motor.write_requested, ret. simpl.
  rewrite Hfaults. simpl.
  do 2 eexists. split; [reflexivity |]. simpl.
  split; [reflexivity |]. repeat split.
Qed.

(** C8.  When the database answers, a document that exists is read by each
    of N actors allowed to view it: every read returns the document, the
    ledger grows by exactly N entries, the i-th of which records a view of
    the document by the i-th actor, no notification is created and the
    stored documents are unchanged. *)
Theorem views_are_recorded
    (document_id_ : string) (actors : list User) (w : World) (d : Document) :
  no_faults w ->
  lookup document_id_ (documents w) = Some d ->
  Forall (fun current_user => can_view d current_user = true) actors ->
  exists entries,
    fst (view_all document_id_ actors w) = map (fun _ => Return d) actors
    /\ document_history (snd (view_all document_id_ actors w))
       = document_history w ++ entries
    /\ length entries = length actors
    /\ Forall2 (viewed_by document_id_) actors entries
    /\ notifications (snd (view_all document_id_ actors w)) = notifications w
    /\ documents (snd (view_all document_id_ actors w)) = documents w.
Proof.
  intros Hfaults Hdoc Hactors. revert w Hfaults Hdoc.
  induction Hactors as [|current_user rest Hview _ IH]; intros w Hfaults Hdoc.
  - exists []. simpl. rewrite app_nil_r. repeat split. constructor.
  - destruct (@view_once document_id_ current_user w d Hfaults Hdoc Hview)
      as [h [w' [Hrun [Hhistory [Hviewed [Hdocs [Hnotes Hfault]]]]]]].
    assert (Hfaults' : no_faults w') by (intro n; rewrite Hfault; apply Hfaults).
    assert (Hdoc' : lookup document_id_ (documents w') = Some d)
      by (rewrite Hdocs; exact Hdoc).
    destruct (IH w' Hfaults' Hdoc')
      as [entries [Hout [Hhist [Hlen [Hall [Hn Hd]]]]]].
    exists (h :: entries). simpl. rewrite Hrun. simpl.
    destruct (view_all document_id_ rest w') as [outcomes w''] eqn:Hrest.
    simpl in *. subst outcomes.
    rewrite Hhist, Hhistory, <- app_assoc. simpl.
    repeat split; try congruence.
    constructor; assumption.
Qed.

Lemma views_are_recorded_witness :
  exists entries,
    document_history
      (snd (view_all Archiving.document [Sample.admin; Sample.admin] Archiving.start))
    = document_history Archiving.start ++ entries
    /\ length entries = 2.
Proof.
  destruct (@views_are_recorded Archiving.document [Sample.admin; Sample.admin]
              Archiving.start (Sample.numbered 1 "DOC-2025-00001"))
    as [entries [_ [Hhistory [Hlength _]]]].
  - intro n. reflexivity.
  - reflexivity.
  - repeat constructor.
  - exists entries. split; assumption.
Defined.

(** ** Marking notifications as read (C9, C10) *)

Lemma map_untouched {T} (p : T -> bool) (f : T -> T) (l : list T) :
  (forall r, In r l -> p r = false) ->
  map (fun r => if p r then f r else r) l = l.
Proof.
  induction l as [|r l IH]; intros Hp; simpl; [reflexivity |].
  rewrite (Hp r) by (left; reflexivity).
  rewrite IH; [reflexivity |]. intros r' Hr'. apply Hp. right. exact Hr'.
Qed.

Lemma filter_untouched {T} (p q : T -> bool) (l : list T) :
  (forall r, In r l -> p r = false) ->
  List.filter (fun r => p r && q r) l = [].
Proof.
  induction l as [|r l IH]; intros Hp; simpl; [reflexivity |].
  rewrite (Hp r) by (left; reflexivity). simpl.
  apply IH. intros r' Hr'. apply Hp. right. exact Hr'.
Qed.

(** C9.  When the database answers and the user has no unread
    notification, marking all notifications as read reports zero updated
    notifications and leaves the notification collection exactly as it
    was, read timestamps included. *)
Theorem mark_all_read_without_unread (current_user : User) (w : World) :
  no_faults w ->
  (forall n, In n (notifications w) -> unread_of (user_oid current_user) n = false) ->
  fst (notifications_api.mark_all_read current_user w)
    = Return (0, "0 notifications marked as read")
  /\ fst (NotificationRepository.mark_all_as_read (user_oid current_user) w) = Return 0
  /\ notifications (snd (notifications_api.mark_all_read current_user w))
     = notifications w.
Proof.
  intros Hfaults Hread. unfold unread_of in Hread.
  unfold notifications_api.mark_all_read.
  autounfold with model.
  unfold bind, utcnow, round_trip, Motor.write_requested, ret. simpl.
  rewrite Hfaults. simpl.
  rewrite filter_untouched by exact Hread.
  rewrite map_untouched by exact Hread.
  repeat split.
Qed.

Lemma mark_all_read_without_unread_witness :
  fst (notifications_api.mark_all_read Sample.admin Inbox.start)
    = Return (0, "0 notifications marked as read")
  /\ notifications (snd (notifications_api.mark_all_read Sample.admin Inbox.start))
     = [Inbox.seen; Inbox.pending].
Proof.
  destruct (@mark_all_read_without_unread Sample.admin Inbox.start)
    as [Hcount [_ Hsame]].
  - intro n. reflexivity.
  - intros n [Hn|[Hn|[]]]; subst n; reflexivity.
  - split; [exact Hcount | exact Hsame].
Defined.

Lemma update_first_found {T} (p : T -> bool) (f : T -> T) (l : list T) (r : T) :
  List.find p l = Some r ->
  p (f r) = true ->
  snd (Motor.update_first p f l) = Some (f r)
  /\ List.find p (fst (Motor.update_first p f l)) = Some (f r).
Proof.
  intros Hfind Hkept. induction l as [|x l IH]; simpl in *; [discriminate |].
  destruct (p x) eqn:Hx.
  - inversion Hfind; subst x. simpl. rewrite Hkept. split; reflexivity.
  - destruct (Motor.update_first p f l) as [l' found]. simpl in *.
    rewrite Hx. apply IH. exact Hfind.
Qed.

Lemma mark_read_again_run
    (notification_id : string) (current_user : User) (w : World) (n : Notification) :
  no_faults w ->
  lookup notification_id (notifications w) = Some n ->
  user_id n = user_oid current_user ->
  exists w',
    notifications_api.mark_notification_read notification_id current_user w
    = (Return (with_updated_at (clock w (S (S (tick w))))
                 (set_read (clock w (S (tick w))) n)), w')
    /\ lookup notification_id (notifications w')
       = Some (with_updated_at (clock w (S (S (tick w))))
                 (set_read (clock w (S (tick w))) n)).
Proof.
  intros Hfaults Hfound Howner.
  unfold notifications_api.mark_notification_read.
  unfold bind at 1. rewrite (find_notification_found _ _ (Hfaults _) Hfound).
  rewrite Howner, String.eqb_refl. simpl negb. cbv iota.
  autounfold with model. unfold lookup in *.
  destruct (ObjectId notification_id) as [object_id|]; [| discriminate].
  unfold bind, try, utcnow, round_trip, Motor.write_requested, ret. simpl.
  rewrite Hfaults. simpl.
  destruct (@update_first_found Notification
              (fun r => String.eqb (notification_oid r) object_id)
              (fun r => with_updated_at (clock w (S (S (tick w))))
                          (set_read (clock w (S (tick w))) r))
              (notifications w) n Hfound) as [Hreturned Hstored].
  - simpl. apply List.find_some in Hfound. apply Hfound.
  - destruct (Motor.update_first _ _ (notifications w)) as [l' found].
    simpl in *. subst found. eexists. split; [reflexivity |]. simpl. exact Hstored.
Qed.

(** The bulk operation leaves a notification that is already read where it
    is and as it is, whether the database answers or not. *)
Lemma mark_all_keeps_read (user_id_ : string) (w : World) (i : nat) (m : Notification) :
  nth_error (notifications w) i = Some m ->
  is_read m = true ->
  nth_error
    (notifications (snd (NotificationRepository.mark_all_as_read user_id_ w))) i
  = Some m.
Proof.
  intros Hat Hread.
  autounfold with model.
  unfold bind, utcnow, round_trip, Motor.write_requested, ret. simpl.
  destruct (fault w (S (S (tick w)))); simpl; [exact Hat |].
  rewrite nth_error_map, Hat. simpl.
  rewrite Hread, andb_false_r. reflexivity.
Qed.

(** C10.  When the database answers, the owner of a notification that is
    already read marks it as read once more: the request succeeds and the
    stored notification carries the time of this request as [read_at],
    whatever the earlier read time was.  The bulk operation, run instead,
    leaves the same notification untouched. *)
Theorem mark_read_again_overwrites
    (notification_id : string) (current_user : User) (w : World) (n : Notification) :
  no_faults w ->
  lookup notification_id (notifications w) = Some n ->
  user_id n = user_oid current_user ->
  is_read n = true ->
  (exists n',
     fst (notifications_api.mark_notification_read notification_id current_user w)
       = Return n'
     /\ lookup notification_id
          (notifications
             (snd (notifications_api.mark_notification_read notification_id
                     current_user w))) = Some n'
     /\ is_read n' = true
     /\ read_at n' = Some (clock w (S (tick w)))
     /\ (read_at n <> Some (clock w (S (tick w))) -> read_at n' <> read_at n))
  /\ (forall i,
        nth_error (notifications w) i = Some n ->
        nth_error
          (notifications (snd (notifications_api.mark_all_read current_user w))) i
        = Some n).
Proof.
  intros Hfaults Hfound Howner Hread. split.
  - destruct (@mark_read_again_run notification_id current_user w n
                Hfaults Hfound Howner) as [w' [Hrun Hstored]].
    rewrite Hrun. eexists. split; [reflexivity |].
    split; [exact Hstored |].
    split; [reflexivity |]. split; [reflexivity |].
    simpl. intros Hdiffers Hsame. apply Hdiffers. symmetry. exact Hsame.
  - intros i Hat.
    pose proof (@mark_all_keeps_read (user_oid current_user) w i n Hat Hread) as Hkept.
    unfold notifications_api.mark_all_read. unfold bind at 1.
    destruct (NotificationRepository.mark_all_as_read (user_oid current_user) w)
      as [[count|e] w']; exact Hkept.
Qed.

Lemma mark_read_again_overwrites_witness :
  exists n',
    fst (notifications_api.mark_notification_read (oid_of_nat 700) Sample.admin
           Inbox.start) = Return n'
    /\ read_at Inbox.seen = Some (mk_datetime 2024 7)
    /\ read_at n' = Some (mk_datetime 2025 1).
Proof.
  destruct (@mark_read_again_overwrites (oid_of_nat 700) Sample.admin Inbox.start
              Inbox.seen) as [[n' [Hreturned [_ [_ [Hstamp _]]]]] _].
  - intro n. reflexivity.
  - reflexivity.
  - reflexivity.
  - reflexivity.
  - exists n'. split; [exact Hreturned |]. split; [reflexivity | exact Hstamp].
Defined.

(** ** [archived_at] and the status archived (C1) *)

(** *** How the stored documents change *)

Section Evolve.
Variable Q : Document -> Document -> Prop.
Hypothesis Q_refl : forall d, Q d d.

Lemma Forall2_refl (l : list Document) : Forall2 Q l l.
Proof. induction l; constructor; auto. Qed.

Lemma evolve_refl (l : list Document) : evolve Q l l.
Proof.
  exists l, []. rewrite app_nil_r. split; [reflexivity |].
  split; [apply Forall2_refl | constructor].
Qed.

Lemma evolve_insert (l : list Document) (x : Document) :
  archived_at x = None -> evolve Q l (l ++ [x]).
Proof.
  intros Hx. exists l, [x]. split; [reflexivity |].
  split; [apply Forall2_refl | repeat constructor; exact Hx].
Qed.

Lemma evolve_update (p : Document -> bool) (f : Document -> Document)
    (l : list Document) :
  (forall d, Q d (f d)) -> evolve Q l (fst (Motor.update_first p f l)).
Proof.
  intros Hf. exists (fst (Motor.update_first p f l)), [].
  rewrite app_nil_r. split; [reflexivity |]. split; [| constructor].
  induction l as [|x l IH]; simpl; [constructor |].
  destruct (p x).
  - simpl. constructor; [apply Hf | apply Forall2_refl].
  - destruct (Motor.update_first p f l) as [l' found]. simpl in *.
    constructor; [apply Q_refl | exact IH].
Qed.

Lemma evolve_update_eq (p : Document -> bool) (f : Document -> Document)
    (l l' : list Document) (found : option Document) :
  Motor.update_first p f l = (l', found) -> (forall d, Q d (f d)) -> evolve Q l l'.
Proof.
  intros Heq Hf. pose proof (@evolve_update p f l Hf) as H. rewrite Heq in H. exact H.
Qed.

End Evolve.

Lemma stamp_kept_refl d : stamp_kept d d.
Proof. split; reflexivity. Qed.

Lemma stamped_when_archived_refl d : stamped_when_archived d d.
Proof. split; [reflexivity | left; reflexivity]. Qed.

#[export] Instance stamps_kept_Frame : Frame (evolves stamp_kept).
Proof.
  split.
  - intro w. apply evolve_refl, stamp_kept_refl.
  - intros w1 w2 w3 [c [a [Hl [Hc Ha]]]] [c' [a' [Hl' [Hc' Ha']]]].
    unfold evolves, evolve. rewrite Hl in Hc'.
    apply Forall2_app_inv_l in Hc' as [c1 [c2 [Hc1 [Hc2 Hsplit]]]].
    exists c1, (c2 ++ a'). split; [rewrite Hl', Hsplit, app_assoc; reflexivity |].
    split.
    + clear - Hc Hc1. revert c1 Hc1.
      induction Hc as [|d d' l l' Hd Hl IH]; intros c1 Hc1;
        inversion Hc1; subst; constructor.
      * destruct Hd as [Ho Hs]. destruct H1 as [Ho' Hs']. split; congruence.
      * apply IH. assumption.
    + apply Forall_app. split; [| exact Ha'].
      clear - Ha Hc2. induction Hc2 as [|d d' l l' Hd Hl IH]; constructor.
      * inversion Ha; subst. destruct Hd as [_ Hs]. congruence.
      * apply IH. inversion Ha; assumption.
Qed.

Ltac stamp_leaf :=
  unfold evolves; simpl;
  first [ apply evolve_refl; exact stamp_kept_refl
        | apply evolve_insert; [exact stamp_kept_refl | reflexivity]
        | eapply evolve_update_eq;
            [exact stamp_kept_refl | eassumption | intro; split; reflexivity]
        | apply evolve_update;
            [exact stamp_kept_refl | intro; split; reflexivity] ].

Ltac stamps_kept := solve [preserve_with stamp_leaf].

Lemma create_keeps_stamps document_data current_user :
  preserves (evolves stamp_kept) (documents.create_document document_data current_user).
Proof. unfold documents.create_document. stamps_kept. Qed.

Lemma view_keeps_stamps document_id_ current_user :
  preserves (evolves stamp_kept) (documents.get_document document_id_ current_user).
Proof. unfold documents.get_document. stamps_kept. Qed.

Lemma modify_keeps_stamps document_id_ document_data current_user :
  preserves (evolves stamp_kept)
    (documents.update_document document_id_ document_data current_user).
Proof. unfold documents.update_document. stamps_kept. Qed.

Lemma forward_keeps_stamps document_id_ forward_data current_user :
  preserves (evolves stamp_kept)
    (documents.forward_document document_id_ forward_data current_user).
Proof. unfold documents.forward_document. stamps_kept. Qed.

Lemma status_keeps_stamps document_id_ status_data current_user :
  preserves (evolves stamp_kept)
    (documents.update_document_status document_id_ status_data current_user).
Proof. unfold documents.update_document_status. stamps_kept. Qed.

Lemma upload_keeps_stamps document_id_ file current_user :
  preserves (evolves stamp_kept)
    (files.upload_file_to_document document_id_ file current_user).
Proof. unfold files.upload_file_to_document. stamps_kept. Qed.

Lemma delete_file_keeps_stamps document_id_ file_id_ current_user :
  preserves (evolves stamp_kept)
    (files.delete_file_from_document document_id_ file_id_ current_user).
Proof. unfold files.delete_file_from_document. stamps_kept. Qed.

Lemma mark_read_keeps_stamps notification_id current_user :
  preserves (evolves stamp_kept)
    (notifications_api.mark_notification_read notification_id current_user).
Proof. unfold notifications_api.mark_notification_read. stamps_kept. Qed.

Lemma mark_all_read_keeps_stamps current_user :
  preserves (evolves stamp_kept) (notifications_api.mark_all_read current_user).
Proof. unfold notifications_api.mark_all_read. stamps_kept. Qed.

(** *** The archive operation *)

Lemma stamp_kept_weaken w w' :
  evolves stamp_kept w w' -> evolves stamped_when_archived w w'.
Proof.
  intros [c [a [Hl [Hc Ha]]]]. exists c, a. split; [exact Hl |]. split; [| exact Ha].
  clear - Hc. induction Hc as [|d d' l l' [Ho Hs] Hl IH]; constructor.
  - split; [exact Ho | left; exact Hs].
  - exact IH.
Qed.

Lemma evolves_bind_reads Q A B (m : M A) (k : A -> M B) :
  (forall d, Q d d) ->
  preserves (keeps documents) m ->
  (forall a, preserves (evolves Q) (k a)) ->
  preserves (evolves Q) (bind m k).
Proof.
  intros Hrefl Hm Hk w. unfold bind. specialize (Hm w). unfold keeps in Hm.
  destruct (m w) as [[a|e] w']; simpl in *.
  - specialize (Hk a w'). unfold evolves in *. rewrite Hm in Hk. exact Hk.
  - unfold evolves. rewrite Hm. apply evolve_refl. exact Hrefl.
Qed.

Lemma evolves_bind_then_reads Q A B (m : M A) (k : A -> M B) :
  preserves (evolves Q) m ->
  (forall a, preserves (keeps documents) (k a)) ->
  preserves (evolves Q) (bind m k).
Proof.
  intros Hm Hk w. unfold bind. specialize (Hm w).
  destruct (m w) as [[a|e] w']; simpl in *.
  - specialize (Hk a w'). unfold keeps in Hk. unfold evolves in *.
    rewrite Hk. exact Hm.
  - exact Hm.
Qed.

Lemma evolves_attempt Q A (s : Step) (m : M A) :
  preserves (evolves Q) m -> preserves (evolves Q) (attempt s m).
Proof.
  intros Hm w. unfold attempt.
  specialize (Hm (set_steps (steps w ++ [Begin s]) w)).
  destruct (m _) as [[a|e] w']; exact Hm.
Qed.

Ltac reads := solve [preserve_with keeps_leaf].

(** [DocumentRepository.archive_document] stamps the document it sets to
    archived, and no other. *)
Lemma repository_archive_stamps document_id_ :
  preserves (evolves stamped_when_archived)
    (DocumentRepository.archive_document document_id_).
Proof.
  unfold DocumentRepository.archive_document.
  apply evolves_bind_reads; [exact stamped_when_archived_refl | reads |].
  intros now. unfold BaseRepository.update_by_id, Motor.find_one_and_update.
  intro w. unfold Motor.write_requested, utcnow, round_trip, try, bind, raise, ret.
  unfold evolves.
  destruct (ObjectId document_id_) as [object_id|]; simpl.
  - destruct (fault w (S (tick w))); simpl.
    + apply evolve_refl, stamped_when_archived_refl.
    + destruct (Motor.update_first _ _ (documents w)) as [l found] eqn:Hupdate. simpl.
      eapply evolve_update_eq;
        [exact stamped_when_archived_refl | exact Hupdate |].
      intro d. split; [reflexivity | right; reflexivity].
  - apply evolve_refl, stamped_when_archived_refl.
Qed.

Lemma archive_stamps document_id_ current_user :
  preserves (evolves stamped_when_archived)
    (documents.archive_document document_id_ current_user).
Proof.
  unfold documents.archive_document.
  apply evolves_bind_reads; [exact stamped_when_archived_refl | reads |].
  intros [document|].
  - cbv zeta. destruct (negb _).
    + intro w. apply evolve_refl, stamped_when_archived_refl.
    + apply evolves_bind_then_reads; [| intros; reads].
      apply evolves_attempt, repository_archive_stamps.
  - intro w. apply evolve_refl, stamped_when_archived_refl.
Qed.

Lemma admin_archive_stamps document_id_ reason performed_by_id performed_by_name_ :
  preserves (evolves stamped_when_archived)
    (DocumentActionService.archive_document document_id_ reason performed_by_id
       performed_by_name_).
Proof.
  unfold DocumentActionService.archive_document.
  apply evolves_bind_reads; [exact stamped_when_archived_refl | reads |].
  intros [document|].
  - apply evolves_bind_then_reads.
    + apply evolves_attempt, repository_archive_stamps.
    + intros [updated_doc|]; reads.
  - intro w. apply evolve_refl, stamped_when_archived_refl.
Qed.

(** *** Sequences of requests *)

Lemma serve_stamps (r : Request) (w : World) :
  evolves stamped_when_archived w (serve r w).
Proof.
  destruct r as [tr current_user| | | |]; simpl.
  - assert (Hthen : forall A (m : M A),
               preserves (evolves stamped_when_archived) m ->
               preserves (evolves stamped_when_archived) (bind m (fun _ => ret tt))).
    { intros A m Hm. apply evolves_bind_then_reads; [exact Hm | intros; reads]. }
    destruct tr; simpl; apply Hthen; intro w0.
    + apply stamp_kept_weaken, create_keeps_stamps.
    + apply stamp_kept_weaken, forward_keeps_stamps.
    + apply stamp_kept_weaken, status_keeps_stamps.
    + apply archive_stamps.
    + apply stamp_kept_weaken, modify_keeps_stamps.
    + apply stamp_kept_weaken, upload_keeps_stamps.
    + apply stamp_kept_weaken, delete_file_keeps_stamps.
  - apply stamp_kept_weaken, view_keeps_stamps.
  - apply stamp_kept_weaken, mark_read_keeps_stamps.
  - apply stamp_kept_weaken, mark_all_read_keeps_stamps.
  - apply admin_archive_stamps.
Qed.

Lemma evolve_at Q (l l' : list Document) (i : nat) (d' : Document) :
  evolve Q l l' ->
  nth_error l' i = Some d' ->
  (exists d, nth_error l i = Some d /\ Q d d') \/ archived_at d' = None.
Proof.
  intros [c [a [Hl [Hc Ha]]]] Hat. subst l'.
  destruct (Nat.lt_ge_cases i (length c)) as [Hi|Hi].
  - rewrite nth_error_app1 in Hat by exact Hi. left.
    clear - Hc Hat. revert i Hat.
    induction Hc as [|d0 d0' l0 l0' Hd Hl IH]; intros [|i] Hat; simpl in *;
      try discriminate.
    + inversion Hat; subst. exists d0. split; [reflexivity | exact Hd].
    + apply IH. exact Hat.
  - rewrite nth_error_app2 in Hat by exact Hi. right.
    apply nth_error_In in Hat. rewrite Forall_forall in Ha. apply Ha. exact Hat.
Qed.

Lemma stamps_along (requests : list Request) :
  forall (seen : list World) (w : World),
    (forall i d, nth_error (documents w) i = Some d -> archived_at d <> None ->
                 was_archived i (document_oid d) (seen ++ [w])) ->
    forall w' i d,
      In w' (worlds requests w) ->
      nth_error (documents w') i = Some d -> archived_at d <> None ->
      was_archived i (document_oid d) (seen ++ worlds requests w).
Proof.
  induction requests as [|r rest IH]; intros seen w Hinv w' i d Hin Hat Hset.
  - simpl in *. destruct Hin as [<-|[]]. apply Hinv; assumption.
  - simpl in Hin. destruct Hin as [<-|Hin].
    + destruct (Hinv i d Hat Hset) as [w1 [d1 [Hw1 Hrest]]].
      exists w1, d1. split; [| exact Hrest].
      simpl. apply in_app_or in Hw1. apply in_or_app.
      destruct Hw1 as [Hw1|[<-|[]]]; [left; exact Hw1 | right; left; reflexivity].
    + simpl. replace (seen ++ w :: worlds rest (serve r w))
        with ((seen ++ [w]) ++ worlds rest (serve r w))
        by (rewrite <- app_assoc; reflexivity).
      apply IH with (w' := w'); try assumption.
      intros j e Hj He.
      destruct (evolve_at j (serve_stamps r w) Hj) as [[e0 [He0 [Hid Hstamp]]]|Hnone];
        [| contradiction].
      destruct Hstamp as [Hkept|Harchived].
      * rewrite Hkept in He.
        destruct (Hinv j e0 He0 He) as [w1 [d1 [Hw1 [Hd1 [Hid1 Hs1]]]]].
        exists w1, d1. repeat split; try assumption; try congruence.
        apply in_or_app. left. exact Hw1.
      * exists (serve r w), e. repeat split; try assumption.
        apply in_or_app. right. left. reflexivity.
Qed.

(** C1, amended.  Start from a collection in which every document that
    carries an archive stamp has the status archived (an empty collection,
    for instance) and serve any sequence of requests, with any failures of
    the database.  Whenever a document has [archived_at] set, the same
    document had the status archived at the start or at the end of one of
    the requests served: [archived_at] is stamped only together with the
    status archived, by the archive operation. *)
Theorem archived_at_only_with_archived_status
    (requests : list Request) (w0 w : World) (i : nat) (d : Document) :
  (forall d0, In d0 (documents w0) -> archived_at d0 <> None ->
              status d0 = DocumentStatus.ARCHIVED) ->
  In w (worlds requests w0) ->
  nth_error (documents w) i = Some d ->
  archived_at d <> None ->
  was_archived i (document_oid d) (worlds requests w0).
Proof.
  intros Hstart Hin Hat Hset.
  apply (@stamps_along requests [] w0) with (w' := w); try assumption.
  intros j e Hj He. exists w0, e. simpl.
  split; [left; reflexivity |]. split; [exact Hj |]. split; [reflexivity |].
  apply Hstart; [| exact He]. apply nth_error_In in Hj. exact Hj.
Qed.

(** C1, as the specification states it, fails: after a create and a status
    change to archived, the status of the document has been set to
    archived and its [archived_at] is not set. *)
Lemma status_change_archives_without_stamp :
  exists d,
    nth_error (documents (StatusRun.final StatusRun.requests)) 0 = Some d
    /\ status d = DocumentStatus.ARCHIVED
    /\ archived_at d = None
    /\ was_archived 0 (document_oid d) (worlds StatusRun.requests StatusRun.start).
Proof.
  eexists. split; [vm_compute; reflexivity |].
  split; [reflexivity |]. split; [reflexivity |].
  eexists. eexists. split; [right; right; left; reflexivity |].
  split; [vm_compute; reflexivity |]. split; reflexivity.
Qed.

Lemma archived_at_only_with_archived_status_witness :
  exists d,
    nth_error (documents (StatusRun.final StatusRun.archive_requests)) 0 = Some d
    /\ archived_at d <> None
    /\ was_archived 0 (document_oid d)
         (worlds StatusRun.archive_requests StatusRun.start).
Proof.
  eexists. split; [vm_compute; reflexivity |].
  split; [discriminate |].
  apply (@archived_at_only_with_archived_status StatusRun.archive_requests
           StatusRun.start
           (serve (Transit (Archive (oid_of_nat 1004)) Sample.admin)
              (serve (Transit (Create Sample.memo) Sample.admin) StatusRun.start))
           0).
  - intros d0 [].
  - right. right. left. reflexivity.
  - vm_compute. reflexivity.
  - discriminate.
Defined.

(** ** The fan-out in general *)

Lemma for_each_notifies (l : list User)
    (body : list Notification -> User -> M (list Notification)) (sel : User -> bool) :
  (forall acc u w, no_faults w ->
     exists n w',
       body acc u w = (Return (if sel u then acc ++ [n] else acc), w')
       /\ notifications w' = (if sel u then notifications w ++ [n] else notifications w)
       /\ user_id n = user_oid u
       /\ fault w' = fault w) ->
  forall acc w, no_faults w ->
    exists created w',
      for_each l acc body w = (Return (acc ++ created), w')
      /\ notifications w' = notifications w ++ created
      /\ map user_id created = map user_oid (List.filter sel l)
      /\ fault w' = fault w.
Proof.
  intros Hbody. induction l as [|u l IH]; intros acc w Hfaults.
  - exists [], w. simpl. rewrite !app_nil_r. repeat split.
  - destruct (Hbody acc u w Hfaults) as [n [w1 [Hrun [Hnotes [Hto Hfault]]]]].
    assert (Hfaults1 : no_faults w1) by (intro k; rewrite Hfault; apply Hfaults).
    destruct (IH (if sel u then acc ++ [n] else acc) w1 Hfaults1)
      as [created [w2 [Hrest [Hnotes2 [Hmap Hfault2]]]]].
    simpl. unfold bind at 1. rewrite Hrun. rewrite Hrest.
    destruct (sel u).
    + exists (n :: created), w2. rewrite <- app_assoc. simpl.
      split; [reflexivity |]. rewrite Hnotes2, Hnotes, <- app_assoc. simpl.
      split; [reflexivity |]. split; [f_equal; assumption | congruence].
    + exists created, w2. split; [reflexivity |]. rewrite Hnotes2, Hnotes.
      split; [reflexivity |]. split; [exact Hmap | congruence].
Qed.

Lemma send_emails_keeps_notifications l d :
  preserves (keeps notifications) (documents.send_emails l d).
Proof. preserve_with keeps_leaf. Qed.

Lemma repository_forward_run
    (document_id_ to_department_id_ : string) (assignee : option string)
    (w : World) (d : Document) :
  no_faults w ->
  lookup document_id_ (documents w) = Some d ->
  exists d' w',
    attempt Mutation
      (DocumentRepository.forward_document document_id_ to_department_id_ assignee) w
    = (Return (Some d'), w')
    /\ directory w' = directory w.
Proof.
  intros Hfaults Hdoc. unfold lookup in Hdoc.
  unfold DocumentRepository.forward_document, BaseRepository.update_by_id,
    Motor.find_one_and_update.
  destruct (ObjectId document_id_) as [object_id|]; [| discriminate].
  unfold attempt, Motor.write_requested, utcnow, round_trip, try, bind, ret. simpl.
  rewrite Hfaults. simpl.
  match goal with
  | |- context [Motor.update_first ?p ?f (documents w)] =>
      destruct (@update_first_found Document p f (documents w) d Hdoc) as [Hfound _];
        [simpl; apply List.find_some in Hdoc; apply Hdoc |];
        destruct (Motor.update_first p f (documents w)) as [l found]
  end.
  simpl in *. subst found. do 2 eexists. split; reflexivity.
Qed.

Lemma audit_run (document_id_ : string) (action_ : DocumentAction.t) (user : User)
    (kwargs : AuditKwargs) (w : World) :
  no_faults w ->
  exists w',
    attempt Ledger (documents.create_audit_entry document_id_ action_ user kwargs) w
    = (Return tt, w')
    /\ directory w' = directory w.
Proof.
  intros Hfaults. autounfold with model.
  unfold attempt, Motor.write_requested, utcnow, round_trip, bind, ret. simpl.
  rewrite Hfaults. simpl. eexists. split; reflexivity.
Qed.

Lemma notify_member_run (acc : list Notification) (user : User) (w : World)
    (document_id_ : string) (type_ : NotificationType.t) (title_ message_ : string)
    (metadata_ : list (string * string)) :
  no_faults w ->
  exists n w',
    (if Py.get (is_active user) true then
       try (notif <- NotificationService.create_notification (user_oid user)
                       document_id_ type_ title_ message_ metadata_ ;;
            ret (acc ++ [notif]))
           (fun _ => ret acc)
     else ret acc) w
    = (Return (if Py.get (is_active user) true then acc ++ [n] else acc), w')
    /\ notifications w'
       = (if Py.get (is_active user) true then notifications w ++ [n]
          else notifications w)
    /\ user_id n = user_oid user
    /\ fault w' = fault w.
Proof.
  intros Hfaults. destruct (Py.get (is_active user) true).
  - autounfold with model.
    unfold Motor.write_requested, utcnow, round_trip, try, bind, ret. simpl.
    rewrite Hfaults. simpl. do 2 eexists. split; [reflexivity |]. simpl.
    split; [reflexivity |]. split; reflexivity.
  - exists (mk_Notification "" (user_oid user) "" type_ "" "" false false [] None
              epoch epoch), w.
    repeat split.
Qed.

Lemma notify_department_run (d : Document)
    (from_department_id_ to_department_id_ : string) (assignee : option string)
    (forwarded_by_name : string) (w : World) (dep : Department) :
  no_faults w ->
  lookup to_department_id_ (departments w) = Some dep ->
  Py.truthy assignee = false ->
  exists created w',
    NotificationService.notify_document_forwarded (Some d) from_department_id_
      to_department_id_ assignee forwarded_by_name w
    = (Return created, w')
    /\ notifications w' = notifications w ++ created
    /\ map user_id created
       = map user_oid
           (List.filter (fun u => Py.get (is_active u) true)
              (firstn 20
                 (List.filter (fun u => String.eqb (department_id u) to_department_id_)
                    (users w)))).
Proof.
  intros Hfaults Hdep Hnone.
  unfold NotificationService.notify_document_forwarded, NotificationService.deref.
  unfold bind at 1. unfold ret at 1. cbv beta iota zeta.
  unfold bind at 1. rewrite (find_department_found _ _ (Hfaults _) Hdep).
  rewrite Hnone.
  unfold bind at 1.
  unfold UserRepository.find_by_department, BaseRepository.find_many, Motor.find.
  unfold bind at 1. unfold round_trip at 1. simpl. rewrite Hfaults. simpl.
  match goal with
  | |- context [for_each ?l [] ?body ?w1] =>
      destruct (@for_each_notifies l body (fun u => Py.get (is_active u) true))
        with (acc := @nil Notification) (w := w1)
        as [created [w' [Hrun [Hnotes [Hmap _]]]]]
  end.
  - intros acc u w0 Hw0. apply notify_member_run. exact Hw0.
  - intro n. apply Hfaults.
  - exists created, w'. rewrite Hrun. simpl in *.
    split; [reflexivity |]. split; [exact Hnotes | exact Hmap].
Qed.

(** X11.  What the fan-out of a forward without assignee does in general:
    when the database answers, one notification is created for each active
    user among the first 20 users of the target department, in their
    order. *)
Lemma forward_notifies_first_twenty
    (document_id_ : string) (forward_data : DocumentForward) (current_user : User)
    (w : World) (d : Document) (dep : Department) :
  no_faults w ->
  lookup document_id_ (documents w) = Some d ->
  lookup (forward_to_department_id forward_data) (departments w) = Some dep ->
  Py.truthy (forward_assigned_to_user_id forward_data) = false ->
  can_forward d current_user = true ->
  exists created,
    notifications
      (snd (documents.forward_document document_id_ forward_data current_user w))
    = notifications w ++ created
    /\ map user_id created
       = map user_oid
           (List.filter (fun u => Py.get (is_active u) true)
              (firstn 20
                 (List.filter
                    (fun u => String.eqb (department_id u)
                                (forward_to_department_id forward_data))
                    (users w)))).
Proof.
  intros Hfaults Hdoc Hdep Hnone Hallowed.
  unfold documents.forward_document.
  unfold bind at 1. rewrite (find_document_found _ _ (Hfaults _) Hdoc).
  unfold bind at 1. rewrite (find_department_found _ (ticked w) (Hfaults _) Hdep).
  rewrite Hnone. unfold bind at 1. unfold ret at 1.
  unfold can_forward in Hallowed. cbv zeta. rewrite Hallowed.
  change (negb true) with false. cbv iota.
  destruct (@repository_forward_run document_id_
              (forward_to_department_id forward_data)
              (forward_assigned_to_user_id forward_data) (ticked (ticked w)) d)
    as [d' [w3 [Hmutation Hsame3]]]; [exact Hfaults | exact Hdoc |].
  unfold bind at 1. rewrite Hmutation.
  unfold directory in Hsame3. simpl in Hsame3. inversion Hsame3 as [[Hn3 Hu3 Hd3 Hf3]].
  assert (Hfaults3 : no_faults w3) by (intro k; rewrite Hf3; apply Hfaults).
  match goal with
  | |- context [attempt Ledger (documents.create_audit_entry ?i ?a ?u ?k)] =>
      destruct (@audit_run i a u k w3 Hfaults3) as [w4 [Hledger Hsame4]]
  end.
  unfold bind at 1. rewrite Hledger.
  unfold directory in Hsame4. inversion Hsame4 as [[Hn4 Hu4 Hd4 Hf4]].
  assert (Hfaults4 : no_faults w4) by (intro k; rewrite Hf4; apply Hfaults3).
  destruct (@notify_department_run d' (current_holder_department_id d)
              (forward_to_department_id forward_data)
              (forward_assigned_to_user_id forward_data)
              (Py.get (full_name current_user) "Unknown")
              (set_steps (steps w4 ++ [Begin Fanout]) w4) dep)
    as [created [w5 [Hfanout [Hnotes Hmap]]]].
  - exact Hfaults4.
  - simpl. rewrite Hd4, Hd3. exact Hdep.
  - exact Hnone.
  - unfold bind at 1. unfold attempt at 1. rewrite Hfanout.
    pose proof (send_emails_keeps_notifications created (Some d') w5) as Hmail.
    unfold keeps in Hmail. unfold bind at 1.
    destruct (documents.send_emails created (Some d') w5) as [[u|e] w6];
      simpl in *; exists created; rewrite Hmail, Hnotes, Hn4, Hn3, Hu4, Hu3 in *;
      (split; [reflexivity | exact Hmap]).
Qed.

Lemma forward_notifies_first_twenty_witness :
  exists created,
    notifications
      (snd (documents.forward_document (oid_of_nat 501) FanOut.request Sample.admin
              FanOut.start)) = created
    /\ length created = 20.
Proof.
  destruct (@forward_notifies_first_twenty (oid_of_nat 501) FanOut.request Sample.admin
              FanOut.start (Sample.numbered 1 "DOC-2025-00001")
              (mk_Department Sample.department_b (Some "B") epoch epoch))
    as [created [Hnotes Hmap]].
  - intro n. reflexivity.
  - reflexivity.
  - reflexivity.
  - reflexivity.
  - reflexivity.
  - exists created. split; [exact Hnotes |].
    apply (f_equal (@length string)) in Hmap. rewrite !length_map in Hmap.
    rewrite Hmap. vm_compute. reflexivity.
Defined.

(** ** The scenario of the specification *)

(** Create, forward to V, set to completed: one entry per transition, one
    notification for the forward (to V) and two for the status change (to
    the creator U and to V); the document is held by department B, assigned
    to V and completed. *)
Example scenario_of_the_specification :
  map action (document_history (StatusRun.final StatusRun.scenario))
    = [DocumentAction.CREATED; DocumentAction.FORWARDED; DocumentAction.STATUS_CHANGED]
  /\ map user_id (notifications (StatusRun.final StatusRun.scenario))
     = [user_oid Sample.clerk; user_oid Sample.admin; user_oid Sample.clerk]
  /\ map (fun d => (document_number d, status d, current_holder_department_id d,
                    assigned_to_user_id d, archived_at d))
       (documents (StatusRun.final StatusRun.scenario))
     = [("DOC-2025-00001", DocumentStatus.COMPLETED, Sample.department_b,
         Some (user_oid Sample.clerk), None)].
Proof. repeat split; vm_compute; reflexivity. Qed.

(** * Further properties of the code *)

(** ** Requests that are refused *)

#[export] Hint Unfold
  Motor.count_documents Motor.delete_one
  BaseRepository.find_one BaseRepository.count BaseRepository.delete_by_id
  BaseRepository.exists_
  DocumentRepository.find_by_creator DocumentRepository.find_by_department
  DocumentRepository.find_assigned_to_user DocumentRepository.get_document_stats
  DocumentHistoryRepository.find_by_document DocumentHistoryRepository.find_by_user
  DocumentHistoryRepository.get_document_timeline
  DocumentHistoryRepository.get_forwarding_chain
  NotificationRepository.find_by_user NotificationRepository.count_unread
  NotificationRepository.delete_by_id
  permissions.get_current_active_user permissions.RoleChecker
  permissions.DepartmentAccessChecker permissions.require_admin
  permissions.require_department_head permissions.require_authenticated : model.

Lemma raises_unexpected_ret A (a : A) : raises_unexpected (ret a).
Proof. intros w e H. discriminate H. Qed.

Lemma raises_unexpected_raise A (e : Exception) :
  kind e = Unexpected -> raises_unexpected (@raise A e).
Proof. intros He w e' H. inversion H; subst. exact He. Qed.

Lemma raises_unexpected_bind A B (m : M A) (k : A -> M B) :
  raises_unexpected m -> (forall a, raises_unexpected (k a)) ->
  raises_unexpected (bind m k).
Proof.
  intros Hm Hk w e. unfold bind. specialize (Hm w).
  destruct (m w) as [[a|e'] w']; simpl in *.
  - apply Hk.
  - intros H. inversion H; subst. apply Hm. reflexivity.
Qed.

Lemma raises_unexpected_try A (m : M A) (h : Exception -> M A) :
  (forall e, raises_unexpected (h e)) -> raises_unexpected (try m h).
Proof.
  intros Hh w e. unfold try.
  destruct (m w) as [[a|e'] w']; simpl.
  - discriminate.
  - apply Hh.
Qed.

Lemma raises_unexpected_attempt A (s : Step) (m : M A) :
  raises_unexpected m -> raises_unexpected (attempt s m).
Proof.
  intros Hm w e. unfold attempt.
  specialize (Hm (set_steps (steps w ++ [Begin s]) w)).
  destruct (m _) as [[a|e'] w']; simpl in *.
  - discriminate.
  - intros H. inversion H; subst. apply Hm. reflexivity.
Qed.

Lemma raises_unexpected_for_each A B (l : list A) (body : B -> A -> M B) :
  (forall acc x, raises_unexpected (body acc x)) ->
  forall acc, raises_unexpected (for_each l acc body).
Proof.
  intros Hbody. induction l as [|x l IH]; intros acc; simpl.
  - apply raises_unexpected_ret.
  - apply raises_unexpected_bind; [apply Hbody | intros; apply IH].
Qed.

Ltac unexpected_leaf :=
  let w := fresh "w" in
  let e := fresh "e" in
  let H := fresh "H" in
  intros w e H; unfold utcnow, round_trip, Motor.write_requested in H; simpl in H;
  repeat match type of H with
         | context [match ?x with _ => _ end] => destruct x; simpl in H
         end;
  first [discriminate H | inversion H; reflexivity].

Lemma raises_unexpected_find_many {T} `{Collection T} (filter : T -> bool)
    (skip limit : nat) (sort : option (T -> T -> bool)) :
  raises_unexpected (BaseRepository.find_many filter skip limit sort).
Proof.
  intros w e. unfold BaseRepository.find_many, Motor.find, bind, round_trip.
  destruct (fault w (tick w)); cbn [fst]; intros Hraise.
  - inversion Hraise. reflexivity.
  - discriminate Hraise.
Qed.

Lemma find_many_reads {T} `{Collection T} (filter : T -> bool)
    (skip limit : nat) (sort : option (T -> T -> bool)) :
  preserves (keeps stored) (BaseRepository.find_many filter skip limit sort).
Proof.
  intros w. unfold BaseRepository.find_many, Motor.find, bind, round_trip, keeps.
  destruct (fault w (tick w)); reflexivity.
Qed.

Ltac unexpected :=
  repeat match goal with
    | |- raises_unexpected (BaseRepository.find_many _ _ _ _) =>
        apply raises_unexpected_find_many
    | |- raises_unexpected (ret _) => apply raises_unexpected_ret
    | |- raises_unexpected (raise _) => apply raises_unexpected_raise; reflexivity
    | |- raises_unexpected (bind _ _) => apply raises_unexpected_bind; [ | intros ]
    | |- raises_unexpected (try _ _) => apply raises_unexpected_try; intros
    | |- raises_unexpected (for_each _ _ _) => apply raises_unexpected_for_each; intros
    | |- raises_unexpected (attempt _ _) => apply raises_unexpected_attempt
    | |- raises_unexpected (match ?x with _ => _ end) => destruct x
    | |- raises_unexpected _ => progress autounfold with model
    | |- raises_unexpected _ => progress cbv zeta
    | |- raises_unexpected _ => solve [unexpected_leaf]
    end.

Lemma harmless_ret A (a : A) : harmless (ret a).
Proof. intros w [e [H _]]. discriminate H. Qed.

Lemma harmless_raise A (e : Exception) : harmless (@raise A e).
Proof. intros w _. reflexivity. Qed.

Lemma harmless_unexpected A (m : M A) : raises_unexpected m -> harmless m.
Proof. intros Hm w [e [H Hk]]. exfalso. apply Hk. apply (Hm w). exact H. Qed.

Lemma harmless_bind_reads A B (m : M A) (k : A -> M B) :
  preserves (keeps stored) m -> (forall a, harmless (k a)) -> harmless (bind m k).
Proof.
  intros Hm Hk w. unfold bind. specialize (Hm w). unfold keeps in Hm.
  destruct (m w) as [[a|e] w']; simpl in *.
  - intros Hr. rewrite <- Hm. apply Hk. exact Hr.
  - intros _. exact Hm.
Qed.

Lemma harmless_bind_writes A B (quiet : A -> bool) (m : M A) (k : A -> M B) :
  raises_unexpected m ->
  (forall a, quiet a = true -> idle_when a m) ->
  (forall a, quiet a = true -> harmless (k a)) ->
  (forall a, quiet a = false -> raises_unexpected (k a)) ->
  harmless (bind m k).
Proof.
  intros Hm Hidle Hquiet Hloud w. unfold bind.
  specialize (Hm w). pose proof (fun a Ha => Hidle a Ha w) as Hidle'.
  destruct (m w) as [[a|e] w']; simpl in *.
  - destruct (quiet a) eqn:Ha.
    + intros Hr. rewrite <- (Hidle' a Ha eq_refl). apply Hquiet; assumption.
    + intros [e [H Hk]]. exfalso. apply Hk. apply (Hloud a Ha w'). exact H.
  - intros [e' [H Hk]]. exfalso. apply Hk. inversion H; subst. apply Hm. reflexivity.
Qed.

Ltac stored_reads := solve [apply find_many_reads | preserve_with keeps_leaf].

Ltac refuse :=
  repeat match goal with
    | |- harmless (ret _) => apply harmless_ret
    | |- harmless (raise _) => apply harmless_raise
    | |- harmless (bind (bind _ _) _) =>
        let w := fresh "w" in
        intro w; rewrite bind_assoc; revert w;
        match goal with |- forall w, refused (?m w) -> _ => change (harmless m) end
    | |- harmless (bind _ _) => apply harmless_bind_reads; [stored_reads | intros]
    | |- harmless (match ?x with _ => _ end) => destruct x
    | |- harmless _ => progress cbv zeta
    | |- harmless _ => apply harmless_unexpected; solve [unexpected]
    end.

Lemma update_first_none {T} `{Collection T} (p : T -> bool) (f : T -> T) (l : list T) :
  snd (Motor.update_first p f l) = None -> fst (Motor.update_first p f l) = l.
Proof.
  induction l as [|r l IH]; simpl; [reflexivity |].
  destruct (p r); [discriminate |].
  destruct (Motor.update_first p f l) as [l' found]. simpl in *.
  intros Hnone. rewrite IH by exact Hnone. reflexivity.
Qed.

Lemma remove_first_none {T} `{Collection T} (p : T -> bool) (l : list T) :
  snd (Motor.remove_first p l) = 0 -> fst (Motor.remove_first p l) = l.
Proof.
  induction l as [|r l IH]; simpl; [reflexivity |].
  destruct (p r); [discriminate |].
  destruct (Motor.remove_first p l) as [l' deleted]. simpl in *.
  intros Hnone. rewrite IH by exact Hnone. reflexivity.
Qed.

Ltac idle_update :=
  let w := fresh "w" in
  intro w; autounfold with model;
  unfold attempt, try, bind, utcnow, round_trip, Motor.write_requested, raise, ret;
  simpl;
  repeat match goal with
         | |- context [match ObjectId ?x with _ => _ end] => destruct (ObjectId x); simpl
         | |- context [if fault ?w ?n then _ else _] => destruct (fault w n); simpl
         end;
  try reflexivity;
  match goal with
  | |- context [Motor.update_first ?p ?f ?l] =>
      pose proof (update_first_none p f l) as Hsame;
      destruct (Motor.update_first p f l) as [l' found]; simpl in *;
      intros Hnone; inversion Hnone; subst found;
      rewrite Hsame by reflexivity; reflexivity
  end.

Lemma update_document_idle document_id_ data :
  idle_when None (attempt Mutation (DocumentRepository.update_by_id document_id_ data)).
Proof. idle_update. Qed.

Lemma mark_as_read_idle notification_id :
  idle_when None (NotificationRepository.mark_as_read notification_id).
Proof. idle_update. Qed.

Lemma update_user_idle user_id_ (data : User -> User) :
  idle_when None (BaseRepository.update_by_id user_id_ data).
Proof. idle_update. Qed.

Lemma delete_notification_idle notification_id :
  idle_when false (NotificationRepository.delete_by_id notification_id).
Proof.
  intro w. autounfold with model.
  unfold try, bind, round_trip, Motor.write_requested, raise, ret. simpl.
  destruct (ObjectId notification_id); simpl; [| reflexivity].
  destruct (fault w (tick w)); simpl; [reflexivity |].
  match goal with
  | |- context [Motor.remove_first ?p ?l] =>
      pose proof (remove_first_none p l) as Hsame;
      destruct (Motor.remove_first p l) as [l' deleted]; simpl in *
  end.
  destruct deleted; simpl; [| discriminate].
  intros _. rewrite Hsame by reflexivity. reflexivity.
Qed.

Lemma harmless_update_document document_id_ document_data current_user :
  harmless (documents.update_document document_id_ document_data current_user).
Proof.
  unfold documents.update_document.
  apply harmless_bind_reads; [stored_reads |]. intros [existing_doc|]; [| refuse].
  cbv zeta. destruct (negb _); [refuse |].
  apply harmless_bind_reads; [stored_reads |]. intros _.
  apply (@harmless_bind_writes _ _ (@is_none Document)).
  - unexpected.
  - intros [d|] Hq; [discriminate |]. apply update_document_idle.
  - intros [d|] Hq; [discriminate |]. refuse.
  - intros [d|] Hq; [| discriminate]. unexpected.
Qed.

Lemma harmless_then_ret A (m : M A) : harmless m -> harmless (bind m (fun _ => ret tt)).
Proof.
  intros Hm w. unfold bind. specialize (Hm w).
  destruct (m w) as [[a|e] w']; simpl in *.
  - intros [e [H _]]. discriminate H.
  - intros [e' [H Hk]]. apply Hm. exists e'. inversion H; subst.
    split; [reflexivity | exact Hk].
Qed.

Lemma harmless_perform tr current_user : harmless (perform tr current_user).
Proof.
  destruct tr; unfold perform; apply harmless_then_ret.
  - unfold documents.create_document. refuse.
  - unfold documents.forward_document. refuse.
  - unfold documents.update_document_status. refuse.
  - unfold documents.archive_document. refuse.
  - apply harmless_update_document.
  - unfold files.upload_file_to_document. refuse.
  - unfold files.delete_file_from_document. refuse.
Qed.

Lemma harmless_mark_notification_read notification_id current_user :
  harmless (notifications_api.mark_notification_read notification_id current_user).
Proof.
  unfold notifications_api.mark_notification_read.
  apply harmless_bind_reads; [stored_reads |]. intros [notification|]; [| refuse].
  destruct (negb _); [refuse |].
  apply (@harmless_bind_writes _ _ (@is_none Notification)).
  - unexpected.
  - intros [d|] Hq; [discriminate |]. apply mark_as_read_idle.
  - intros [d|] Hq; [discriminate |]. refuse.
  - intros [d|] Hq; [| discriminate]. unexpected.
Qed.

Lemma harmless_delete_notification notification_id current_user :
  harmless (notifications_api.delete_notification notification_id current_user).
Proof.
  unfold notifications_api.delete_notification.
  apply harmless_bind_reads; [stored_reads |]. intros [notification|]; [| refuse].
  destruct (negb _); [refuse |].
  apply (@harmless_bind_writes _ _ negb).
  - unexpected.
  - intros [|] Hq; [discriminate |]. apply delete_notification_idle.
  - intros [|] Hq; [discriminate |]. simpl. refuse.
  - intros [|] Hq; [| discriminate]. simpl. unexpected.
Qed.

Lemma harmless_update_user user_id_ user_data current_user :
  harmless (users_api.update_user user_id_ user_data current_user).
Proof.
  unfold users_api.update_user.
  apply harmless_bind_reads; [stored_reads |]. intros _.
  apply harmless_bind_reads; [stored_reads |]. intros [existing_user|]; [| refuse].
  apply harmless_bind_reads; [stored_reads |]. intros _.
  apply (@harmless_bind_writes _ _ (@is_none User)).
  - unexpected.
  - intros [d|] Hq; [discriminate |]. apply update_user_idle.
  - intros [d|] Hq; [discriminate |]. refuse.
  - intros [d|] Hq; [| discriminate]. unexpected.
Qed.



(** ** Sorted pages of a collection *)

Section Sorting.
Context {A : Type} (leb : A -> A -> bool).
Hypothesis leb_total : forall a b, leb a b = true \/ leb b a = true.
Hypothesis leb_trans : forall a b c, leb a b = true -> leb b c = true -> leb a c = true.

Lemma insert_sorted_permutation (x : A) (l : list A) :
  Permutation (x :: l) (Motor.insert_sorted leb x l).
Proof.
  induction l as [|y l IH]; simpl; [reflexivity |].
  destruct (leb x y); [reflexivity |].
  rewrite perm_swap. apply perm_skip. exact IH.
Qed.

Lemma sort_by_permutation (l : list A) : Permutation l (Motor.sort_by leb l).
Proof.
  unfold Motor.sort_by. induction l as [|x l IH]; simpl; [reflexivity |].
  rewrite <- insert_sorted_permutation. apply perm_skip. exact IH.
Qed.

Lemma insert_sorted_sorted (x : A) (l : list A) :
  StronglySorted (fun a b => leb a b = true) l ->
  StronglySorted (fun a b => leb a b = true) (Motor.insert_sorted leb x l).
Proof.
  induction 1 as [|y l Hl IH Hy]; simpl.
  - constructor; constructor.
  - destruct (leb x y) eqn:Hxy.
    + constructor; [constructor; assumption |].
      constructor; [exact Hxy |].
      rewrite Forall_forall in *. intros z Hz. eapply leb_trans; [exact Hxy | auto].
    + constructor; [exact IH |].
      rewrite Forall_forall in *. intros z Hz.
      apply (Permutation_in _ (Permutation_sym (insert_sorted_permutation x l))) in Hz.
      destruct Hz as [<-|Hz]; [| auto].
      destruct (leb_total x y) as [H|H]; [congruence | exact H].
Qed.

Lemma sort_by_sorted (l : list A) :
  StronglySorted (fun a b => leb a b = true) (Motor.sort_by leb l).
Proof.
  unfold Motor.sort_by. induction l as [|x l IH]; simpl; [constructor |].
  apply insert_sorted_sorted. exact IH.
Qed.

End Sorting.

Lemma sorted_skipn {A} (R : A -> A -> Prop) (n : nat) (l : list A) :
  StronglySorted R l -> StronglySorted R (skipn n l).
Proof.
  intros Hl. revert n. induction Hl as [|x l Hl IH Hx]; intros [|n]; simpl;
    try constructor; auto.
Qed.

Lemma sorted_firstn {A} (R : A -> A -> Prop) (n : nat) (l : list A) :
  StronglySorted R l -> StronglySorted R (firstn n l).
Proof.
  intros Hl. revert n. induction Hl as [|x l Hl IH Hx]; intros [|n]; simpl;
    try constructor; auto.
  rewrite Forall_forall in *. intros y Hy. apply Hx.
  revert Hy. clear. revert n. induction l as [|z l IH]; intros [|n]; simpl; try tauto.
  intros [<-|Hy]; [left; reflexivity | right; eapply IH; exact Hy].
Qed.

Lemma datetime_leb_total (a b : datetime) :
  datetime_leb a b = true \/ datetime_leb b a = true.
Proof.
  unfold datetime_leb.
  rewrite !orb_true_iff, !andb_true_iff, !Nat.ltb_lt, !Nat.eqb_eq, !Nat.leb_le. lia.
Qed.

Lemma datetime_leb_trans (a b c : datetime) :
  datetime_leb a b = true -> datetime_leb b c = true -> datetime_leb a c = true.
Proof.
  unfold datetime_leb.
  rewrite !orb_true_iff, !andb_true_iff, !Nat.ltb_lt, !Nat.eqb_eq, !Nat.leb_le. lia.
Qed.

(** What [find_many] answers when the round trip succeeds: the page
    [skip .. skip + limit] of the matching rows, in the order asked for. *)
Lemma find_many_page {T} `{Collection T} (filter : T -> bool) (skip limit : nat)
    (leb : T -> T -> bool) (w : World) :
  (forall a b, leb a b = true \/ leb b a = true) ->
  (forall a b c, leb a b = true -> leb b c = true -> leb a c = true) ->
  fault w (tick w) = false ->
  exists all,
    BaseRepository.find_many filter skip limit (Some leb) w
      = (Return (firstn limit (skipn skip all)), ticked w)
    /\ Permutation all (List.filter filter (rows (ticked w)))
    /\ StronglySorted (fun a b => leb a b = true) all.
Proof.
  intros Htotal Htrans Hfault.
  exists (Motor.sort_by leb (List.filter filter (rows (ticked w)))).
  split; [| split].
  - unfold BaseRepository.find_many, Motor.find, bind, round_trip. rewrite Hfault.
    reflexivity.
  - symmetry. apply sort_by_permutation.
  - apply sort_by_sorted; assumption.
Qed.

(** ** The notifications of a user *)

Lemma firstn_in {A} (n : nat) (l : list A) (x : A) : In x (firstn n l) -> In x l.
Proof.
  revert n. induction l as [|y l IH]; intros [|n]; simpl; try tauto.
  intros [<-|Hx]; [left; reflexivity | right; eapply IH; exact Hx].
Qed.

Lemma skipn_in {A} (n : nat) (l : list A) (x : A) : In x (skipn n l) -> In x l.
Proof.
  revert n. induction l as [|y l IH]; intros [|n]; simpl; try tauto.
  intros Hx. right. eapply IH. exact Hx.
Qed.

(** X2.  When the round trip succeeds, the notification list answers with
    the page [skip .. skip + limit] of the caller's notifications (those
    with the read flag asked for, when one is given) sorted by creation
    time, newest first: it holds at most [limit] notifications, all of
    them stored and addressed to the caller, and nothing is written.  The
    query validation admits only a positive [limit]. *)
Theorem notifications_are_listed_by_page
    (skip limit : nat) (is_read_ : option bool) (current_user : User) (w : World) :
  fault w (tick w) = false ->
  0 < limit ->
  exists all page,
    notifications_api.list_notifications skip limit is_read_ current_user w
      = (Return page, ticked w)
    /\ page = firstn limit (skipn skip all)
    /\ Permutation all (List.filter (mine current_user is_read_) (notifications w))
    /\ StronglySorted newer_first all
    /\ length page <= limit
    /\ StronglySorted newer_first page
    /\ (forall n, In n page ->
          In n (notifications w)
          /\ user_id n = user_oid current_user
          /\ (forall flag, is_read_ = Some flag -> is_read n = flag)).
Proof.
  intros Hfault _.
  unfold notifications_api.list_notifications, NotificationRepository.find_by_user.
  match goal with
  | |- context [BaseRepository.find_many ?f _ _ (Some ?leb)] =>
      destruct (@find_many_page Notification _ f skip limit leb w)
        as [all [Hrun [Hperm Hsorted]]]
  end.
  - intros a b. apply datetime_leb_total.
  - intros a b c Hab Hbc. eapply datetime_leb_trans; eassumption.
  - exact Hfault.
  - exists all, (firstn limit (skipn skip all)).
    split; [exact Hrun |]. split; [reflexivity |].
    split; [exact Hperm |]. split; [exact Hsorted |].
    split; [apply firstn_le_length |].
    split; [apply sorted_firstn, sorted_skipn; exact Hsorted |].
    intros n Hn. apply firstn_in, skipn_in in Hn.
    apply (Permutation_in _ Hperm) in Hn. apply filter_In in Hn as [Hin Hmine].
    unfold mine in Hmine. apply andb_prop in Hmine as [Huser Hflag].
    split; [exact Hin |]. split; [apply String.eqb_eq; exact Huser |].
    intros flag ->. apply Bool.eqb_prop. exact Hflag.
Qed.

Lemma notifications_are_listed_by_page_witness :
  exists page,
    fst (notifications_api.list_notifications 0 20 None Sample.clerk Inbox.start)
      = Return page
    /\ length page <= 20
    /\ (forall n, In n page -> user_id n = user_oid Sample.clerk).
Proof.
  destruct (@notifications_are_listed_by_page 0 20 None Sample.clerk Inbox.start)
    as [all [page [Hrun [_ [_ [_ [Hlength [_ Hown]]]]]]]].
  - reflexivity.
  - lia.
  - exists page. rewrite Hrun. split; [reflexivity |]. split; [exact Hlength |].
    intros n Hn. apply (Hown n Hn).
Defined.

(** ** Unread notifications *)

Lemma set_read_is_modified (t t' : datetime) (n : Notification) :
  is_read n = false ->
  Motor.modified (fun r => with_updated_at t' (set_read t r)) n = true.
Proof.
  intros Hunread. unfold Motor.modified. simpl. unfold dec_eqb.
  destruct (Notification_eq_dec _ n) as [Heq|]; [| reflexivity].
  apply (f_equal is_read) in Heq. simpl in Heq. congruence.
Qed.

Lemma unread_are_modified (user_id_ : string) (t t' : datetime) (l : list Notification) :
  List.filter
    (fun r => String.eqb (user_id r) user_id_ && negb (is_read r)
              && Motor.modified (fun r0 => with_updated_at t' (set_read t r0)) r) l
  = List.filter (unread_of user_id_) l.
Proof.
  apply filter_ext. intros n. unfold unread_of.
  destruct (String.eqb _ _); simpl; [| reflexivity].
  destruct (is_read n) eqn:Hread; simpl; [reflexivity |].
  apply set_read_is_modified. exact Hread.
Qed.

Lemma none_unread_after (user_id_ : string) (f : Notification -> Notification)
    (l : list Notification) :
  (forall n, user_id (f n) = user_id n) ->
  (forall n, is_read (f n) = true) ->
  List.filter (unread_of user_id_)
    (map (fun n => if unread_of user_id_ n then f n else n) l) = [].
Proof.
  intros Huser Hread. induction l as [|n l IH]; simpl; [reflexivity |].
  destruct (unread_of user_id_ n) eqn:Hn.
  - unfold unread_of at 1. rewrite Hread, andb_false_r. exact IH.
  - rewrite Hn. exact IH.
Qed.

(** X3.  When the database answers, the unread count of a user is the
    number of their unread notifications, marking all as read reports
    exactly that number, and the unread count asked for afterwards is
    zero; no notification is added or removed. *)
Theorem mark_all_read_clears_unread_count (current_user : User) (w : World) :
  no_faults w ->
  let count := length (List.filter (unread_of (user_oid current_user)) (notifications w)) in
  fst (notifications_api.get_unread_count current_user w) = Return count
  /\ fst (notifications_api.mark_all_read current_user w)
     = Return (count, Py.decimal count +++ " notifications marked as read")
  /\ fst (notifications_api.get_unread_count current_user
            (snd (notifications_api.mark_all_read current_user w))) = Return 0
  /\ length (notifications (snd (notifications_api.mark_all_read current_user w)))
     = length (notifications w).
Proof.
  intros Hfaults count.
  pose proof (unread_are_modified (user_oid current_user) (clock w (tick w))
                (clock w (S (tick w))) (notifications w)) as Hmodified.
  pose proof (@none_unread_after (user_oid current_user)
                (fun r => with_updated_at (clock w (S (tick w)))
                            (set_read (clock w (tick w)) r))
                (notifications w) (fun n => eq_refl) (fun n => eq_refl)) as Hnone.
  unfold unread_of in Hmodified, Hnone.
  unfold notifications_api.get_unread_count, notifications_api.mark_all_read.
  autounfold with model.
  unfold bind, utcnow, round_trip, Motor.write_requested, ret.
  cbn -[with_updated_at set_read Motor.modified List.filter map length Py.decimal].
  rewrite !Hfaults.
  cbn -[with_updated_at set_read Motor.modified List.filter map length Py.decimal].
  rewrite ?Hfaults.
  cbn -[with_updated_at set_read Motor.modified List.filter map length Py.decimal].
  rewrite Hmodified.
  split; [reflexivity |]. split; [reflexivity |].
  split; [f_equal; apply length_zero_iff_nil; exact Hnone | apply length_map].
Qed.

Lemma mark_all_read_clears_unread_count_witness :
  fst (notifications_api.get_unread_count Sample.clerk Inbox.start) = Return 1
  /\ fst (notifications_api.get_unread_count Sample.clerk
            (snd (notifications_api.mark_all_read Sample.clerk Inbox.start)))
     = Return 0.
Proof.
  destruct (@mark_all_read_clears_unread_count Sample.clerk Inbox.start)
    as [Hbefore [_ [Hafter _]]].
  - intro n. reflexivity.
  - split; [exact Hbefore | exact Hafter].
Defined.

(** ** Deleting a notification *)

Lemma remove_first_found {T} `{Collection T} (p : T -> bool) (l : list T) (r : T) :
  List.find p l = Some r ->
  exists l1 l2,
    l = l1 ++ r :: l2
    /\ Motor.remove_first p l = (l1 ++ l2, 1)
    /\ (forall x, In x l1 -> p x = false).
Proof.
  induction l as [|x l IH]; simpl; [discriminate |].
  destruct (p x) eqn:Hx.
  - intros Hfind. inversion Hfind; subst x. exists [], l. simpl.
    split; [reflexivity |]. split; [reflexivity |]. intros y [].
  - intros Hfind. destruct (IH Hfind) as [l1 [l2 [Hl [Hremove Hnone]]]].
    exists (x :: l1), l2. simpl. rewrite Hremove. subst l.
    split; [reflexivity |]. split; [reflexivity |].
    intros y [<-|Hy]; [exact Hx | apply Hnone; exact Hy].
Qed.

Lemma find_none_app {A} (p : A -> bool) (l1 l2 : list A) :
  (forall x, In x l1 -> p x = false) ->
  (forall x, In x l2 -> p x = false) ->
  List.find p (l1 ++ l2) = None.
Proof.
  intros H1 H2. induction l1 as [|x l1 IH]; simpl.
  - induction l2 as [|y l2 IH2]; simpl; [reflexivity |].
    rewrite (H2 y) by (left; reflexivity). apply IH2. intros z Hz. apply H2. right. exact Hz.
  - rewrite (H1 x) by (left; reflexivity). apply IH. intros z Hz. apply H1. right. exact Hz.
Qed.

(** X4.  When the database answers, the owner of a notification deletes
    it: the request succeeds, exactly that notification leaves the
    collection, the others stay in their order, nothing else is touched,
    and, ObjectIds being unique, the id resolves to nothing afterwards. *)
Theorem deleted_notification_is_gone
    (notification_id : string) (current_user : User) (w : World) (n : Notification) :
  no_faults w ->
  lookup notification_id (notifications w) = Some n ->
  user_id n = user_oid current_user ->
  exists before after w',
    notifications_api.delete_notification notification_id current_user w
      = (Return "Notification deleted successfully", w')
    /\ notifications w = before ++ n :: after
    /\ notifications w' = before ++ after
    /\ (documents w', document_history w', users w', departments w', gridfs w')
       = (documents w, document_history w, users w, departments w, gridfs w)
    /\ (NoDup (map notification_oid (notifications w)) ->
        lookup notification_id (notifications w') = None).
Proof.
  intros Hfaults Hfound Howner.
  unfold notifications_api.delete_notification.
  unfold bind at 1. rewrite (find_notification_found _ _ (Hfaults _) Hfound).
  rewrite Howner, String.eqb_refl. simpl negb. cbv iota.
  unfold lookup in *.
  unfold NotificationRepository.delete_by_id, BaseRepository.delete_by_id, Motor.delete_one.
  destruct (ObjectId notification_id) as [object_id|]; [| discriminate].
  destruct (remove_first_found _ _ Hfound) as [before [after [Hsplit [Hremove Hbefore]]]].
  unfold bind, try, round_trip, Motor.write_requested, ret.
  cbn -[Motor.remove_first]. rewrite Hfaults. cbn -[Motor.remove_first].
  match goal with
  | |- context [Motor.remove_first ?p ?l] =>
      change (Motor.remove_first p l)
        with (Motor.remove_first (fun r : Notification => String.eqb (row_id r) object_id)
                (notifications w))
  end.
  rewrite Hremove. cbn.
  exists before, after. eexists. split; [reflexivity |].
  split; [exact Hsplit |]. cbn. split; [reflexivity |]. split; [reflexivity |].
  intros Hnodup. apply find_none_app; [exact Hbefore |].
  intros m Hm. apply String.eqb_neq. intros Hsame.
  apply List.find_some in Hfound as [_ Hn]. apply String.eqb_eq in Hn.
  simpl in Hn, Hsame.
  rewrite Hsplit, map_app in Hnodup. simpl in Hnodup.
  apply NoDup_remove_2 in Hnodup. apply Hnodup. apply in_or_app. right.
  rewrite Hn, <- Hsame. apply in_map. exact Hm.
Qed.

Lemma deleted_notification_is_gone_witness :
  exists w',
    notifications_api.delete_notification (oid_of_nat 701) Sample.clerk Inbox.start
      = (Return "Notification deleted successfully", w')
    /\ lookup (oid_of_nat 701) (notifications w') = None.
Proof.
  destruct (@deleted_notification_is_gone (oid_of_nat 701) Sample.clerk Inbox.start
              Inbox.pending)
    as [before [after [w' [Hrun [_ [_ [_ Hgone]]]]]]].
  - intro n. reflexivity.
  - reflexivity.
  - reflexivity.
  - exists w'. split; [exact Hrun |]. apply Hgone.
    simpl. constructor; [intros [H|[]]; vm_compute in H; discriminate H |].
    constructor; [intros [] | constructor].
Defined.

(** ** The history of a document *)

Lemma timeline_run
    (document_id_ : string) (current_user : User) (w : World) (d : Document) :
  no_faults w ->
  lookup document_id_ (documents w) = Some d ->
  can_view d current_user = true ->
  length (List.filter (of_document document_id_) (document_history w)) <= 1000 ->
  exists timeline,
    documents.get_document_history document_id_ current_user w
      = (Return timeline, ticked (ticked w))
    /\ Permutation timeline
         (List.filter (of_document document_id_) (document_history w))
    /\ StronglySorted chronological timeline.
Proof.
  intros Hfaults Hdoc Hview Hfew.
  unfold documents.get_document_history.
  unfold bind at 1. rewrite (find_document_found _ _ (Hfaults _) Hdoc).
  unfold can_view in Hview. cbv zeta. rewrite Hview.
  change (negb true) with false. cbv iota.
  unfold DocumentHistoryRepository.get_document_timeline.
  destruct (@find_many_page History _
              (fun h => String.eqb (document_id h) document_id_) 0 1000
              DocumentHistoryRepository.oldest_first (ticked w))
    as [all [Hrun [Hperm Hsorted]]].
  - intros a b. apply datetime_leb_total.
  - intros a b c Hab Hbc. eapply datetime_leb_trans; eassumption.
  - apply Hfaults.
  - exists all. change (rows (ticked (ticked w))) with (document_history w) in Hperm.
    rewrite Hrun. split; [| split; [exact Hperm | exact Hsorted]].
    f_equal. f_equal. simpl skipn. apply firstn_all2.
    rewrite (Permutation_length Hperm). exact Hfew.
Qed.





(** ** Document statistics *)

Lemma count_key_sum (key : string) (counts : list (string * nat)) :
  list_sum (map snd (count_key key counts)) = S (list_sum (map snd counts)).
Proof.
  induction counts as [|[k n] rest IH]; simpl; [reflexivity |].
  destruct (String.eqb k key); simpl; [lia | rewrite IH; lia].
Qed.

Lemma count_key_keys (key : string) (counts : list (string * nat)) :
  map fst (count_key key counts)
  = if existsb (String.eqb key) (map fst counts) then map fst counts
    else map fst counts ++ [key].
Proof.
  induction counts as [|[k n] rest IH]; simpl; [reflexivity |].
  rewrite (String.eqb_sym key k).
  destruct (String.eqb k key); simpl; [reflexivity |].
  rewrite IH. destruct (existsb _ _); reflexivity.
Qed.

Lemma count_key_nodup (key : string) (counts : list (string * nat)) :
  NoDup (map fst counts) -> NoDup (map fst (count_key key counts)).
Proof.
  intros Hnodup. rewrite count_key_keys.
  destruct (existsb _ _) eqn:Hin; [exact Hnodup |].
  apply NoDup_app; [exact Hnodup | repeat constructor; intros [] |].
  intros k Hk [Heq|[]]. subst k.
  assert (Hex : existsb (String.eqb key) (map fst counts) = true).
  { apply existsb_exists. exists key. split; [exact Hk | apply String.eqb_refl]. }
  congruence.
Qed.

Lemma count_key_get (key k : string) (counts : list (string * nat)) :
  dict_get k (count_key key counts)
  = if String.eqb key k then S (dict_get k counts) else dict_get k counts.
Proof.
  unfold dict_get. induction counts as [|[k0 n] rest IH]; simpl.
  - rewrite (String.eqb_sym key k). destruct (String.eqb k key); reflexivity.
  - destruct (String.eqb k0 key) eqn:H0; simpl.
    + apply String.eqb_eq in H0. subst k0.
      destruct (String.eqb key k); simpl; [f_equal; lia | reflexivity].
    + destruct (String.eqb k0 k) eqn:H1; simpl.
      * apply String.eqb_eq in H1. subst k0. rewrite String.eqb_sym, H0. reflexivity.
      * exact IH.
Qed.

Lemma counted_invariant (keys : list string) (counts : list (string * nat)) :
  NoDup (map fst counts) ->
  let result := fold_left (fun counts key => count_key key counts) keys counts in
  list_sum (map snd result) = length keys + list_sum (map snd counts)
  /\ NoDup (map fst result)
  /\ (forall k,
        dict_get k result
        = length (List.filter (fun key => String.eqb key k) keys) + dict_get k counts).
Proof.
  revert counts. induction keys as [|key keys IH]; intros counts Hnodup; simpl.
  - repeat split; auto.
  - destruct (IH (count_key key counts) (@count_key_nodup key counts Hnodup))
      as [Hsum [Hnd Hget]].
    split; [rewrite Hsum, count_key_sum; lia |]. split; [exact Hnd |].
    intros k. rewrite Hget, count_key_get.
    destruct (String.eqb key k); simpl; lia.
Qed.

Lemma filter_map_length {A B} (f : A -> B) (p : B -> bool) (l : list A) :
  length (List.filter p (map f l)) = length (List.filter (fun a => p (f a)) l).
Proof.
  induction l as [|a l IH]; simpl; [reflexivity |].
  destruct (p (f a)); simpl; rewrite IH; reflexivity.
Qed.

Lemma stats_run (current_user : User) (w : World) :
  fault w (tick w) = false ->
  department_id current_user <> "" ->
  let visible :=
    if UserRole.eqb (role current_user) UserRole.ADMIN then documents w
    else List.filter (related_to (department_id current_user)) (documents w) in
  documents.get_document_stats current_user w
  = (Return (mk_DocumentStats (length visible)
               (counted (map (fun d => DocumentStatus.value (status d)) visible))
               (counted (map (fun d => DocumentPriority.value (priority d)) visible))),
     ticked w).
Proof.
  intros Hfault Hdept visible.
  unfold documents.get_document_stats, DocumentRepository.get_document_stats,
    Motor.aggregate, DocumentRepository.stats_pipeline.
  unfold bind, round_trip. rewrite Hfault. cbn [rows Documents documents ticked set_tick].
  assert (Hmatched :
    (if Py.truthy (if UserRole.eqb (role current_user) UserRole.ADMIN then None
                   else Some (department_id current_user))
     then List.filter
            (fun d =>
               String.eqb (creator_department_id d)
                 (Py.str (if UserRole.eqb (role current_user) UserRole.ADMIN then None
                          else Some (department_id current_user)))
               || String.eqb (current_holder_department_id d)
                    (Py.str (if UserRole.eqb (role current_user) UserRole.ADMIN then None
                             else Some (department_id current_user))))
            (documents w)
     else documents w) = visible).
  { unfold visible. destruct (UserRole.eqb _ _); simpl; [reflexivity |].
    apply String.eqb_neq in Hdept. rewrite Hdept. reflexivity. }
  rewrite Hmatched. destruct visible as [|d rest]; reflexivity.
Qed.



(** ** Roles and departments *)

(** X8.  [RoleChecker] admits a user exactly when their role is among the
    allowed ones, and refuses with 403 otherwise, leaving the world as it
    is.  So [require_admin] admits exactly the admins,
    [require_department_head] exactly the admins and the department heads,
    and whoever passes the first passes the second. *)
Theorem role_checks_admit_by_role (current_user : User) (w : World) :
  (forall allowed_roles,
     (In (role current_user) allowed_roles ->
      permissions.RoleChecker allowed_roles current_user w = (Return current_user, w))
     /\ (~ In (role current_user) allowed_roles ->
         fails_with (permissions.RoleChecker allowed_roles current_user w) Forbidden
         /\ snd (permissions.RoleChecker allowed_roles current_user w) = w))
  /\ (fst (permissions.require_admin current_user w) = Return current_user
      <-> role current_user = UserRole.ADMIN)
  /\ (fst (permissions.require_department_head current_user w) = Return current_user
      <-> role current_user = UserRole.ADMIN
          \/ role current_user = UserRole.DEPARTMENT_HEAD)
  /\ (fst (permissions.require_admin current_user w) = Return current_user ->
      fst (permissions.require_department_head current_user w) = Return current_user).
Proof.
  assert (Hmember : forall allowed_roles,
            existsb (UserRole.eqb (role current_user)) allowed_roles = true
            <-> In (role current_user) allowed_roles).
  { intros allowed_roles. rewrite existsb_exists. split.
    - intros [r [Hin Heq]]. destruct (role current_user), r; try discriminate; exact Hin.
    - intros Hin. exists (role current_user). split; [exact Hin |].
      destruct (role current_user); reflexivity. }
  split; [| split; [| split]].
  - intros allowed_roles. unfold permissions.RoleChecker. cbv zeta.
    destruct (existsb _ allowed_roles) eqn:Hin.
    + split; [reflexivity |]. intros Hout. exfalso. apply Hout, Hmember. exact Hin.
    + split.
      * intros Hyes. apply Hmember in Hyes. congruence.
      * intros _. split; [| reflexivity]. eexists. split; reflexivity.
  - unfold permissions.require_admin, permissions.RoleChecker.
    destruct (role current_user); simpl; split; intros H; try reflexivity; discriminate.
  - unfold permissions.require_department_head, permissions.RoleChecker.
    destruct (role current_user); simpl; split; intros H;
      try reflexivity; try discriminate; auto.
    destruct H; discriminate.
  - unfold permissions.require_admin, permissions.require_department_head,
      permissions.RoleChecker.
    destruct (role current_user); simpl; intros H; try reflexivity; discriminate.
Qed.


(** ** Deactivating a user *)

Lemma update_first_split {T} `{Collection T} (p : T -> bool) (f : T -> T)
    (l : list T) (r : T) :
  List.find p l = Some r ->
  exists l1 l2,
    l = l1 ++ r :: l2
    /\ Motor.update_first p f l = (l1 ++ f r :: l2, Some (f r))
    /\ (forall x, In x l1 -> p x = false).
Proof.
  induction l as [|x l IH]; simpl; [discriminate |].
  destruct (p x) eqn:Hx.
  - intros Hfind. inversion Hfind; subst x. exists [], l. simpl.
    split; [reflexivity |]. split; [reflexivity |]. intros y [].
  - intros Hfind. destruct (IH Hfind) as [l1 [l2 [Hl [Hupdate Hnone]]]].
    exists (x :: l1), l2. simpl. rewrite Hupdate. subst l.
    split; [reflexivity |]. split; [reflexivity |].
    intros y [<-|Hy]; [exact Hx | apply Hnone; exact Hy].
Qed.

Lemma find_app_first {A} (p : A -> bool) (l1 l2 : list A) (x : A) :
  (forall y, In y l1 -> p y = false) -> p x = true ->
  List.find p (l1 ++ x :: l2) = Some x.
Proof.
  intros Hnone Hx. induction l1 as [|y l1 IH]; simpl.
  - rewrite Hx. reflexivity.
  - rewrite (Hnone y) by (left; reflexivity). apply IH.
    intros z Hz. apply Hnone. right. exact Hz.
Qed.

(** X10.  When the database answers, an admin deactivates a user: the
    record stays where it is, with [is_active] false and a new
    [updated_at] and nothing else changed; the other users and the other
    collections are untouched; and [get_current_active_user] refuses the
    deactivated user with 403. *)
Theorem deactivated_user_is_kept_and_locked_out
    (user_id_ : string) (current_user : User) (w : World) (u : User) :
  no_faults w ->
  role current_user = UserRole.ADMIN ->
  lookup user_id_ (users w) = Some u ->
  exists before after u' w',
    users_api.deactivate_user user_id_ current_user w
      = (Return ("User " +++ email u +++ " deactivated successfully"), w')
    /\ users w = before ++ u :: after
    /\ users w' = before ++ u' :: after
    /\ u' = with_updated_at (clock w (S (tick w))) (set_is_active false u)
    /\ lookup user_id_ (users w') = Some u'
    /\ fails_with (permissions.get_current_active_user u' w') Forbidden
    /\ (documents w', document_history w', notifications w', departments w')
       = (documents w, document_history w, notifications w, departments w).
Proof.
  intros Hfaults Hadmin Hfound.
  unfold users_api.deactivate_user, permissions.require_admin, permissions.RoleChecker.
  cbv zeta. rewrite Hadmin. simpl existsb. simpl negb. cbv iota.
  unfold bind at 1. unfold ret at 1. cbv beta iota.
  unfold bind at 1. rewrite (find_user_found _ _ (Hfaults _) Hfound).
  unfold lookup in *.
  unfold BaseRepository.update_by_id, Motor.find_one_and_update.
  destruct (ObjectId user_id_) as [object_id|]; [| discriminate].
  destruct (@update_first_split User _ (fun r => String.eqb (row_id r) object_id)
              (fun r => with_updated_at (clock w (S (tick w))) (set_is_active false r))
              (users w) u Hfound) as [before [after [Hsplit [Hupdate Hbefore]]]].
  unfold bind, try, utcnow, round_trip, Motor.write_requested, ret.
  cbn -[Motor.update_first with_updated_at set_is_active]. rewrite Hfaults.
  cbn -[Motor.update_first with_updated_at set_is_active].
  match goal with
  | |- context [Motor.update_first ?p ?f ?l] =>
      change (Motor.update_first p f l)
        with (Motor.update_first (fun r : User => String.eqb (row_id r) object_id)
                (fun r => with_updated_at (clock w (S (tick w))) (set_is_active false r))
                (users w))
  end.
  rewrite Hupdate. cbn -[with_updated_at set_is_active].
  exists before, after. do 2 eexists. split; [reflexivity |].
  split; [exact Hsplit |]. split; [reflexivity |]. split; [reflexivity |].
  split; [| split; [| reflexivity]].
  - apply find_app_first; [exact Hbefore |].
    apply List.find_some in Hfound as [_ Hid]. exact Hid.
  - eexists. split; reflexivity.
Qed.

Lemma deactivated_user_is_kept_and_locked_out_witness :
  exists u' w',
    fst (users_api.deactivate_user (user_oid Sample.clerk) Sample.admin Archiving.start)
      = Return "User v@townhall deactivated successfully"
    /\ lookup (user_oid Sample.clerk) (users w') = Some u'
    /\ is_active u' = Some false.
Proof.
  destruct (@deactivated_user_is_kept_and_locked_out (user_oid Sample.clerk)
              Sample.admin Archiving.start Sample.clerk)
    as [before [after [u' [w' [Hrun [_ [_ [Hu [Hfound _]]]]]]]]].
  - intro n. reflexivity.
  - reflexivity.
  - reflexivity.
  - exists u', w'. rewrite Hrun. split; [reflexivity |].
    split; [exact Hfound | rewrite Hu; reflexivity].
Defined.

(** ** Listing documents *)

Lemma status_value_injective (a b : DocumentStatus.t) :
  String.eqb (DocumentStatus.value a) (DocumentStatus.value b) = true -> a = b.
Proof. destruct a, b; simpl; intros H; try reflexivity; discriminate H. Qed.

Lemma status_matches_value (s : option DocumentStatus.t) (d : Document) :
  status_matches (option_map DocumentStatus.value s) d = true ->
  forall s', s = Some s' -> status d = s'.
Proof.
  intros Hmatch s' ->. unfold status_matches in Hmatch. simpl in Hmatch.
  assert (Htruthy : negb (String.eqb (DocumentStatus.value s') "") = true)
    by (destruct s'; reflexivity).
  rewrite Htruthy in Hmatch. apply status_value_injective. exact Hmatch.
Qed.

Lemma documents_page (filter : Document -> bool) (skip limit : nat) (w : World) :
  fault w (tick w) = false ->
  exists page,
    BaseRepository.find_many filter skip limit (Some newest_first) w
      = (Return page, ticked w)
    /\ length page <= limit
    /\ StronglySorted newest page
    /\ (forall d, In d page -> In d (documents w) /\ filter d = true).
Proof.
  intros Hfault.
  destruct (@find_many_page Document _ filter skip limit newest_first w)
    as [all [Hrun [Hperm Hsorted]]].
  - intros a b. apply datetime_leb_total.
  - intros a b c Hab Hbc. unfold newest_first in *. eapply datetime_leb_trans; eassumption.
  - exact Hfault.
  - exists (firstn limit (skipn skip all)). split; [exact Hrun |].
    split; [apply firstn_le_length |].
    split; [apply sorted_firstn, sorted_skipn; exact Hsorted |].
    intros d Hd. apply firstn_in, skipn_in in Hd.
    apply (Permutation_in _ Hperm) in Hd. apply filter_In in Hd. exact Hd.
Qed.



(** ** Files attached to a document *)

Lemma appended_differs {A} (l : list A) (x : A) : l ++ [x] <> l.
Proof.
  intros Heq. apply (f_equal (@length A)) in Heq. rewrite length_app in Heq.
  simpl in Heq. lia.
Qed.

Lemma add_file_run (document_id_ : string) (file_info : FileInfo) (w : World)
    (d : Document) :
  no_faults w ->
  lookup document_id_ (documents w) = Some d ->
  exists before after,
    documents w = before ++ d :: after
    /\ (forall x, In x before -> lookup document_id_ [x] = None)
    /\ DocumentRepository.add_file document_id_ file_info w
       = (let d' := with_updated_at (clock w (tick w))
                      (set_files (files d ++ [file_info]) d) in
          (Return (Some d'),
           set_tick (3 + tick w)
             (set_documents (before ++ d' :: after)
                (set_steps (steps w ++ [Write Collections.DOCUMENTS]) w)))).
Proof.
  intros Hfaults Hfound. unfold lookup in *.
  unfold DocumentRepository.add_file.
  destruct (ObjectId document_id_) as [object_id|] eqn:Hid; [| discriminate].
  destruct (@update_first_split Document _ (fun r => String.eqb (row_id r) object_id)
              (fun r => with_updated_at (clock w (tick w))
                          (set_files (files r ++ [file_info]) r))
              (documents w) d Hfound) as [before [after [Hsplit [Hupdate Hbefore]]]].
  exists before, after. split; [exact Hsplit |].
  split.
  { intros x Hx. simpl. specialize (Hbefore x Hx). simpl in Hbefore. rewrite Hbefore.
    reflexivity. }
  unfold Motor.update_one, DocumentRepository.find_by_id, BaseRepository.find_by_id,
    Motor.find_one.
  rewrite Hid.
  unfold bind, try, utcnow, round_trip, Motor.write_requested, ret.
  cbn -[Motor.update_first Motor.modified with_updated_at set_files List.find].
  rewrite !Hfaults.
  cbn -[Motor.update_first Motor.modified with_updated_at set_files List.find].
  change (fun d0 : Document => String.eqb (document_oid d0) object_id)
    with (fun r : Document => String.eqb (row_id r) object_id).
  rewrite Hfound, Hupdate.
  assert (Hmodified :
    Motor.modified
      (fun d0 : Document =>
         with_updated_at (clock w (tick w)) (set_files (files d0 ++ [file_info]) d0)) d
    = true).
  { unfold Motor.modified. simpl. unfold dec_eqb.
    destruct (Document_eq_dec _ d) as [Heq|]; [| reflexivity].
    apply (f_equal files) in Heq. simpl in Heq. apply appended_differs in Heq.
    destruct Heq. }
  rewrite Hmodified.
  cbn -[with_updated_at set_files List.find]. rewrite Hfaults.
  cbn -[with_updated_at set_files List.find].
  change (fun r : Document => String.eqb (document_oid r) object_id)
    with (fun r : Document => String.eqb (row_id r) object_id).
  rewrite find_app_first; [reflexivity | exact Hbefore |].
  apply List.find_some in Hfound as [_ Hsame]. exact Hsame.
Qed.

Ltac settle :=
  cbn [documents document_history notifications users departments gridfs
       background_tasks steps tick clock server_oid fault
       set_documents set_document_history set_notifications set_users set_departments
       set_gridfs set_background_tasks set_steps set_tick ticked fst snd].

Lemma history_entry_run (h : History) (w : World) :
  no_faults w ->
  attempt Ledger (DocumentHistoryRepository.create_history_entry h) w
  = (let entry :=
       with_id (server_oid w (3 + tick w))
         (with_updated_at (clock w (2 + tick w))
            (with_created_at (clock w (1 + tick w))
               (set_timestamp (clock w (tick w)) h))) in
     (Return entry,
      set_document_history (document_history w ++ [entry])
        (set_tick (4 + tick w)
           (set_steps
              (steps w ++ [Begin Ledger; Write Collections.DOCUMENT_HISTORY]) w)))).
Proof.
  intros Hfaults.
  unfold DocumentHistoryRepository.create_history_entry, BaseRepository.create,
    Motor.insert_one.
  unfold attempt, bind, utcnow, round_trip, Motor.write_requested, ret.
  cbn -[with_id with_updated_at with_created_at set_timestamp].
  rewrite Hfaults.
  cbn -[with_id with_updated_at with_created_at set_timestamp].
  rewrite <- app_assoc. reflexivity.
Qed.

Lemma upload_run (document_id_ : string) (file : UploadFile) (current_user : User)
    (w : World) (d : Document) (content_type_ : string) :
  no_faults w ->
  lookup document_id_ (documents w) = Some d ->
  can_view d current_user = true ->
  (upload_length file <= files.MAX_FILE_SIZE)%N ->
  upload_content_type file = Some content_type_ ->
  In content_type_ files.ALLOWED_MIME_TYPES ->
  let file_info :=
    mk_FileInfo (server_oid w (2 + tick w)) (upload_filename file) content_type_
      (upload_length file) (clock w (3 + tick w)) (user_oid current_user) in
  let d' :=
    with_updated_at (clock w (4 + tick w)) (set_files (files d ++ [file_info]) d) in
  exists before after h w',
    files.upload_file_to_document document_id_ file current_user w
      = (Return file_info, w')
    /\ documents w = before ++ d :: after
    /\ (forall x, In x before -> lookup document_id_ [x] = None)
    /\ documents w' = before ++ d' :: after
    /\ gridfs w' = gridfs w ++ [file_id file_info]
    /\ document_history w' = document_history w ++ [h]
    /\ (action h, document_id h, performed_by h)
       = (DocumentAction.FILE_ADDED, document_id_, user_oid current_user)
    /\ (notifications w', users w', departments w', background_tasks w')
       = (notifications w, users w, departments w, background_tasks w)
    /\ (fault w', clock w', server_oid w', tick w')
       = (fault w, clock w, server_oid w, 11 + tick w).
Proof.
  intros Hfaults Hfound Hview Hsize Htype Hallowed file_info d'.
  unfold files.upload_file_to_document.
  unfold bind at 1. rewrite (find_document_found _ _ (Hfaults _) Hfound).
  unfold can_view in Hview. cbv zeta. rewrite Hview.
  change (negb true) with false. cbv iota.
  apply N.ltb_ge in Hsize. rewrite Hsize, Htype.
  assert (Hin : existsb (String.eqb content_type_) files.ALLOWED_MIME_TYPES = true).
  { apply existsb_exists. exists content_type_. split; [exact Hallowed | apply String.eqb_refl]. }
  rewrite Hin. change (negb true) with false. cbv iota.
  unfold try at 1. unfold bind at 1. unfold gridfs_service.upload_file.
  unfold bind at 1. unfold utcnow at 1. cbv beta iota.
  unfold bind at 1. unfold round_trip at 1. settle.
  rewrite Hfaults. cbv beta iota.
  unfold bind at 1. unfold utcnow at 1. cbv beta iota. settle.
  unfold bind at 1. unfold attempt at 1. settle.
  match goal with
  | |- context [DocumentRepository.add_file ?i ?fi ?W] =>
      destruct (@add_file_run i fi W d) as [before [after [Hsplit [Hbefore Hrun]]]];
        [intro n; apply Hfaults | exact Hfound |]; rewrite Hrun; clear Hrun
  end.
  settle. cbv zeta beta iota. settle.
  unfold bind at 1. rewrite history_entry_run by (intro n; apply Hfaults).
  unfold ret. settle.
  exists before, after. do 2 eexists.
  split; [reflexivity |]. split; [exact Hsplit |]. split; [exact Hbefore |].
  settle. repeat split.
Qed.

Lemma lookup_app_first {T} `{Collection T} (id : string) (l1 l2 : list T) (r x : T) :
  lookup id [r] = Some r ->
  row_id x = row_id r ->
  (forall y, In y l1 -> lookup id [y] = None) ->
  lookup id (l1 ++ x :: l2) = Some x.
Proof.
  unfold lookup. destruct (ObjectId id) as [object_id|]; [| discriminate].
  simpl. intros Hr Hx Hnone.
  apply find_app_first.
  - intros y Hy. specialize (Hnone y Hy). simpl in Hnone.
    destruct (String.eqb (row_id y) object_id); [discriminate | reflexivity].
  - rewrite Hx. destruct (String.eqb (row_id r) object_id); [reflexivity | discriminate].
Qed.

Lemma lookup_single {T} `{Collection T} (id : string) (l : list T) (r : T) :
  lookup id l = Some r -> lookup id [r] = Some r.
Proof.
  unfold lookup. destruct (ObjectId id) as [object_id|]; [| discriminate].
  intros Hfound. apply List.find_some in Hfound as [_ Hid]. simpl. rewrite Hid.
  reflexivity.
Qed.



(** X14.  When the document is found, an upload by someone who may view it
    of more than 50 MB, or with a content type that is missing or not among
    the allowed ones, is answered with 400, and nothing is stored: no file
    in GridFS, no change of the document, no history entry. *)
Theorem upload_is_validated
    (document_id_ : string) (file : UploadFile) (current_user : User)
    (w : World) (d : Document) :
  fault w (tick w) = false ->
  lookup document_id_ (documents w) = Some d ->
  can_view d current_user = true ->
  (files.MAX_FILE_SIZE < upload_length file)%N
  \/ (forall content_type_,
        upload_content_type file = Some content_type_ ->
        ~ In content_type_ files.ALLOWED_MIME_TYPES) ->
  fails_with (files.upload_file_to_document document_id_ file current_user w)
    ValidationError
  /\ stored (snd (files.upload_file_to_document document_id_ file current_user w))
     = stored w.
Proof.
  intros Hfault Hfound Hview Hbad.
  assert (Hrun : exists e,
            files.upload_file_to_document document_id_ file current_user w
            = (Raise e, ticked w) /\ kind e = ValidationError).
  { unfold files.upload_file_to_document.
    unfold bind at 1. rewrite (find_document_found _ _ Hfault Hfound).
    unfold can_view in Hview. cbv zeta. rewrite Hview.
    change (negb true) with false. cbv iota.
    destruct (N.ltb files.MAX_FILE_SIZE (upload_length file)) eqn:Hsize.
    - eexists. split; reflexivity.
    - destruct Hbad as [Hlarge|Htype].
      + apply N.ltb_lt in Hlarge. congruence.
      + destruct (upload_content_type file) as [content_type_|].
        * destruct (existsb (String.eqb content_type_) files.ALLOWED_MIME_TYPES) eqn:Hin.
          -- exfalso. apply (Htype content_type_ eq_refl).
             apply existsb_exists in Hin as [t [Ht Heq]].
             apply String.eqb_eq in Heq. subst t. exact Ht.
          -- eexists. split; reflexivity.
        * eexists. split; reflexivity. }
  destruct Hrun as [e [Hrun Hkind]]. rewrite Hrun.
  split; [exists e; split; [reflexivity | exact Hkind] | reflexivity].
Qed.

Lemma upload_is_validated_witness :
  fails_with
    (files.upload_file_to_document Archiving.document Attachments.oversized
       Sample.admin Archiving.start)
    ValidationError.
Proof.
  apply (@upload_is_validated Archiving.document Attachments.oversized Sample.admin
           Archiving.start (Sample.numbered 1 "DOC-2025-00001")).
  - reflexivity.
  - reflexivity.
  - reflexivity.
  - left. vm_compute. reflexivity.
Defined.

Lemma filter_shrinks {A} (p : A -> bool) (l : list A) (x : A) :
  List.find p l = Some x -> List.filter (fun y => negb (p y)) l <> l.
Proof.
  intros Hfind Heq. apply List.find_some in Hfind as [Hin Hp].
  rewrite <- Heq in Hin. apply filter_In in Hin as [_ Hnot].
  rewrite Hp in Hnot. discriminate Hnot.
Qed.

Lemma remove_file_run (document_id_ file_id_ : string) (w : World)
    (d : Document) (file_info : FileInfo) :
  no_faults w ->
  lookup document_id_ (documents w) = Some d ->
  List.find (fun f => String.eqb (file_id f) file_id_) (files d) = Some file_info ->
  exists before after,
    documents w = before ++ d :: after
    /\ (forall x, In x before -> lookup document_id_ [x] = None)
    /\ DocumentRepository.remove_file document_id_ file_id_ w
       = (let d' :=
            with_updated_at (clock w (tick w))
              (set_files
                 (List.filter (fun f => negb (String.eqb (file_id f) file_id_)) (files d))
                 d) in
          (Return (Some d'),
           set_tick (3 + tick w)
             (set_documents (before ++ d' :: after)
                (set_steps (steps w ++ [Write Collections.DOCUMENTS]) w)))).
Proof.
  intros Hfaults Hfound Hfile. unfold lookup in *.
  unfold DocumentRepository.remove_file.
  destruct (ObjectId document_id_) as [object_id|] eqn:Hid; [| discriminate].
  destruct (@update_first_split Document _ (fun r => String.eqb (row_id r) object_id)
              (fun r => with_updated_at (clock w (tick w))
                          (set_files
                             (List.filter
                                (fun f => negb (String.eqb (file_id f) file_id_))
                                (files r)) r))
              (documents w) d Hfound) as [before [after [Hsplit [Hupdate Hbefore]]]].
  exists before, after. split; [exact Hsplit |].
  split.
  { intros x Hx. simpl. specialize (Hbefore x Hx). simpl in Hbefore. rewrite Hbefore.
    reflexivity. }
  unfold Motor.update_one, DocumentRepository.find_by_id, BaseRepository.find_by_id,
    Motor.find_one.
  rewrite Hid.
  unfold bind, try, utcnow, round_trip, Motor.write_requested, ret.
  cbn -[Motor.update_first Motor.modified with_updated_at set_files List.find List.filter].
  rewrite !Hfaults.
  cbn -[Motor.update_first Motor.modified with_updated_at set_files List.find List.filter].
  change (fun d0 : Document => String.eqb (document_oid d0) object_id)
    with (fun r : Document => String.eqb (row_id r) object_id).
  rewrite Hfound, Hupdate.
  assert (Hmodified :
    Motor.modified
      (fun d0 : Document =>
         with_updated_at (clock w (tick w))
           (set_files
              (List.filter (fun f => negb (String.eqb (file_id f) file_id_)) (files d0))
              d0)) d
    = true).
  { unfold Motor.modified. simpl. unfold dec_eqb.
    destruct (Document_eq_dec _ d) as [Heq|]; [| reflexivity].
    apply (f_equal files) in Heq. simpl in Heq.
    exfalso. revert Heq. apply (@filter_shrinks _ _ _ _ Hfile). }
  rewrite Hmodified.
  cbn -[with_updated_at set_files List.find List.filter]. rewrite Hfaults.
  cbn -[with_updated_at set_files List.find List.filter].
  change (fun r : Document => String.eqb (document_oid r) object_id)
    with (fun r : Document => String.eqb (row_id r) object_id).
  rewrite find_app_first; [reflexivity | exact Hbefore |].
  apply List.find_some in Hfound as [_ Hsame]. exact Hsame.
Qed.

Lemma filter_all {A} (p : A -> bool) (l : list A) :
  (forall x, In x l -> p x = true) -> List.filter p l = l.
Proof.
  induction l as [|x l IH]; intros Hall; simpl; [reflexivity |].
  rewrite (Hall x) by (left; reflexivity). f_equal. apply IH.
  intros y Hy. apply Hall. right. exact Hy.
Qed.

Lemma gridfs_delete_run (file_id_ : string) (w : World) (object_id : oid) :
  no_faults w ->
  ObjectId file_id_ = Some object_id ->
  exists deleted,
    gridfs_service.delete_file file_id_ w
    = (Return deleted,
       set_gridfs (List.filter (fun f => negb (String.eqb object_id f)) (gridfs w))
         (set_tick (S (tick w)) w)).
Proof.
  intros Hfaults Hid. unfold gridfs_service.delete_file. rewrite Hid.
  unfold try, bind, round_trip, ret. rewrite Hfaults.
  destruct (existsb (String.eqb object_id) (gridfs w)) eqn:Hexists.
  - exists true. cbn -[List.filter]. rewrite Hexists. reflexivity.
  - exists false. cbn -[List.filter]. rewrite Hexists.
    rewrite filter_all; [destruct w; reflexivity |].
    intros f Hf. apply negb_true_iff.
    destruct (String.eqb object_id f) eqn:Heq; [| reflexivity].
    assert (Hyes : existsb (String.eqb object_id) (gridfs w) = true)
      by (apply existsb_exists; exists f; split; assumption).
    congruence.
Qed.

Lemma delete_file_run (document_id_ file_id_ : string) (current_user : User)
    (w : World) (d : Document) (file_info : FileInfo) (object_id : oid) :
  no_faults w ->
  lookup document_id_ (documents w) = Some d ->
  List.find (fun f => String.eqb (file_id f) file_id_) (files d) = Some file_info ->
  can_delete d current_user = true ->
  ObjectId file_id_ = Some object_id ->
  let d' :=
    with_updated_at (clock w (1 + tick w))
      (set_files
         (List.filter (fun f => negb (String.eqb (file_id f) file_id_)) (files d)) d) in
  exists before after h w',
    files.delete_file_from_document document_id_ file_id_ current_user w
      = (Return ("File '" +++ filename file_info +++ "' deleted successfully"), w')
    /\ documents w = before ++ d :: after
    /\ (forall x, In x before -> lookup document_id_ [x] = None)
    /\ documents w' = before ++ d' :: after
    /\ gridfs w' = List.filter (fun f => negb (String.eqb object_id f)) (gridfs w)
    /\ document_history w' = document_history w ++ [h]
    /\ (action h, document_id h, performed_by h)
       = (DocumentAction.FILE_REMOVED, document_id_, user_oid current_user)
    /\ (notifications w', users w', departments w', background_tasks w')
       = (notifications w, users w, departments w, background_tasks w)
    /\ (fault w', clock w', server_oid w', tick w')
       = (fault w, clock w, server_oid w, 9 + tick w).
Proof.
  intros Hfaults Hfound Hfile Hallowed Hid d'.
  unfold files.delete_file_from_document.
  unfold bind at 1. rewrite (find_document_found _ _ (Hfaults _) Hfound).
  rewrite Hfile. unfold can_delete in Hallowed. cbv zeta. rewrite Hallowed.
  change (negb true) with false. cbv iota.
  unfold bind at 1. unfold attempt at 1. settle.
  match goal with
  | |- context [DocumentRepository.remove_file ?i ?f ?W] =>
      destruct (@remove_file_run i f W d file_info)
        as [before [after [Hsplit [Hbefore Hrun]]]];
        [intro n; apply Hfaults | exact Hfound | exact Hfile |];
        rewrite Hrun; clear Hrun
  end.
  settle. cbv zeta beta iota. settle.
  unfold bind at 1.
  match goal with
  | |- context [gridfs_service.delete_file ?f ?W] =>
      destruct (@gridfs_delete_run f W object_id) as [deleted Hdeleted];
        [intro n; apply Hfaults | exact Hid |]; rewrite Hdeleted; clear Hdeleted
  end.
  settle.
  unfold bind at 1. rewrite history_entry_run by (intro n; apply Hfaults).
  unfold ret. settle.
  exists before, after. do 2 eexists.
  split; [reflexivity |]. split; [exact Hsplit |]. split; [exact Hbefore |].
  settle. repeat split.
Qed.

Lemma restore_files (d : Document) (t1 t2 : datetime) (l : list FileInfo) :
  with_updated_at t2 (set_files (files d) (with_updated_at t1 (set_files l d)))
  = with_updated_at t2 d.
Proof. destruct d; reflexivity. Qed.

(** X15.  When the database answers, an admin or the creator of a document
    uploads a file and deletes it again, the id GridFS hands out being a
    new one: both requests succeed; the document is the one it was before
    the upload, but for [updated_at]; GridFS holds what it held; the
    ledger has grown by a [file_added] and a [file_removed] entry; nobody
    is notified. *)
Theorem upload_then_delete_restores
    (document_id_ : string) (file : UploadFile) (current_user : User)
    (w : World) (d : Document) (content_type_ : string) :
  no_faults w ->
  lookup document_id_ (documents w) = Some d ->
  UserRole.eqb (role current_user) UserRole.ADMIN
  || String.eqb (creator_id d) (user_oid current_user) = true ->
  (upload_length file <= files.MAX_FILE_SIZE)%N ->
  upload_content_type file = Some content_type_ ->
  In content_type_ files.ALLOWED_MIME_TYPES ->
  ObjectId (server_oid w (2 + tick w)) = Some (server_oid w (2 + tick w)) ->
  ~ In (server_oid w (2 + tick w)) (gridfs w) ->
  (forall f, In f (files d) -> file_id f <> server_oid w (2 + tick w)) ->
  exists file_info w1 w2 d2 added removed,
    files.upload_file_to_document document_id_ file current_user w
      = (Return file_info, w1)
    /\ files.delete_file_from_document document_id_ (file_id file_info) current_user w1
       = (Return ("File '" +++ upload_filename file +++ "' deleted successfully"), w2)
    /\ lookup document_id_ (documents w2) = Some d2
    /\ d2 = with_updated_at (updated_at d2) d
    /\ length (documents w2) = length (documents w)
    /\ gridfs w2 = gridfs w
    /\ document_history w2 = document_history w ++ [added; removed]
    /\ (action added, action removed)
       = (DocumentAction.FILE_ADDED, DocumentAction.FILE_REMOVED)
    /\ notifications w2 = notifications w.
Proof.
  intros Hfaults Hfound Hactor Hsize Htype Hallowed Hcanonical Hnew Hfresh.
  assert (Hview : can_view d current_user = true).
  { unfold can_view. rewrite Hactor. reflexivity. }
  destruct (@upload_run document_id_ file current_user w d content_type_
              Hfaults Hfound Hview Hsize Htype Hallowed)
    as [before [after [added [w1 [Hrun [Hsplit [Hbefore [Hdocs [Hgrid [Hhist [Hentry
          [Hrest Horacles]]]]]]]]]]]].
  injection Hrest as Hnotes Husers Hdeps Hmail.
  injection Horacles as Hfault Hclock Hoid Htick.
  injection Hentry as Haction _ _.
  match type of Hrun with
  | _ = (Return ?x, _) => set (file_info := x) in *
  end.
  match type of Hdocs with
  | _ = before ++ ?x :: after => set (d1 := x) in *
  end.
  assert (Hfaults1 : no_faults w1) by (intro n; rewrite Hfault; apply Hfaults).
  assert (Hstored : lookup document_id_ (documents w1) = Some d1).
  { rewrite Hdocs. apply lookup_app_first with (r := d).
    - apply lookup_single with (l := documents w). exact Hfound.
    - reflexivity.
    - exact Hbefore. }
  assert (Hkept : forall f, In f (files d) ->
            negb (String.eqb (file_id f) (file_id file_info)) = true).
  { intros f Hf. apply negb_true_iff, String.eqb_neq. apply Hfresh. exact Hf. }
  assert (Hfile : List.find (fun f => String.eqb (file_id f) (file_id file_info))
                    (files d1) = Some file_info).
  { change (files d1) with (files d ++ [file_info]). apply find_app_first.
    - intros f Hf. apply negb_true_iff. apply Hkept. exact Hf.
    - apply String.eqb_refl. }
  destruct (@delete_file_run document_id_ (file_id file_info) current_user w1 d1
              file_info (file_id file_info) Hfaults1 Hstored Hfile)
    as [before' [after' [removed [w2 [Hrun2 [Hsplit2 [Hbefore2 [Hdocs2 [Hgrid2 [Hhist2
          [Hentry2 [Hrest2 _]]]]]]]]]]]].
  { unfold can_delete. change (creator_id d1) with (creator_id d).
    rewrite Hactor. reflexivity. }
  { exact Hcanonical. }
  injection Hrest2 as Hnotes2 _ _ _.
  injection Hentry2 as Haction2 _ _.
  match type of Hdocs2 with
  | _ = before' ++ ?x :: after' => set (d2 := x) in *
  end.
  exists file_info, w1, w2, d2, added, removed.
  split; [exact Hrun |]. split; [exact Hrun2 |].
  split.
  { rewrite Hdocs2. apply lookup_app_first with (r := d1).
    - apply lookup_single with (l := documents w1). exact Hstored.
    - reflexivity.
    - exact Hbefore2. }
  split.
  { assert (Hfiles :
      List.filter (fun f => negb (String.eqb (file_id f) (file_id file_info))) (files d1)
      = files d).
    { change (files d1) with (files d ++ [file_info]).
      rewrite filter_app, (filter_all _ _ Hkept). simpl.
      rewrite String.eqb_refl. simpl. apply app_nil_r. }
    unfold d2. rewrite Hfiles. apply restore_files. }
  split.
  { rewrite Hdocs2. rewrite Hsplit, length_app. simpl.
    assert (Hsame : length (documents w1) = length (before' ++ d1 :: after'))
      by (rewrite Hsplit2; reflexivity).
    rewrite Hdocs in Hsame. rewrite !length_app in *. simpl in *. lia. }
  split.
  { rewrite Hgrid2, Hgrid, filter_app. simpl. rewrite String.eqb_refl. simpl.
    rewrite app_nil_r. apply filter_all. intros f Hf. apply negb_true_iff.
    apply String.eqb_neq. intros Heq. apply Hnew. simpl in Heq. subst f. exact Hf. }
  split; [rewrite Hhist2, Hhist, <- app_assoc; reflexivity |].
  split; [rewrite Haction, Haction2; reflexivity |].
  rewrite Hnotes2. exact Hnotes.
Qed.

Lemma upload_then_delete_restores_witness :
  exists w2 d2,
    lookup Archiving.document (documents w2) = Some d2
    /\ files d2 = []
    /\ gridfs w2 = []
    /\ length (document_history w2) = 2.
Proof.
  destruct (@upload_then_delete_restores Archiving.document Attachments.report
              Sample.admin Archiving.start (Sample.numbered 1 "DOC-2025-00001")
              "application/pdf")
    as [file_info [w1 [w2 [d2 [added [removed
          [_ [_ [Hfound [Hsame [_ [Hgrid [Hhistory _]]]]]]]]]]]]].
  - intro n. reflexivity.
  - reflexivity.
  - reflexivity.
  - vm_compute. discriminate.
  - reflexivity.
  - left. reflexivity.
  - vm_compute. reflexivity.
  - intros [].
  - intros f [].
  - exists w2, d2. split; [exact Hfound |].
    split; [rewrite Hsame; reflexivity |].
    split; [exact Hgrid | rewrite Hhistory; reflexivity].
Defined.

(** ** Forwarding a document *)

Lemma safe_ret A (a : A) : safe (ret a).
Proof. intros w _. exists a. split; reflexivity. Qed.

Lemma safe_bind A B (m : M A) (k : A -> M B) :
  safe m -> (forall a, safe (k a)) -> safe (bind m k).
Proof.
  intros Hm Hk w Hfaults. unfold bind.
  destruct (Hm w Hfaults) as [a [Hrun Hfault]].
  destruct (m w) as [[a'|e] w']; simpl in *; [| discriminate].
  destruct (Hk a' w') as [b [Hrun' Hfault']].
  - intro n. rewrite Hfault. apply Hfaults.
  - exists b. split; [exact Hrun' | congruence].
Qed.

Lemma safe_try A (m : M A) (h : Exception -> M A) : safe m -> safe (try m h).
Proof.
  intros Hm w Hfaults. unfold try.
  destruct (Hm w Hfaults) as [a [Hrun Hfault]].
  destruct (m w) as [[a'|e] w']; simpl in *; [| discriminate].
  exists a'. split; [reflexivity | exact Hfault].
Qed.

Lemma safe_attempt A (s : Step) (m : M A) : safe m -> safe (attempt s m).
Proof.
  intros Hm w Hfaults. unfold attempt.
  destruct (Hm (set_steps (steps w ++ [Begin s]) w)) as [a [Hrun Hfault]].
  - intro n. apply Hfaults.
  - destruct (m _) as [[a'|e] w']; simpl in *; [| discriminate].
    exists a'. split; [reflexivity | exact Hfault].
Qed.

Lemma safe_for_each A B (l : list A) (body : B -> A -> M B) :
  (forall acc x, safe (body acc x)) -> forall acc, safe (for_each l acc body).
Proof.
  intros Hbody. induction l as [|x l IH]; intros acc; simpl.
  - apply safe_ret.
  - apply safe_bind; [apply Hbody | intros; apply IH].
Qed.

Ltac safe_leaf :=
  let w := fresh "w" in
  let Hfaults := fresh "Hfaults" in
  intros w Hfaults; unfold utcnow, round_trip, Motor.write_requested;
  rewrite ?Hfaults; eexists; split; reflexivity.

Ltac safely :=
  repeat match goal with
    | |- safe (ret _) => apply safe_ret
    | |- safe (BaseRepository.find_many _ _ _ _) =>
        unfold BaseRepository.find_many, Motor.find
    | |- safe (bind _ _) => apply safe_bind; [ | intros ]
    | |- safe (try _ _) => apply safe_try
    | |- safe (for_each _ _ _) => apply safe_for_each; intros
    | |- safe (attempt _ _) => apply safe_attempt
    | |- safe (match ?x with _ => _ end) => destruct x
    | |- safe _ => progress autounfold with model
    | |- safe _ => progress cbv zeta
    | |- safe _ => solve [safe_leaf]
    end.

Lemma send_emails_safe (l : list Notification) (d : Document) :
  safe (documents.send_emails l (Some d)).
Proof.
  unfold documents.send_emails. apply safe_for_each. intros acc n.
  apply safe_bind.
  - intros w Hfaults. unfold UserRepository.find_by_id, BaseRepository.find_by_id,
      Motor.find_one, try, bind, round_trip, raise, ret.
    destruct (ObjectId (user_id n)); [rewrite Hfaults |]; eexists; split; reflexivity.
  - intros [u|]; [| apply safe_ret]. unfold NotificationService.deref.
    apply safe_bind; [apply safe_ret |]. intros d0. safe_leaf.
Qed.

Lemma find_by_id_safe {T} `{Collection T} (id : string) :
  safe (BaseRepository.find_by_id id).
Proof.
  intros w Hfaults. unfold BaseRepository.find_by_id, Motor.find_one, try, bind,
    round_trip, raise, ret.
  destruct (ObjectId id); [rewrite Hfaults |]; eexists; split; reflexivity.
Qed.

Lemma create_notification_safe user_id_ document_id_ type_ title_ message_ metadata_ :
  safe (NotificationService.create_notification user_id_ document_id_ type_ title_
          message_ metadata_).
Proof.
  intros w Hfaults.
  unfold NotificationService.create_notification, BaseRepository.create, Motor.insert_one,
    bind, utcnow, round_trip, Motor.write_requested, ret.
  cbn -[with_id with_updated_at with_created_at]. rewrite Hfaults.
  eexists. split; reflexivity.
Qed.

Lemma notify_forwarded_safe (d : Document) (from_ to_ : string)
    (assignee : option string) (name_ : string) :
  safe (NotificationService.notify_document_forwarded (Some d) from_ to_ assignee name_).
Proof.
  unfold NotificationService.notify_document_forwarded, NotificationService.deref.
  apply safe_bind; [apply safe_ret |]. intros d0. cbv zeta.
  apply safe_bind; [apply find_by_id_safe |]. intros target_dept.
  destruct (Py.truthy assignee).
  - apply safe_try. apply safe_bind; [apply create_notification_safe |].
    intros n. apply safe_ret.
  - apply safe_bind.
    + intros w Hfaults. unfold UserRepository.find_by_department,
        BaseRepository.find_many, Motor.find, bind, round_trip.
      rewrite Hfaults. eexists. split; reflexivity.
    + intros users_. apply safe_for_each. intros acc user.
      destruct (Py.get (is_active user) true); [| apply safe_ret].
      apply safe_try. apply safe_bind; [apply create_notification_safe |].
      intros n. apply safe_ret.
Qed.

Lemma forward_mutation_run (document_id_ to_department_id_ : string)
    (assignee : option string) (w : World) (d : Document) :
  no_faults w ->
  lookup document_id_ (documents w) = Some d ->
  exists before after,
    documents w = before ++ d :: after
    /\ (forall x, In x before -> lookup document_id_ [x] = None)
    /\ attempt Mutation
         (DocumentRepository.forward_document document_id_ to_department_id_ assignee) w
       = (let d' :=
            with_updated_at (clock w (tick w))
              (set_assigned_to_user_id assignee
                 (set_current_holder_department_id to_department_id_ d)) in
          (Return (Some d'),
           set_tick (2 + tick w)
             (set_documents (before ++ d' :: after)
                (set_steps
                   (steps w ++ [Begin Mutation; Write Collections.DOCUMENTS]) w)))).
Proof.
  intros Hfaults Hfound. unfold lookup in *.
  unfold DocumentRepository.forward_document, BaseRepository.update_by_id,
    Motor.find_one_and_update.
  destruct (ObjectId document_id_) as [object_id|] eqn:Hid; [| discriminate].
  destruct (@update_first_split Document _ (fun r => String.eqb (row_id r) object_id)
              (fun r => with_updated_at (clock w (tick w))
                          (set_assigned_to_user_id assignee
                             (set_current_holder_department_id to_department_id_ r)))
              (documents w) d Hfound) as [before [after [Hsplit [Hupdate Hbefore]]]].
  exists before, after. split; [exact Hsplit |].
  split.
  { intros x Hx. simpl. specialize (Hbefore x Hx). simpl in Hbefore. rewrite Hbefore.
    reflexivity. }
  unfold attempt, bind, try, utcnow, round_trip, Motor.write_requested, ret.
  cbn -[Motor.update_first with_updated_at set_assigned_to_user_id
        set_current_holder_department_id].
  rewrite Hfaults.
  cbn -[Motor.update_first with_updated_at set_assigned_to_user_id
        set_current_holder_department_id].
  match goal with
  | |- context [Motor.update_first ?p ?f ?l] =>
      change (Motor.update_first p f l)
        with (Motor.update_first (fun r : Document => String.eqb (row_id r) object_id)
                (fun r => with_updated_at (clock w (tick w))
                            (set_assigned_to_user_id assignee
                               (set_current_holder_department_id to_department_id_ r)))
                (documents w))
  end.
  rewrite Hupdate.
  cbn -[with_updated_at set_assigned_to_user_id set_current_holder_department_id].
  rewrite <- app_assoc. reflexivity.
Qed.

Lemma audit_entry_run (document_id_ : string) (action_ : DocumentAction.t)
    (user : User) (kwargs : AuditKwargs) (w : World) :
  no_faults w ->
  attempt Ledger (documents.create_audit_entry document_id_ action_ user kwargs) w
  = (let entry :=
       with_id (server_oid w (3 + tick w))
         (with_updated_at (clock w (2 + tick w))
            (with_created_at (clock w (1 + tick w))
               (set_timestamp (clock w (tick w))
                  (mk_History "" document_id_ action_ (user_oid user)
                     (Py.get (full_name user) "Unknown") (Some (department_id user)) None
                     (kw_from_department_id kwargs) (kw_to_department_id kwargs)
                     (kw_comment kwargs) (kw_old_status kwargs) (kw_new_status kwargs)
                     (kw_status_reason kwargs) [] epoch epoch epoch)))) in
     (Return tt,
      set_document_history (document_history w ++ [entry])
        (set_tick (4 + tick w)
           (set_steps
              (steps w ++ [Begin Ledger; Write Collections.DOCUMENT_HISTORY]) w)))).
Proof.
  intros Hfaults.
  unfold documents.create_audit_entry, DocumentHistoryRepository.create_history_entry,
    BaseRepository.create, Motor.insert_one.
  unfold attempt, bind, utcnow, round_trip, Motor.write_requested, ret.
  cbn -[with_id with_updated_at with_created_at set_timestamp].
  rewrite Hfaults.
  cbn -[with_id with_updated_at with_created_at set_timestamp].
  rewrite <- app_assoc. reflexivity.
Qed.

Lemma send_emails_keeps_ledger l d :
  preserves (keeps ledger) (documents.send_emails l d).
Proof. preserve_with keeps_leaf. Qed.

(** X16.  When the database answers, a forward that passes the checks (the
    document and the target department exist, the assignee, if one is
    named, is a user of the target department, and the actor is an admin,
    the head of the holding department or the assignee of the document)
    returns the updated document: the stored document is the one it was,
    held by the target department and assigned to the user named (to nobody
    when none is named), no document is added or removed, and the history
    gains one forwarded entry of the actor with the former holder, the
    target department and the comment. *)
Theorem forwarded_document_moves
    (document_id_ : string) (forward_data : DocumentForward) (current_user : User)
    (w : World) (d : Document) (dep : Department) :
  no_faults w ->
  lookup document_id_ (documents w) = Some d ->
  lookup (forward_to_department_id forward_data) (departments w) = Some dep ->
  Py.truthy (forward_assigned_to_user_id forward_data) = false
  \/ (exists a,
        lookup (Py.str (forward_assigned_to_user_id forward_data)) (users w) = Some a
        /\ department_id a = forward_to_department_id forward_data) ->
  can_forward d current_user = true ->
  exists d' h w',
    documents.forward_document document_id_ forward_data current_user w
      = (Return (Some d'), w')
    /\ lookup document_id_ (documents w') = Some d'
    /\ d' = with_updated_at (updated_at d')
              (set_assigned_to_user_id (forward_assigned_to_user_id forward_data)
                 (set_current_holder_department_id
                    (forward_to_department_id forward_data) d))
    /\ length (documents w') = length (documents w)
    /\ document_history w' = document_history w ++ [h]
    /\ (action h, document_id h, performed_by h)
       = (DocumentAction.FORWARDED, document_id_, user_oid current_user)
    /\ (from_department_id h, to_department_id h, comment h)
       = (Some (current_holder_department_id d),
          Some (forward_to_department_id forward_data),
          forward_comment forward_data).
Proof.
  intros Hfaults Hfound Hdep Hassignee Hallowed.
  unfold documents.forward_document.
  unfold bind at 1. rewrite (find_document_found _ _ (Hfaults _) Hfound).
  unfold bind at 1. rewrite (find_department_found _ (ticked w) (Hfaults _) Hdep).
  assert (Hchecked : exists w2,
    (if Py.truthy (forward_assigned_to_user_id forward_data) then
       assigned_user <-
         UserRepository.find_by_id (Py.str (forward_assigned_to_user_id forward_data)) ;;
       match assigned_user with
       | None => raise (HTTPException HTTP_404_NOT_FOUND "Assigned user not found")
       | Some assigned_user =>
           if negb (String.eqb (department_id assigned_user)
                      (forward_to_department_id forward_data))
           then raise (HTTPException HTTP_400_BAD_REQUEST
                         "Assigned user must belong to the target department")
           else ret tt
       end
     else ret tt) (ticked (ticked w)) = (Return tt, w2)
    /\ no_faults w2 /\ documents w2 = documents w
    /\ document_history w2 = document_history w).
  { destruct Hassignee as [Hnone|[a [Ha Hmember]]].
    - rewrite Hnone. exists (ticked (ticked w)). split; [reflexivity |].
      split; [intro n; apply Hfaults | split; reflexivity].
    - rewrite (resolved_is_supplied _ _ Ha). unfold bind at 1.
      rewrite (find_user_found _ (ticked (ticked w)) (Hfaults _) Ha).
      rewrite Hmember, String.eqb_refl. exists (ticked (ticked (ticked w))).
      split; [reflexivity |]. split; [intro n; apply Hfaults | split; reflexivity]. }
  destruct Hchecked as [w2 [Hcheck [Hfaults2 [Hdocs2 Hhist2]]]].
  unfold bind at 1. rewrite Hcheck.
  unfold can_forward in Hallowed. cbv zeta. rewrite Hallowed.
  change (negb true) with false. cbv iota.
  destruct (@forward_mutation_run document_id_ (forward_to_department_id forward_data)
              (forward_assigned_to_user_id forward_data) w2 d Hfaults2)
    as [before [after [Hsplit [Hbefore Hmutation]]]]; [rewrite Hdocs2; exact Hfound |].
  unfold bind at 1. rewrite Hmutation. cbv zeta.
  unfold bind at 1. rewrite audit_entry_run by (intro n; apply Hfaults2).
  cbv zeta beta iota.
  match goal with
  | |- context [set_document_history ?l ?W] => set (w4 := set_document_history l W)
  end.
  match goal with
  | |- context [NotificationService.notify_document_forwarded (Some ?x)] =>
      set (d' := x) in *
  end.
  assert (Hfaults4 : no_faults w4) by (intro n; apply Hfaults2).
  unfold bind at 1.
  match goal with
  | |- context [attempt Fanout ?m] =>
      pose proof (@safe_attempt _ Fanout m
                    (notify_forwarded_safe _ _ _ _ _) w4 Hfaults4) as [l [Hfanout Hf5]];
      assert (Hkeeps5 : preserves (keeps ledger) (attempt Fanout m))
        by (unfold NotificationService.notify_document_forwarded;
            preserve_with keeps_leaf);
      specialize (Hkeeps5 w4); unfold keeps in Hkeeps5;
      destruct (attempt Fanout m w4) as [[l'|e] w5]; simpl in Hfanout, Hf5, Hkeeps5;
        [| discriminate]
  end.
  unfold bind at 1.
  destruct (@send_emails_safe l' d' w5) as [u [Hmail Hf6]];
    [intro n; rewrite Hf5; apply Hfaults4 |].
  pose proof (send_emails_keeps_ledger l' (Some d') w5) as Hkeeps6. unfold keeps in Hkeeps6.
  destruct (documents.send_emails l' (Some d') w5) as [[u'|e] w6];
    simpl in Hmail, Hkeeps6; [| discriminate].
  unfold ret. unfold ledger in *. rewrite Hkeeps5 in Hkeeps6.
  injection Hkeeps6 as Hdocs6 Hhist6.
  exists d'. eexists. exists w6. split; [reflexivity |].
  split.
  { rewrite Hdocs6. unfold w4. settle. apply lookup_app_first with (r := d).
    - apply lookup_single with (l := documents w). exact Hfound.
    - reflexivity.
    - exact Hbefore. }
  split; [reflexivity |].
  split.
  { rewrite Hdocs6. unfold w4. settle. rewrite <- Hdocs2, Hsplit, !length_app.
    reflexivity. }
  split; [rewrite Hhist6; unfold w4; settle; rewrite Hhist2; reflexivity |].
  split; reflexivity.
Qed.

Lemma forwarded_document_moves_witness :
  exists d' w',
    documents.forward_document ForwardAssignee.document
      (mk_DocumentForward Sample.department_b (Some (user_oid Sample.clerk))
         (Some "Please review"))
      Sample.admin ForwardAssignee.start = (Return (Some d'), w')
    /\ current_holder_department_id d' = Sample.department_b
    /\ map action (document_history w') = [DocumentAction.FORWARDED].
Proof.
  destruct (@forwarded_document_moves ForwardAssignee.document
              (mk_DocumentForward Sample.department_b (Some (user_oid Sample.clerk))
                 (Some "Please review"))
              Sample.admin ForwardAssignee.start
              (Sample.numbered 1 "DOC-2025-00001")
              (mk_Department Sample.department_b (Some "B") epoch epoch))
    as [d' [h [w' [Hrun [_ [Hd [_ [Hhistory [Hentry _]]]]]]]]].
  - intro n. reflexivity.
  - reflexivity.
  - reflexivity.
  - right. exists Sample.clerk. split; reflexivity.
  - reflexivity.
  - exists d', w'. split; [exact Hrun |].
    split; [rewrite Hd; reflexivity |].
    rewrite Hhistory. injection Hentry as Haction _ _. simpl. rewrite Haction.
    reflexivity.
Defined.

(** ** Changing the status of a document *)

Lemma document_update_run (document_id_ : string) (data : Document -> Document)
    (w : World) (d : Document) :
  no_faults w ->
  lookup document_id_ (documents w) = Some d ->
  exists before after,
    documents w = before ++ d :: after
    /\ (forall x, In x before -> lookup document_id_ [x] = None)
    /\ attempt Mutation (DocumentRepository.update_by_id document_id_ data) w
       = (let d' := with_updated_at (clock w (tick w)) (data d) in
          (Return (Some d'),
           set_tick (2 + tick w)
             (set_documents (before ++ d' :: after)
                (set_steps
                   (steps w ++ [Begin Mutation; Write Collections.DOCUMENTS]) w)))).
Proof.
  intros Hfaults Hfound. unfold lookup in *.
  unfold DocumentRepository.update_by_id, BaseRepository.update_by_id,
    Motor.find_one_and_update.
  destruct (ObjectId document_id_) as [object_id|] eqn:Hid; [| discriminate].
  destruct (@update_first_split Document _ (fun r => String.eqb (row_id r) object_id)
              (fun r => with_updated_at (clock w (tick w)) (data r))
              (documents w) d Hfound) as [before [after [Hsplit [Hupdate Hbefore]]]].
  exists before, after. split; [exact Hsplit |].
  split.
  { intros x Hx. simpl. specialize (Hbefore x Hx). simpl in Hbefore. rewrite Hbefore.
    reflexivity. }
  unfold attempt, bind, try, utcnow, round_trip, Motor.write_requested, ret.
  cbn -[Motor.update_first with_updated_at].
  rewrite Hfaults.
  cbn -[Motor.update_first with_updated_at].
  match goal with
  | |- context [Motor.update_first ?p ?f ?l] =>
      change (Motor.update_first p f l)
        with (Motor.update_first (fun r : Document => String.eqb (row_id r) object_id)
                (fun r => with_updated_at (clock w (tick w)) (data r))
                (documents w))
  end.
  rewrite Hupdate.
  cbn -[with_updated_at].
  rewrite <- app_assoc. reflexivity.
Qed.

Lemma create_notification_run (user_id_ document_id_ : string)
    (type_ : NotificationType.t) (title_ message_ : string)
    (metadata_ : list (string * string)) (w : World) :
  no_faults w ->
  exists n w',
    NotificationService.create_notification user_id_ document_id_ type_ title_
      message_ metadata_ w = (Return n, w')
    /\ notifications w' = notifications w ++ [n]
    /\ (user_id n, notification_document_id n, notification_type n, is_read n)
       = (user_id_, document_id_, type_, false)
    /\ (notification_title n, message n) = (title_, message_)
    /\ ledger w' = ledger w
    /\ fault w' = fault w.
Proof.
  intros Hfaults.
  unfold NotificationService.create_notification, BaseRepository.create, Motor.insert_one,
    bind, utcnow, round_trip, Motor.write_requested, ret.
  cbn -[with_id with_updated_at with_created_at]. rewrite Hfaults.
  do 2 eexists. split; [reflexivity |]. repeat split.
Qed.

Lemma notify_status_changed_run (d : Document) (old_status_ new_status_ : DocumentStatus.t)
    (name_ : string) (w : World) :
  no_faults w ->
  exists created w',
    attempt Fanout
      (NotificationService.notify_status_changed (Some d) old_status_ new_status_ name_) w
      = (Return created, w')
    /\ notifications w' = notifications w ++ created
    /\ map user_id created = status_recipients d
    /\ Forall (about d NotificationType.STATUS_CHANGED) created
    /\ ledger w' = ledger w
    /\ fault w' = fault w.
Proof.
  intros Hfaults.
  unfold attempt, NotificationService.notify_status_changed, NotificationService.deref.
  unfold bind at 1. unfold ret at 1. cbv zeta beta iota.
  unfold bind at 1. unfold try at 1. unfold bind at 1.
  match goal with
  | |- context [NotificationService.create_notification ?u ?i ?t ?ti ?m ?me ?W] =>
      destruct (@create_notification_run u i t ti m me W)
        as [n1 [w1 [Hrun1 [Hnotes1 [Hfields1 [_ [Hledger1 Hfault1]]]]]]];
        [intro k; apply Hfaults | rewrite Hrun1]
  end.
  unfold ret at 1. cbv beta iota.
  injection Hfields1 as Huser1 Hdoc1 Htype1 Hread1.
  unfold status_recipients.
  destruct (Py.truthy (assigned_to_user_id d)
            && negb (String.eqb (Py.str (assigned_to_user_id d)) (creator_id d))).
  - unfold try at 1. unfold bind at 1.
    match goal with
    | |- context [NotificationService.create_notification ?u ?i ?t ?ti ?m ?me ?W] =>
        destruct (@create_notification_run u i t ti m me W)
          as [n2 [w2 [Hrun2 [Hnotes2 [Hfields2 [_ [Hledger2 Hfault2]]]]]]];
          [intro k; rewrite Hfault1; apply Hfaults | rewrite Hrun2]
    end.
    injection Hfields2 as Huser2 Hdoc2 Htype2 Hread2.
    unfold ret. exists [n1; n2], w2.
    split; [reflexivity |].
    split; [rewrite Hnotes2, Hnotes1, <- app_assoc; reflexivity |].
    split; [simpl; rewrite Huser1, Huser2; reflexivity |].
    split; [repeat constructor; assumption |].
    split; [rewrite Hledger2, Hledger1; reflexivity | rewrite Hfault2, Hfault1; reflexivity].
  - unfold ret. exists [n1], w1.
    split; [reflexivity |].
    split; [exact Hnotes1 |].
    split; [simpl; rewrite Huser1; reflexivity |].
    split; [repeat constructor; assumption |].
    split; [exact Hledger1 | exact Hfault1].
Qed.

Lemma send_emails_keeps_records l d :
  preserves (keeps records) (documents.send_emails l d).
Proof. preserve_with keeps_leaf. Qed.

(** X17.  When the database answers, a status change by an admin, by the
    head of the holding department or by the assignee returns the updated
    document: the stored document is the one it was with the new status, no
    document is added or removed, the history gains one status_changed
    entry of the actor with the old status, the new status and the reason,
    and one status_changed notification about the document is created for
    its creator and one for its assignee, when there is one who is not the
    creator. *)
Theorem status_change_is_recorded
    (document_id_ : string) (status_data : DocumentStatusUpdate) (current_user : User)
    (w : World) (d : Document) :
  no_faults w ->
  lookup document_id_ (documents w) = Some d ->
  can_forward d current_user = true ->
  exists d' h created w',
    documents.update_document_status document_id_ status_data current_user w
      = (Return (Some d'), w')
    /\ lookup document_id_ (documents w') = Some d'
    /\ d' = with_updated_at (updated_at d')
              (set_status (update_status_value status_data) d)
    /\ length (documents w') = length (documents w)
    /\ document_history w' = document_history w ++ [h]
    /\ (action h, document_id h, performed_by h)
       = (DocumentAction.STATUS_CHANGED, document_id_, user_oid current_user)
    /\ (old_status h, new_status h, status_reason h)
       = (Some (status d), Some (update_status_value status_data),
          update_reason status_data)
    /\ notifications w' = notifications w ++ created
    /\ map user_id created = status_recipients d
    /\ Forall (about d NotificationType.STATUS_CHANGED) created.
Proof.
  intros Hfaults Hfound Hallowed.
  unfold documents.update_document_status.
  unfold bind at 1. rewrite (find_document_found _ _ (Hfaults _) Hfound).
  unfold can_forward in Hallowed. cbv zeta. rewrite Hallowed.
  change (negb true) with false. cbv iota.
  destruct (@document_update_run document_id_
              (set_status (update_status_value status_data)) (ticked w) d)
    as [before [after [Hsplit [Hbefore Hmutation]]]];
    [intro n; apply Hfaults | exact Hfound |].
  unfold DocumentRepository.update_status.
  unfold DocumentRepository.update_by_id in Hmutation.
  unfold bind at 1. rewrite Hmutation. cbv zeta.
  unfold bind at 1. rewrite audit_entry_run by (intro n; apply Hfaults).
  cbv zeta beta iota.
  match goal with
  | |- context [set_document_history ?l ?W] => set (w4 := set_document_history l W)
  end.
  match goal with
  | |- context [NotificationService.notify_status_changed (Some ?x)] =>
      set (d' := x) in *
  end.
  assert (Hfaults4 : no_faults w4) by (intro n; apply Hfaults).
  unfold bind at 1.
  destruct (@notify_status_changed_run d' (status d) (update_status_value status_data)
              (Py.get (full_name current_user) "Unknown") w4 Hfaults4)
    as [created [w5 [Hfanout [Hnotes5 [Hto [Habout [Hledger5 Hfault5]]]]]]].
  rewrite Hfanout.
  unfold bind at 1.
  destruct (@send_emails_safe created d' w5) as [u [Hmail Hf6]];
    [intro n; rewrite Hfault5; apply Hfaults4 |].
  pose proof (send_emails_keeps_records created (Some d') w5) as Hkeeps6.
  unfold keeps in Hkeeps6.
  destruct (documents.send_emails created (Some d') w5) as [[u'|e] w6];
    simpl in Hmail, Hkeeps6; [| discriminate].
  unfold ret. unfold records, ledger in *.
  injection Hkeeps6 as Hdocs6 Hhist6 Hnotes6.
  injection Hledger5 as Hdocs5 Hhist5.
  exists d'. eexists. exists created, w6. split; [reflexivity |].
  split.
  { rewrite Hdocs6, Hdocs5. unfold w4. settle. apply lookup_app_first with (r := d).
    - apply lookup_single with (l := documents w). exact Hfound.
    - reflexivity.
    - exact Hbefore. }
  split; [reflexivity |].
  split.
  { rewrite Hdocs6, Hdocs5. unfold w4. settle.
    change (documents (ticked w)) with (documents w) in Hsplit.
    rewrite Hsplit, !length_app. reflexivity. }
  split; [rewrite Hhist6, Hhist5; unfold w4; settle; reflexivity |].
  split; [reflexivity |].
  split; [reflexivity |].
  split; [rewrite Hnotes6, Hnotes5; unfold w4; settle; reflexivity |].
  split; [exact Hto | exact Habout].
Qed.

Lemma status_change_is_recorded_witness :
  exists d' w',
    documents.update_document_status ForwardAssignee.document
      (mk_DocumentStatusUpdate DocumentStatus.COMPLETED None) Sample.admin
      ForwardAssignee.start = (Return (Some d'), w')
    /\ status d' = DocumentStatus.COMPLETED
    /\ map user_id (notifications w') = [user_oid Sample.admin].
Proof.
  destruct (@status_change_is_recorded ForwardAssignee.document
              (mk_DocumentStatusUpdate DocumentStatus.COMPLETED None) Sample.admin
              ForwardAssignee.start (Sample.numbered 1 "DOC-2025-00001"))
    as [d' [h [created [w' [Hrun [_ [Hd [_ [_ [_ [_ [Hnotes [Hto _]]]]]]]]]]]]].
  - intro n. reflexivity.
  - reflexivity.
  - reflexivity.
  - exists d', w'. split; [exact Hrun |].
    split; [rewrite Hd; reflexivity |].
    rewrite Hnotes. simpl. rewrite Hto. reflexivity.
Defined.

(** ** Updating a document *)

Lemma notify_assigned_run (d : Document) (assignee name_ : string) (w : World) :
  no_faults w ->
  exists n w',
    attempt Fanout
      (NotificationService.notify_document_assigned (Some d) assignee name_) w
      = (Return (Some n), w')
    /\ notifications w' = notifications w ++ [n]
    /\ user_id n = assignee
    /\ about d NotificationType.DOCUMENT_RECEIVED n
    /\ ledger w' = ledger w
    /\ fault w' = fault w.
Proof.
  intros Hfaults.
  unfold attempt, NotificationService.notify_document_assigned, NotificationService.deref.
  unfold bind at 1. unfold ret at 1. cbv zeta beta iota.
  unfold try at 1. unfold bind at 1.
  match goal with
  | |- context [NotificationService.create_notification ?u ?i ?t ?ti ?m ?me ?W] =>
      destruct (@create_notification_run u i t ti m me W)
        as [n1 [w1 [Hrun1 [Hnotes1 [Hfields1 [_ [Hledger1 Hfault1]]]]]]];
        [intro k; apply Hfaults | rewrite Hrun1]
  end.
  injection Hfields1 as Huser1 Hdoc1 Htype1 Hread1.
  unfold ret. exists n1, w1.
  split; [reflexivity |]. split; [exact Hnotes1 |]. split; [exact Huser1 |].
  split; [repeat split; assumption |].
  split; [exact Hledger1 | exact Hfault1].
Qed.

Lemma queue_email_safe (assignee : string) (notif : Notification) (d : Document) :
  safe (queue_email assignee notif d).
Proof.
  unfold queue_email. apply safe_bind; [apply find_by_id_safe |].
  intros [u|]; [safe_leaf | apply safe_ret].
Qed.

Lemma queue_email_keeps_records (assignee : string) (notif : Notification)
    (d : Document) :
  preserves (keeps records) (queue_email assignee notif d).
Proof. unfold queue_email. preserve_with keeps_leaf. Qed.

(** X18.  When the database answers, an update by an admin, by the creator
    or by the head of the holding department, whose new assignee (if one
    is given) exists, returns the updated document: the stored document is
    the one it was with the supplied fields replaced, the history gains one
    modified entry of the actor, and one notification is created, for the
    new assignee, exactly when one is named and differs from the former
    assignee. *)
Theorem update_applies_the_fields
    (document_id_ : string) (document_data : DocumentUpdate) (current_user : User)
    (w : World) (d : Document) :
  no_faults w ->
  lookup document_id_ (documents w) = Some d ->
  can_update d current_user = true ->
  (forall a, upd_assigned_to_user_id document_data = Some a ->
             exists u, lookup a (users w) = Some u) ->
  exists d' h created w',
    documents.update_document document_id_ document_data current_user w
      = (Return d', w')
    /\ lookup document_id_ (documents w') = Some d'
    /\ d' = with_updated_at (updated_at d') (apply_update document_data d)
    /\ length (documents w') = length (documents w)
    /\ document_history w' = document_history w ++ [h]
    /\ (action h, document_id h, performed_by h, comment h)
       = (DocumentAction.MODIFIED, document_id_, user_oid current_user,
          Some "Document updated")
    /\ notifications w' = notifications w ++ created
    /\ map user_id created
       = newly_assigned (assigned_to_user_id d) (upd_assigned_to_user_id document_data)
    /\ Forall (about d NotificationType.DOCUMENT_RECEIVED) created.
Proof.
  intros Hfaults Hfound Hallowed Hassignee.
  unfold documents.update_document.
  unfold bind at 1. rewrite (find_document_found _ _ (Hfaults _) Hfound).
  unfold can_update in Hallowed. cbv zeta. rewrite Hallowed.
  change (negb true) with false. cbv iota.
  assert (Hchecked : exists w2,
    (match upd_assigned_to_user_id document_data with
     | Some assignee =>
         user <- UserRepository.find_by_id assignee ;;
         match user with
         | Some _ => ret tt
         | None => raise (HTTPException HTTP_404_NOT_FOUND "Assigned user not found")
         end
     | None => ret tt
     end) (ticked w) = (Return tt, w2)
    /\ no_faults w2 /\ records w2 = records w).
  { destruct (upd_assigned_to_user_id document_data) as [a|].
    - destruct (Hassignee a eq_refl) as [u Hu]. unfold bind at 1.
      rewrite (find_user_found _ (ticked w) (Hfaults _) Hu).
      exists (ticked (ticked w)). split; [reflexivity |].
      split; [intro n; apply Hfaults | reflexivity].
    - exists (ticked w). split; [reflexivity |].
      split; [intro n; apply Hfaults | reflexivity]. }
  destruct Hchecked as [w2 [Hcheck [Hfaults2 Hrecords2]]].
  unfold records in Hrecords2. injection Hrecords2 as Hdocs2 Hhist2 Hnotes2.
  unfold bind at 1. rewrite Hcheck.
  destruct (@document_update_run document_id_ (apply_update document_data) w2 d Hfaults2)
    as [before [after [Hsplit [Hbefore Hmutation]]]]; [rewrite Hdocs2; exact Hfound |].
  unfold bind at 1. rewrite Hmutation. cbv zeta.
  unfold bind at 1. unfold ret at 1. cbv beta iota.
  unfold bind at 1. rewrite audit_entry_run by (intro n; apply Hfaults2).
  cbv zeta beta iota.
  match goal with
  | |- context [set_document_history ?l ?W] => set (w4 := set_document_history l W)
  end.
  set (d' := with_updated_at (clock w2 (tick w2)) (apply_update document_data d)) in *.
  assert (Hfaults4 : no_faults w4) by (intro n; apply Hfaults2).
  assert (Hstored : lookup document_id_ (documents w4) = Some d').
  { unfold w4. settle. apply lookup_app_first with (r := d).
    - apply lookup_single with (l := documents w). exact Hfound.
    - reflexivity.
    - exact Hbefore. }
  assert (Hlength : length (documents w4) = length (documents w)).
  { unfold w4. settle. rewrite <- Hdocs2, Hsplit, !length_app. reflexivity. }
  unfold newly_assigned.
  destruct (Py.truthy (upd_assigned_to_user_id document_data)
            && negb (String.eqb (Py.str (assigned_to_user_id d))
                       (Py.str (upd_assigned_to_user_id document_data)))).
  - unfold bind at 1. unfold bind at 1.
    destruct (@notify_assigned_run d' (Py.str (upd_assigned_to_user_id document_data))
                (Py.get (full_name current_user) "Unknown") w4 Hfaults4)
      as [n [w5 [Hfanout [Hnotes5 [Hto [Habout [Hledger5 Hfault5]]]]]]].
    rewrite Hfanout.
    destruct (@queue_email_safe (Py.str (upd_assigned_to_user_id document_data)) n d' w5)
      as [u [Hmail Hf6]]; [intro k; rewrite Hfault5; apply Hfaults4 |].
    pose proof (@queue_email_keeps_records
                  (Py.str (upd_assigned_to_user_id document_data)) n d' w5) as Hkeeps6.
    unfold keeps in Hkeeps6.
    match goal with
    | |- context [bind ?m ?k w5] =>
        change (bind m k w5) with
          (queue_email (Py.str (upd_assigned_to_user_id document_data)) n d' w5)
    end.
    destruct (queue_email (Py.str (upd_assigned_to_user_id document_data)) n d' w5)
      as [[u'|e] w6]; simpl in Hmail, Hkeeps6; [| discriminate].
    unfold ret. unfold records, ledger in *.
    injection Hkeeps6 as Hdocs6 Hhist6 Hnotes6.
    injection Hledger5 as Hdocs5 Hhist5.
    exists d'. eexists. exists [n], w6. split; [reflexivity |].
    split; [rewrite Hdocs6, Hdocs5; exact Hstored |].
    split; [reflexivity |].
    split; [rewrite Hdocs6, Hdocs5; exact Hlength |].
    split; [rewrite Hhist6, Hhist5; unfold w4; settle; rewrite Hhist2; reflexivity |].
    split; [reflexivity |].
    split; [rewrite Hnotes6, Hnotes5; unfold w4; settle; rewrite Hnotes2; reflexivity |].
    split; [simpl; rewrite Hto; reflexivity |].
    constructor; [exact Habout | constructor].
  - unfold bind at 1. unfold ret.
    exists d'. eexists. exists [], w4. split; [reflexivity |].
    split; [exact Hstored |].
    split; [reflexivity |].
    split; [exact Hlength |].
    split; [unfold w4; settle; rewrite Hhist2; reflexivity |].
    split; [reflexivity |].
    split; [unfold w4; settle; rewrite Hnotes2, app_nil_r; reflexivity |].
    split; [reflexivity | constructor].
Qed.

Lemma update_applies_the_fields_witness :
  exists d' w',
    documents.update_document ForwardAssignee.document
      (mk_DocumentUpdate (Some "Budget 2026") None None None None
         (Some (user_oid Sample.clerk)) None)
      Sample.admin ForwardAssignee.start = (Return d', w')
    /\ title d' = "Budget 2026"
    /\ map user_id (notifications w') = [user_oid Sample.clerk].
Proof.
  destruct (@update_applies_the_fields ForwardAssignee.document
              (mk_DocumentUpdate (Some "Budget 2026") None None None None
                 (Some (user_oid Sample.clerk)) None)
              Sample.admin ForwardAssignee.start (Sample.numbered 1 "DOC-2025-00001"))
    as [d' [h [created [w' [Hrun [_ [Hd [_ [_ [_ [Hnotes [Hto _]]]]]]]]]]]].
  - intro n. reflexivity.
  - reflexivity.
  - reflexivity.
  - intros a Ha. injection Ha as <-. exists Sample.clerk. reflexivity.
  - exists d', w'. split; [exact Hrun |].
    split; [rewrite Hd; reflexivity |].
    rewrite Hnotes. simpl. rewrite Hto. reflexivity.
Defined.

(** ** Creating a document *)

Lemma create_document_run (data : DocumentData) (w : World) :
  no_faults w ->
  numbers_parse w ->
  exists d w',
    attempt Mutation (DocumentRepository.create_document data) w = (Return d, w')
    /\ documents w' = documents w ++ [d]
    /\ d = mk_Document (document_oid d) (document_number d) (data_title data)
             (data_description data) (data_document_type data) (data_priority data)
             (Py.get (data_status data) DocumentStatus.DRAFT)
             (data_creator_id data) (data_creator_department_id data)
             (data_current_holder_department_id data)
             (data_assigned_to_user_id data)
             (Py.get (data_files data) [])
             (data_metadata data) (created_at d) (updated_at d) None
    /\ (document_history w', notifications w', users w') =
       (document_history w, notifications w, users w)
    /\ fault w' = fault w.
Proof.
  intros Hfaults Hparse.
  unfold attempt, DocumentRepository.create_document.
  unfold bind at 1. unfold DocumentRepository.generate_document_number.
  unfold bind at 1. unfold utcnow at 1. cbv beta iota zeta. settle.
  unfold bind at 1. unfold Motor.aggregate at 1. unfold bind at 1.
  unfold round_trip at 1. settle. rewrite Hfaults. cbv beta iota. settle.
  unfold bind at 1.
  change (@rows Document _) with documents. settle.
  specialize (Hparse (tick w)).
  destruct (firstn 1 (DocumentRepository.pipeline (year (clock w (tick w))) (documents w)))
    as [|part rest] eqn:Hresult.
  - unfold ret at 1. cbv beta iota. unfold ret at 1.
    unfold BaseRepository.create, Motor.insert_one,
      bind, utcnow, round_trip, Motor.write_requested, ret.
    cbn -[with_id with_updated_at with_created_at Py.decimal Py.zero_pad String.append].
    rewrite Hfaults.
    do 2 eexists. split; [reflexivity |]. repeat split.
  - destruct (Hparse part) as [k Hk].
    { apply (@firstn_in _ 1). rewrite Hresult. left. reflexivity. }
    rewrite Hk. unfold ret at 1. cbv beta iota. unfold ret at 1.
    unfold BaseRepository.create, Motor.insert_one,
      bind, utcnow, round_trip, Motor.write_requested, ret.
    cbn -[with_id with_updated_at with_created_at Py.decimal Py.zero_pad String.append].
    rewrite Hfaults.
    do 2 eexists. split; [reflexivity |]. repeat split.
Qed.

Lemma notify_created_run (d : Document) (assignee : option string) (w : World) :
  no_faults w ->
  Py.truthy assignee = true ->
  exists n w',
    attempt Fanout (NotificationService.notify_document_created (Some d) assignee) w
      = (Return [n], w')
    /\ notifications w' = notifications w ++ [n]
    /\ user_id n = Py.str assignee
    /\ about d NotificationType.DOCUMENT_RECEIVED n
    /\ ledger w' = ledger w
    /\ fault w' = fault w.
Proof.
  intros Hfaults Hnamed.
  unfold attempt, NotificationService.notify_document_created, NotificationService.deref.
  unfold bind at 1. unfold ret at 1. cbv zeta beta iota. rewrite Hnamed.
  unfold try at 1. unfold bind at 1.
  match goal with
  | |- context [NotificationService.create_notification ?u ?i ?t ?ti ?m ?me ?W] =>
      destruct (@create_notification_run u i t ti m me W)
        as [n1 [w1 [Hrun1 [Hnotes1 [Hfields1 [_ [Hledger1 Hfault1]]]]]]];
        [intro k; apply Hfaults | rewrite Hrun1]
  end.
  injection Hfields1 as Huser1 Hdoc1 Htype1 Hread1.
  unfold ret. exists n1, w1.
  split; [reflexivity |]. split; [exact Hnotes1 |]. split; [exact Huser1 |].
  split; [repeat split; assumption |].
  split; [exact Hledger1 | exact Hfault1].
Qed.

(** X19.  When the database answers, the stored numbers of the year read
    as integers and the assignee (if one is named) exists, a create request
    is served: the document is appended to the collection as a draft
    without files, with the supplied title, description, type, priority
    and assignee, created and held by the actor's department; the history
    gains one created entry of the actor for it; and one notification is
    created, for the assignee, exactly when one is named. *)
Theorem created_document_is_stored
    (document_data : DocumentCreate) (current_user : User) (w : World) :
  no_faults w ->
  numbers_parse w ->
  Py.truthy (create_assigned_to_user_id document_data) = false
  \/ (exists a,
        lookup (Py.str (create_assigned_to_user_id document_data)) (users w) = Some a) ->
  exists d h created w',
    documents.create_document document_data current_user w = (Return d, w')
    /\ documents w' = documents w ++ [d]
    /\ (title d, description d, document_type d, priority d)
       = (create_title document_data, create_description document_data,
          create_document_type document_data, create_priority document_data)
    /\ (status d, files d, archived_at d) = (DocumentStatus.DRAFT, [], None)
    /\ (creator_id d, creator_department_id d, current_holder_department_id d)
       = (user_oid current_user, department_id current_user,
          department_id current_user)
    /\ assigned_to_user_id d = create_assigned_to_user_id document_data
    /\ document_history w' = document_history w ++ [h]
    /\ (action h, document_id h, performed_by h)
       = (DocumentAction.CREATED, document_oid d, user_oid current_user)
    /\ notifications w' = notifications w ++ created
    /\ map user_id created = first_assignee (create_assigned_to_user_id document_data)
    /\ Forall (about d NotificationType.DOCUMENT_RECEIVED) created.
Proof.
  intros Hfaults Hparse Hassignee.
  unfold documents.create_document.
  assert (Hchecked : exists w2,
    (if Py.truthy (create_assigned_to_user_id document_data) then
       assigned_user <-
         UserRepository.find_by_id (Py.str (create_assigned_to_user_id document_data)) ;;
       match assigned_user with
       | Some _ => ret tt
       | None => raise (HTTPException HTTP_404_NOT_FOUND "Assigned user not found")
       end
     else ret tt) w = (Return tt, w2)
    /\ no_faults w2 /\ numbers_parse w2 /\ records w2 = records w).
  { destruct Hassignee as [Hnone|[a Ha]].
    - rewrite Hnone. exists w. repeat split; assumption.
    - rewrite (resolved_is_supplied _ _ Ha). unfold bind at 1.
      rewrite (find_user_found _ w (Hfaults _) Ha).
      exists (ticked w). split; [reflexivity |].
      split; [intro n; apply Hfaults |]. split; [exact Hparse | reflexivity]. }
  destruct Hchecked as [w2 [Hcheck [Hfaults2 [Hparse2 Hrecords2]]]].
  unfold records in Hrecords2. injection Hrecords2 as Hdocs2 Hhist2 Hnotes2.
  unfold bind at 1. rewrite Hcheck. cbv zeta.
  match goal with
  | |- context [DocumentRepository.create_document ?data] =>
      destruct (@create_document_run data w2 Hfaults2 Hparse2)
        as [d [w3 [Hmutation [Hdocs3 [Hd [Hrest3 Hfault3]]]]]]
  end.
  injection Hrest3 as Hhist3 Hnotes3 Husers3.
  unfold bind at 1. rewrite Hmutation.
  assert (Hfaults3 : no_faults w3) by (intro n; rewrite Hfault3; apply Hfaults2).
  unfold bind at 1. rewrite audit_entry_run by exact Hfaults3.
  cbv zeta beta iota.
  match goal with
  | |- context [set_document_history ?l ?W] => set (w4 := set_document_history l W)
  end.
  assert (Hfaults4 : no_faults w4) by (intro n; apply Hfaults3).
  simpl in Hd.
  unfold first_assignee.
  destruct (Py.truthy (create_assigned_to_user_id document_data)) eqn:Hnamed.
  - unfold bind at 1. unfold bind at 1.
    destruct (@notify_created_run d (create_assigned_to_user_id document_data) w4
                Hfaults4 Hnamed)
      as [n [w5 [Hfanout [Hnotes5 [Hto [Habout [Hledger5 Hfault5]]]]]]].
    rewrite Hfanout.
    destruct (@send_emails_safe [n] d w5) as [u [Hmail Hf6]];
      [intro k; rewrite Hfault5; apply Hfaults4 |].
    pose proof (send_emails_keeps_records [n] (Some d) w5) as Hkeeps6.
    unfold keeps in Hkeeps6.
    destruct (documents.send_emails [n] (Some d) w5) as [[u'|e] w6];
      simpl in Hmail, Hkeeps6; [| discriminate].
    unfold ret. unfold records, ledger in *.
    injection Hkeeps6 as Hdocs6 Hhist6 Hnotes6.
    injection Hledger5 as Hdocs5 Hhist5.
    exists d. eexists. exists [n], w6. split; [reflexivity |].
    split; [rewrite Hdocs6, Hdocs5; unfold w4; settle; rewrite Hdocs3, Hdocs2; reflexivity |].
    split; [rewrite Hd; reflexivity |].
    split; [rewrite Hd; reflexivity |].
    split; [rewrite Hd; reflexivity |].
    split; [rewrite Hd; reflexivity |].
    split; [rewrite Hhist6, Hhist5; unfold w4; settle; rewrite Hhist3, Hhist2;
            reflexivity |].
    split; [reflexivity |].
    split; [rewrite Hnotes6, Hnotes5; unfold w4; settle; rewrite Hnotes3, Hnotes2;
            reflexivity |].
    split; [simpl; rewrite Hto; reflexivity |].
    constructor; [exact Habout | constructor].
  - unfold bind at 1. unfold ret.
    exists d. eexists. exists [], w4. split; [reflexivity |].
    split; [unfold w4; settle; rewrite Hdocs3, Hdocs2; reflexivity |].
    split; [rewrite Hd; reflexivity |].
    split; [rewrite Hd; reflexivity |].
    split; [rewrite Hd; reflexivity |].
    split; [rewrite Hd; reflexivity |].
    split; [unfold w4; settle; rewrite Hhist3, Hhist2; reflexivity |].
    split; [reflexivity |].
    split; [unfold w4; settle; rewrite Hnotes3, Hnotes2, app_nil_r; reflexivity |].
    split; [reflexivity | constructor].
Qed.

Lemma created_document_is_stored_witness :
  exists d w',
    documents.create_document Sample.memo Sample.admin StatusRun.start = (Return d, w')
    /\ documents w' = [d]
    /\ status d = DocumentStatus.DRAFT.
Proof.
  destruct (@created_document_is_stored Sample.memo Sample.admin StatusRun.start)
    as [d [h [created [w' [Hrun [Hdocs [_ [Hstatus _]]]]]]]].
  - intro n. reflexivity.
  - intros n part Hpart. destruct Hpart.
  - left. reflexivity.
  - exists d, w'. split; [exact Hrun |]. split; [exact Hdocs |].
    injection Hstatus as Hs _ _. exact Hs.
Defined.

(** ** Queries of the repositories *)

(** X20.  When the round trip succeeds, the forwarding chain of a document
    holds only stored forwarded entries of that document, in chronological
    order, at most 100 of them, and all of them when there are at most
    100. *)
Theorem forwarding_chain_is_chronological (document_id_ : string) (w : World) :
  fault w (tick w) = false ->
  exists chain,
    DocumentHistoryRepository.get_forwarding_chain document_id_ w
      = (Return chain, ticked w)
    /\ StronglySorted chronological chain
    /\ length chain <= 100
    /\ (forall h, In h chain ->
          In h (document_history w)
          /\ document_id h = document_id_
          /\ action h = DocumentAction.FORWARDED)
    /\ (length (List.filter (forwarded_of document_id_) (document_history w)) <= 100 ->
        Permutation chain
          (List.filter (forwarded_of document_id_) (document_history w))).
Proof.
  intros Hfault.
  unfold DocumentHistoryRepository.get_forwarding_chain.
  destruct (@find_many_page History _ (forwarded_of document_id_) 0 100
              DocumentHistoryRepository.oldest_first w)
    as [all [Hrun [Hperm Hsorted]]].
  - intros a b. apply datetime_leb_total.
  - intros a b c Hab Hbc. eapply datetime_leb_trans; eassumption.
  - exact Hfault.
  - change (rows (ticked w)) with (document_history w) in Hperm.
    exists (firstn 100 (skipn 0 all)).
    split; [exact Hrun |].
    split; [apply sorted_firstn, sorted_skipn; exact Hsorted |].
    split; [apply firstn_le_length |].
    split.
    + intros h Hh. apply firstn_in, skipn_in in Hh.
      apply (Permutation_in _ Hperm) in Hh. apply filter_In in Hh as [Hin Hmatch].
      unfold forwarded_of in Hmatch. apply andb_prop in Hmatch as [Hdoc Haction].
      split; [exact Hin |]. split; [apply String.eqb_eq; exact Hdoc |].
      destruct (action h); try discriminate. reflexivity.
    + intros Hfew. simpl skipn. rewrite firstn_all2; [exact Hperm |].
      rewrite (Permutation_length Hperm). exact Hfew.
Qed.

Lemma forwarding_chain_is_chronological_witness :
  exists chain,
    fst (DocumentHistoryRepository.get_forwarding_chain (oid_of_nat 1004)
           (StatusRun.final StatusRun.scenario)) = Return chain
    /\ length chain <= 100.
Proof.
  destruct (@forwarding_chain_is_chronological (oid_of_nat 1004)
              (StatusRun.final StatusRun.scenario))
    as [chain [Hrun [_ [Hlength _]]]].
  - reflexivity.
  - exists chain. split; [rewrite Hrun; reflexivity | exact Hlength].
Defined.

(** X21.  When the round trip succeeds, the history of a document and the
    history of a user are answered by page: the page [skip .. skip + limit]
    of the matching entries sorted by timestamp, latest first; a page
    holds at most [limit] entries, all of them stored and matching. *)
Theorem history_pages_are_latest_first (key : string) (skip limit : nat) (w : World) :
  fault w (tick w) = false ->
  0 < limit ->
  (exists all page,
     DocumentHistoryRepository.find_by_document key skip limit w
       = (Return page, ticked w)
     /\ page = firstn limit (skipn skip all)
     /\ Permutation all (List.filter (of_document key) (document_history w))
     /\ StronglySorted latest_first all
     /\ StronglySorted latest_first page
     /\ length page <= limit
     /\ (forall h, In h page -> In h (document_history w) /\ document_id h = key))
  /\ (exists all page,
        DocumentHistoryRepository.find_by_user key skip limit w
          = (Return page, ticked w)
        /\ page = firstn limit (skipn skip all)
        /\ Permutation all (List.filter (performed_by_user key) (document_history w))
        /\ StronglySorted latest_first all
        /\ StronglySorted latest_first page
        /\ length page <= limit
        /\ (forall h, In h page -> In h (document_history w) /\ performed_by h = key)).
Proof.
  intros Hfault _. split.
  - unfold DocumentHistoryRepository.find_by_document.
    destruct (@find_many_page History _ (of_document key) skip limit
                DocumentHistoryRepository.most_recent_first w)
      as [all [Hrun [Hperm Hsorted]]].
    + intros a b. apply datetime_leb_total.
    + intros a b c Hab Hbc. eapply datetime_leb_trans; eassumption.
    + exact Hfault.
    + change (rows (ticked w)) with (document_history w) in Hperm.
      exists all, (firstn limit (skipn skip all)).
      split; [exact Hrun |]. split; [reflexivity |].
      split; [exact Hperm |]. split; [exact Hsorted |].
      split; [apply sorted_firstn, sorted_skipn; exact Hsorted |].
      split; [apply firstn_le_length |].
      intros h Hh. apply firstn_in, skipn_in in Hh.
      apply (Permutation_in _ Hperm) in Hh. apply filter_In in Hh as [Hin Hmatch].
      split; [exact Hin | apply String.eqb_eq; exact Hmatch].
  - unfold DocumentHistoryRepository.find_by_user.
    destruct (@find_many_page History _ (performed_by_user key) skip limit
                DocumentHistoryRepository.most_recent_first w)
      as [all [Hrun [Hperm Hsorted]]].
    + intros a b. apply datetime_leb_total.
    + intros a b c Hab Hbc. eapply datetime_leb_trans; eassumption.
    + exact Hfault.
    + change (rows (ticked w)) with (document_history w) in Hperm.
      exists all, (firstn limit (skipn skip all)).
      split; [exact Hrun |]. split; [reflexivity |].
      split; [exact Hperm |]. split; [exact Hsorted |].
      split; [apply sorted_firstn, sorted_skipn; exact Hsorted |].
      split; [apply firstn_le_length |].
      intros h Hh. apply firstn_in, skipn_in in Hh.
      apply (Permutation_in _ Hperm) in Hh. apply filter_In in Hh as [Hin Hmatch].
      split; [exact Hin | apply String.eqb_eq; exact Hmatch].
Qed.

Lemma history_pages_are_latest_first_witness :
  exists page,
    fst (DocumentHistoryRepository.find_by_document (oid_of_nat 1004) 0 2
           (StatusRun.final StatusRun.scenario)) = Return page
    /\ length page <= 2.
Proof.
  destruct (@history_pages_are_latest_first (oid_of_nat 1004) 0 2
              (StatusRun.final StatusRun.scenario))
    as [[all [page [Hrun [_ [_ [_ [_ [Hlength _]]]]]]]] _].
  - reflexivity.
  - lia.
  - exists page. split; [rewrite Hrun; reflexivity | exact Hlength].
Defined.

Lemma firstn_one_length {A} (l : list A) :
  (0 <? length (firstn 1 l)) = (0 <? length l).
Proof. destruct l; reflexivity. Qed.

Lemma find_is_some_iff {A} (f : A -> bool) (l : list A) :
  (0 <? length (List.filter f l))
  = match List.find f l with Some _ => true | None => false end.
Proof.
  induction l as [|x l IH]; simpl; [reflexivity |].
  destruct (f x); [reflexivity | exact IH].
Qed.

(** X22.  On every collection and for every filter, when the round trip
    succeeds: [exists] answers true exactly when [count] is positive, and
    exactly when [find_one] finds a row, which is then a stored row that
    matches the filter; the [limit=1] of [exists] does not change its
    answer. *)
Theorem exists_agrees_with_count {T} `{Collection T} (filter : T -> bool) (w : World) :
  fault w (tick w) = false ->
  exists b n r,
    BaseRepository.exists_ filter w = (Return b, ticked w)
    /\ BaseRepository.count filter w = (Return n, ticked w)
    /\ BaseRepository.find_one filter w = (Return r, ticked w)
    /\ b = (0 <? n)
    /\ (b = true <-> exists x, r = Some x)
    /\ (forall x, r = Some x -> filter x = true /\ In x (rows (ticked w))).
Proof.
  intros Hfault.
  unfold BaseRepository.exists_, BaseRepository.count, BaseRepository.find_one,
    Motor.count_documents, Motor.find_one, bind, round_trip, ret.
  rewrite Hfault.
  do 3 eexists. split; [reflexivity |]. split; [reflexivity |]. split; [reflexivity |].
  split; [apply firstn_one_length |].
  split.
  - rewrite firstn_one_length, find_is_some_iff.
    destruct (List.find filter _) as [x|].
    + split; [intros _; exists x; reflexivity | reflexivity].
    + split; [discriminate | intros [x Hx]; discriminate].
  - intros x Hx. apply List.find_some in Hx. tauto.
Qed.

Lemma exists_agrees_with_count_witness :
  exists n,
    fst (BaseRepository.count (fun u : User => String.eqb (department_id u) Sample.department_b)
           FanOut.start) = Return n
    /\ 0 < n.
Proof.
  destruct (@exists_agrees_with_count User _
              (fun u : User => String.eqb (department_id u) Sample.department_b)
              FanOut.start)
    as [b [n [r [Hexists [Hcount [Hfind [Hb _]]]]]]].
  - reflexivity.
  - exists n. split; [rewrite Hcount; reflexivity |].
    apply Nat.ltb_lt. rewrite <- Hb.
    assert (Hrun : fst (BaseRepository.exists_
                          (fun u : User => String.eqb (department_id u) Sample.department_b)
                          FanOut.start) = Return b) by (rewrite Hexists; reflexivity).
    vm_compute in Hrun. injection Hrun as <-. reflexivity.
Defined.

(** ** Who is refused *)

Lemma find_by_id_answers {T} `{Collection T} (id : string) (w : World) :
  exists r, fst (BaseRepository.find_by_id id w) = Return r.
Proof.
  unfold BaseRepository.find_by_id, Motor.find_one, try, bind, round_trip, raise, ret.
  destruct (ObjectId id); [| eexists; reflexivity].
  destruct (fault w (tick w)); eexists; reflexivity.
Qed.

Lemma forbidden_is_403 {A} (detail : string) (w : World) :
  fails_with (@raise A (HTTPException HTTP_403_FORBIDDEN detail) w) Forbidden.
Proof. eexists. split; reflexivity. Qed.

(** X23.  For a document that is found: an actor who may not view it is
    answered 403 by the detail, history, file list and upload endpoints;
    one who may not update it, by the update and the file deletion
    endpoints; one who may not forward it, by the status endpoint, and the
    forward endpoint refuses the request with a client error whatever else
    the request holds and whatever the database does afterwards; one who
    may not archive it, by the archive endpoint. *)
Theorem unauthorized_actor_is_forbidden
    (document_id_ : string) (current_user : User) (w : World) (d : Document) :
  fault w (tick w) = false ->
  lookup document_id_ (documents w) = Some d ->
  (can_view d current_user = false ->
     fails_with (documents.get_document document_id_ current_user w) Forbidden
     /\ fails_with (documents.get_document_history document_id_ current_user w) Forbidden
     /\ fails_with (files.list_document_files document_id_ current_user w) Forbidden
     /\ (forall file,
           fails_with (files.upload_file_to_document document_id_ file current_user w)
             Forbidden))
  /\ (can_update d current_user = false ->
        (forall document_data,
           fails_with
             (documents.update_document document_id_ document_data current_user w)
             Forbidden)
        /\ (forall file_id_ f,
              List.find (fun f => String.eqb (file_id f) file_id_) (files d) = Some f ->
              fails_with
                (files.delete_file_from_document document_id_ file_id_ current_user w)
                Forbidden))
  /\ (can_forward d current_user = false ->
        (forall status_data,
           fails_with
             (documents.update_document_status document_id_ status_data current_user w)
             Forbidden)
        /\ (forall forward_data,
              refused
                (documents.forward_document document_id_ forward_data current_user w)))
  /\ (can_archive d current_user = false ->
        fails_with (documents.archive_document document_id_ current_user w) Forbidden).
Proof.
  intros Hfault Hfound.
  pose proof (find_document_found _ _ Hfault Hfound) as Hrun.
  split; [| split; [| split]].
  - intros Hno. unfold can_view in Hno. repeat split; [| | | intros file].
    + unfold documents.get_document. unfold bind at 1. rewrite Hrun.
      cbv zeta. rewrite Hno. apply forbidden_is_403.
    + unfold documents.get_document_history. unfold bind at 1. rewrite Hrun.
      cbv zeta. rewrite Hno. apply forbidden_is_403.
    + unfold files.list_document_files. unfold bind at 1. rewrite Hrun.
      cbv zeta. rewrite Hno. apply forbidden_is_403.
    + unfold files.upload_file_to_document. unfold bind at 1. rewrite Hrun.
      cbv zeta. rewrite Hno. apply forbidden_is_403.
  - intros Hno. unfold can_update in Hno. split.
    + intros document_data. unfold documents.update_document. unfold bind at 1.
      rewrite Hrun. cbv zeta. rewrite Hno. apply forbidden_is_403.
    + intros file_id_ f Hf. unfold files.delete_file_from_document. unfold bind at 1.
      rewrite Hrun. rewrite Hf. cbv zeta. rewrite Hno. apply forbidden_is_403.
  - intros Hno. unfold can_forward in Hno. split.
    + intros status_data. unfold documents.update_document_status. unfold bind at 1.
      rewrite Hrun. cbv zeta. rewrite Hno. apply forbidden_is_403.
    + intros forward_data. unfold documents.forward_document. unfold bind at 1.
      rewrite Hrun. unfold bind at 1.
      destruct (@find_by_id_answers Department _
                  (forward_to_department_id forward_data) (ticked w)) as [dep Hdep].
      unfold DepartmentRepository.find_by_id.
      destruct (BaseRepository.find_by_id (forward_to_department_id forward_data)
                  (ticked w)) as [[r|e] w2]; simpl in Hdep; [| discriminate].
      destruct r as [dep'|]; [| eexists; split; [reflexivity | discriminate]].
      unfold bind at 1.
      destruct (Py.truthy (forward_assigned_to_user_id forward_data)).
      * unfold bind at 1.
        destruct (@find_by_id_answers User _
                    (Py.str (forward_assigned_to_user_id forward_data)) w2)
          as [a Ha].
        unfold UserRepository.find_by_id.
        destruct (BaseRepository.find_by_id
                    (Py.str (forward_assigned_to_user_id forward_data)) w2)
          as [[r|e] w3]; simpl in Ha; [| discriminate].
        destruct r as [a'|]; [| eexists; split; [reflexivity | discriminate]].
        destruct (negb _); [eexists; split; [reflexivity | discriminate] |].
        unfold ret at 1. cbv zeta. rewrite Hno.
        eexists; split; [reflexivity | discriminate].
      * unfold ret at 1. cbv zeta. rewrite Hno.
        eexists; split; [reflexivity | discriminate].
  - intros Hno. unfold can_archive in Hno. unfold documents.archive_document.
    unfold bind at 1. rewrite Hrun. cbv zeta. rewrite Hno. apply forbidden_is_403.
Qed.

Lemma unauthorized_actor_is_forbidden_witness :
  fails_with
    (documents.update_document_status ForwardAssignee.document
       (mk_DocumentStatusUpdate DocumentStatus.COMPLETED None) Sample.clerk
       ForwardAssignee.start)
    Forbidden.
Proof.
  destruct (@unauthorized_actor_is_forbidden ForwardAssignee.document Sample.clerk
              ForwardAssignee.start (Sample.numbered 1 "DOC-2025-00001"))
    as [_ [_ [Hstatus _]]].
  - reflexivity.
  - reflexivity.
  - destruct Hstatus as [Hstatus _]; [reflexivity |]. apply Hstatus.
Defined.

(** ** Notifications that cannot be stored *)

Lemma returns_only_ret A (P : A -> Prop) (a : A) : P a -> returns_only P (ret a).
Proof. intros Ha w a' Hrun. injection Hrun as <-. exact Ha. Qed.

Lemma returns_only_bind A B (Q : A -> Prop) (P : B -> Prop) (m : M A) (k : A -> M B) :
  returns_only Q m -> (forall a, Q a -> returns_only P (k a)) ->
  returns_only P (bind m k).
Proof.
  intros Hm Hk w b. unfold bind. specialize (Hm w).
  destruct (m w) as [[a|e] w']; simpl in *; [| discriminate].
  apply Hk. apply Hm. reflexivity.
Qed.

Lemma returns_only_any A (m : M A) : returns_only (fun _ => True) m.
Proof. intros w a _. exact I. Qed.

Lemma yields_ret A (P : A -> Prop) (a : A) : P a -> yields P (ret a).
Proof. intros Ha w. exists a. split; [reflexivity | exact Ha]. Qed.

Lemma yields_bind A B (Q : A -> Prop) (P : B -> Prop) (m : M A) (k : A -> M B) :
  yields Q m -> (forall a, Q a -> yields P (k a)) -> yields P (bind m k).
Proof.
  intros Hm Hk w. unfold bind. destruct (Hm w) as [a [Hrun Ha]].
  destruct (m w) as [[a'|e] w']; simpl in Hrun; [| discriminate].
  injection Hrun as ->. apply Hk. exact Ha.
Qed.

Lemma yields_try A (P : A -> Prop) (m : M A) (h : Exception -> M A) :
  returns_only P m -> (forall e, yields P (h e)) -> yields P (try m h).
Proof.
  intros Hm Hh w. unfold try. specialize (Hm w).
  destruct (m w) as [[a|e] w']; simpl in *.
  - exists a. split; [reflexivity | apply Hm; reflexivity].
  - apply Hh.
Qed.

(** X24.  Whatever the database does, the notification helpers for a
    status change, a creation, an assignment and a forward to a named
    assignee return, with at most two, one, one and one notification: a
    notification that cannot be stored is dropped.  The forward to a whole
    department is not guarded: when the listing of the department's users
    fails, the helper raises the driver's error. *)
Theorem notification_failures_are_swallowed (d : Document) (w : World) :
  (forall old_status_ new_status_ name_,
     exists created,
       fst (NotificationService.notify_status_changed (Some d) old_status_ new_status_
              name_ w) = Return created
       /\ length created <= 2)
  /\ (forall assignee,
        exists created,
          fst (NotificationService.notify_document_created (Some d) assignee w)
            = Return created
          /\ length created <= 1)
  /\ (forall assignee name_,
        exists answer,
          fst (NotificationService.notify_document_assigned (Some d) assignee name_ w)
            = Return answer)
  /\ (forall from_ to_ assignee name_,
        Py.truthy assignee = true ->
        exists created,
          fst (NotificationService.notify_document_forwarded (Some d) from_ to_ assignee
                 name_ w) = Return created
          /\ length created <= 1)
  /\ (forall from_ to_ name_,
        listing_fails to_ w ->
        fst (NotificationService.notify_document_forwarded (Some d) from_ to_ None
               name_ w) = Raise PyMongoError).
Proof.
  split; [| split; [| split; [| split]]].
  - intros old_status_ new_status_ name_.
    revert w. change (yields (fun l : list Notification => length l <= 2)
                        (NotificationService.notify_status_changed (Some d) old_status_
                           new_status_ name_)).
    unfold NotificationService.notify_status_changed, NotificationService.deref.
    apply yields_bind with (Q := fun _ => True); [apply yields_ret; exact I |].
    intros d0 _. cbv zeta.
    apply yields_bind with (Q := fun l : list Notification => length l <= 1).
    + apply yields_try; [| intros e; apply yields_ret; simpl; lia].
      apply returns_only_bind with (Q := fun _ => True); [apply returns_only_any |].
      intros n _. apply returns_only_ret. simpl. lia.
    + intros l Hl. destruct (_ && _); [| apply yields_ret; lia].
      apply yields_try; [| intros e; apply yields_ret; lia].
      apply returns_only_bind with (Q := fun _ => True); [apply returns_only_any |].
      intros n _. apply returns_only_ret. rewrite length_app. simpl. lia.
  - intros assignee.
    revert w. change (yields (fun l : list Notification => length l <= 1)
                        (NotificationService.notify_document_created (Some d) assignee)).
    unfold NotificationService.notify_document_created, NotificationService.deref.
    apply yields_bind with (Q := fun _ => True); [apply yields_ret; exact I |].
    intros d0 _. cbv zeta.
    destruct (Py.truthy assignee); [| apply yields_ret; simpl; lia].
    apply yields_try; [| intros e; apply yields_ret; simpl; lia].
    apply returns_only_bind with (Q := fun _ => True); [apply returns_only_any |].
    intros n _. apply returns_only_ret. simpl. lia.
  - intros assignee name_.
    assert (Hyields : yields (fun _ : option Notification => True)
                        (NotificationService.notify_document_assigned (Some d) assignee
                           name_)).
    { unfold NotificationService.notify_document_assigned, NotificationService.deref.
      apply yields_bind with (Q := fun _ => True); [apply yields_ret; exact I |].
      intros d0 _. cbv zeta.
      apply yields_try; [apply returns_only_any | intros e; apply yields_ret; exact I]. }
    destruct (Hyields w) as [answer [Hrun _]]. exists answer. exact Hrun.
  - intros from_ to_ assignee name_ Hnamed.
    revert w. change (yields (fun l : list Notification => length l <= 1)
                        (NotificationService.notify_document_forwarded (Some d) from_ to_
                           assignee name_)).
    unfold NotificationService.notify_document_forwarded, NotificationService.deref.
    apply yields_bind with (Q := fun _ => True); [apply yields_ret; exact I |].
    intros d0 _. cbv zeta.
    apply yields_bind with (Q := fun _ => True).
    + intros w. destruct (@find_by_id_answers Department _ to_ w) as [r Hr].
      exists r. split; [exact Hr | exact I].
    + intros target_dept _. rewrite Hnamed.
      apply yields_try; [| intros e; apply yields_ret; simpl; lia].
      apply returns_only_bind with (Q := fun _ => True); [apply returns_only_any |].
      intros n _. apply returns_only_ret. simpl. lia.
  - intros from_ to_ name_ Hfails. unfold listing_fails in Hfails.
    unfold NotificationService.notify_document_forwarded, NotificationService.deref.
    unfold bind at 1. unfold ret at 1. cbv zeta beta iota.
    unfold bind at 1.
    assert (Hdept : exists r w1,
              DepartmentRepository.find_by_id to_ w = (Return r, w1)
              /\ fault w1 (tick w1) = true).
    { unfold DepartmentRepository.find_by_id, BaseRepository.find_by_id, Motor.find_one,
        try, bind, round_trip, raise, ret.
      destruct (ObjectId to_).
      - destruct (fault w (tick w)); do 2 eexists; (split; [reflexivity | exact Hfails]).
      - do 2 eexists. split; [reflexivity | exact Hfails]. }
    destruct Hdept as [r [w1 [Hdept Hfails1]]]. rewrite Hdept.
    change (Py.truthy None) with false. cbv iota.
    unfold bind at 1. unfold UserRepository.find_by_department, BaseRepository.find_many,
      Motor.find. unfold bind at 1. unfold round_trip. rewrite Hfails1.
    reflexivity.
Qed.

Lemma notification_failures_are_swallowed_witness :
  fst (NotificationService.notify_document_forwarded
         (Some (Sample.numbered 1 "DOC-2025-00001")) Sample.department_a
         Sample.department_b None "U" (with_fault (Nat.eqb 1) FanOut.start))
    = Raise PyMongoError.
Proof.
  destruct (@notification_failures_are_swallowed (Sample.numbered 1 "DOC-2025-00001")
              (with_fault (Nat.eqb 1) FanOut.start)) as [_ [_ [_ [_ Hlisting]]]].
  apply Hlisting. reflexivity.
Defined.

(** ** Updating a user *)

Lemma user_update_run (user_id_ : string) (data : User -> User) (w : World) (u : User) :
  no_faults w ->
  lookup user_id_ (users w) = Some u ->
  exists before after,
    users w = before ++ u :: after
    /\ (forall x, In x before -> lookup user_id_ [x] = None)
    /\ BaseRepository.update_by_id user_id_ data w
       = (let u' := with_updated_at (clock w (tick w)) (data u) in
          (Return (Some u'),
           set_tick (2 + tick w)
             (set_users (before ++ u' :: after)
                (set_steps (steps w ++ [Write Collections.USERS]) w)))).
Proof.
  intros Hfaults Hfound. unfold lookup in *.
  unfold BaseRepository.update_by_id, Motor.find_one_and_update.
  destruct (ObjectId user_id_) as [object_id|] eqn:Hid; [| discriminate].
  destruct (@update_first_split User _ (fun r => String.eqb (row_id r) object_id)
              (fun r => with_updated_at (clock w (tick w)) (data r))
              (users w) u Hfound) as [before [after [Hsplit [Hupdate Hbefore]]]].
  exists before, after. split; [exact Hsplit |].
  split.
  { intros x Hx. simpl. specialize (Hbefore x Hx). simpl in Hbefore. rewrite Hbefore.
    reflexivity. }
  unfold bind, try, utcnow, round_trip, Motor.write_requested, ret.
  cbn -[Motor.update_first with_updated_at].
  rewrite Hfaults.
  cbn -[Motor.update_first with_updated_at].
  match goal with
  | |- context [Motor.update_first ?p ?f ?l] =>
      change (Motor.update_first p f l)
        with (Motor.update_first (fun r : User => String.eqb (row_id r) object_id)
                (fun r => with_updated_at (clock w (tick w)) (data r))
                (users w))
  end.
  rewrite Hupdate.
  cbn -[with_updated_at].
  reflexivity.
Qed.



(** ** The actions of the admin panel *)

Lemma admin_notification_run (user_id_ : string) (type_ : NotificationType.t)
    (title_ message_ document_id_ : string) (w : World) :
  no_faults w ->
  exists n w',
    DocumentActionService._create_notification user_id_ type_ title_ message_
      document_id_ w = (Return tt, w')
    /\ notifications w' = notifications w ++ [n]
    /\ user_id n = user_id_
    /\ concerns document_id_ type_ n
    /\ ledger w' = ledger w
    /\ users w' = users w
    /\ fault w' = fault w.
Proof.
  intros Hfaults.
  unfold DocumentActionService._create_notification, BaseRepository.create,
    Motor.insert_one, bind, utcnow, round_trip, Motor.write_requested, ret.
  cbn -[with_id with_updated_at with_created_at]. rewrite Hfaults.
  do 2 eexists. split; [reflexivity |]. repeat split.
Qed.

Lemma admin_fanout_run (user_id_ : string) (type_ : NotificationType.t)
    (title_ message_ document_id_ : string) (w : World) :
  no_faults w ->
  exists n w',
    attempt Fanout
      (DocumentActionService._create_notification user_id_ type_ title_ message_
         document_id_) w = (Return tt, w')
    /\ notifications w' = notifications w ++ [n]
    /\ user_id n = user_id_
    /\ concerns document_id_ type_ n
    /\ ledger w' = ledger w
    /\ users w' = users w
    /\ fault w' = fault w.
Proof.
  intros Hfaults. unfold attempt.
  match goal with
  | |- context [DocumentActionService._create_notification ?u ?t ?ti ?m ?i ?W] =>
      destruct (@admin_notification_run u t ti m i W)
        as [n [w' [Hrun Hrest]]]; [intro k; apply Hfaults |]
  end.
  exists n, w'. rewrite Hrun. split; [reflexivity | exact Hrest].
Qed.

Lemma notify_each_run (l : list User) (type_ : NotificationType.t)
    (title_ message_ document_id_ : string) (w : World) :
  no_faults w ->
  exists created w',
    for_each l tt
      (fun _ user =>
         DocumentActionService._create_notification (user_oid user) type_ title_
           message_ document_id_) w = (Return tt, w')
    /\ notifications w' = notifications w ++ created
    /\ map user_id created = map user_oid l
    /\ Forall (concerns document_id_ type_) created
    /\ ledger w' = ledger w
    /\ users w' = users w
    /\ fault w' = fault w.
Proof.
  revert w. induction l as [|u l IH]; intros w Hfaults.
  - exists [], w. simpl. unfold ret. rewrite app_nil_r. repeat split. constructor.
  - simpl for_each. unfold bind at 1.
    destruct (@admin_notification_run (user_oid u) type_ title_ message_ document_id_ w
                Hfaults)
      as [n [w1 [Hrun [Hnotes [Huser [Hconcerns [Hledger [Husers Hfault]]]]]]]].
    rewrite Hrun.
    destruct (IH w1) as [created [w' [Hrest [Hnotes' [Hmap [Hall [Hledger' [Husers' Hfault']]]]]]]];
      [intro k; rewrite Hfault; apply Hfaults |].
    exists (n :: created), w'. split; [exact Hrest |].
    split; [rewrite Hnotes', Hnotes, <- app_assoc; reflexivity |].
    split; [simpl; rewrite Huser, Hmap; reflexivity |].
    split; [constructor; assumption |].
    split; [rewrite Hledger', Hledger; reflexivity |].
    split; [rewrite Husers', Husers; reflexivity | rewrite Hfault', Hfault; reflexivity].
Qed.

Lemma admin_department_run (department_id_ : string) (type_ : NotificationType.t)
    (title_ message_ document_id_ : string) (w : World) :
  no_faults w ->
  exists created w',
    attempt Fanout
      (DocumentActionService._notify_department_users department_id_ type_ title_
         message_ document_id_) w = (Return tt, w')
    /\ notifications w' = notifications w ++ created
    /\ map user_id created = map user_oid (department_page department_id_ w)
    /\ Forall (concerns document_id_ type_) created
    /\ ledger w' = ledger w
    /\ fault w' = fault w.
Proof.
  intros Hfaults.
  unfold attempt, DocumentActionService._notify_department_users.
  unfold bind at 1.
  unfold UserRepository.find_by_department, BaseRepository.find_many, Motor.find.
  unfold bind at 1. unfold round_trip at 1. settle. rewrite Hfaults. cbv beta iota zeta.
  change (@rows User _) with users. settle.
  match goal with
  | |- context [for_each ?l tt _ ?W] =>
      destruct (@notify_each_run l type_ title_ message_ document_id_ W)
        as [created [w' [Hrun [Hnotes [Hmap [Hall [Hledger [_ Hfault]]]]]]]];
        [intro k; apply Hfaults |]
  end.
  exists created, w'. rewrite Hrun. split; [reflexivity |].
  split; [exact Hnotes |]. split; [exact Hmap |]. split; [exact Hall |].
  split; [exact Hledger | exact Hfault].
Qed.

Lemma find_department_answers (id : string) (w : World) :
  exists r w',
    DepartmentRepository.find_by_id id w = (Return r, w')
    /\ collections w' = collections w
    /\ fault w' = fault w.
Proof.
  unfold DepartmentRepository.find_by_id, BaseRepository.find_by_id, Motor.find_one,
    try, bind, round_trip, raise, ret.
  destruct (ObjectId id); [| do 2 eexists; repeat split].
  destruct (fault w (tick w)); do 2 eexists; repeat split.
Qed.




